(** * MassDisposer: a shallow embedding of [MassDisposer.py]

    The script authenticates against an asset-management REST API, reads
    asset identifiers from a CSV file, loads two JSON templates and, for
    each asset, issues a status update followed by a feed entry.

    The embedding follows the script function by function.  Everything the
    script does to the outside (HTTP calls, file opens, console lines,
    sleeps) is recorded in a trace; everything the outside answers (HTTP
    outcomes, file contents) comes from a [world] the functions are
    parametrised by.  Python exceptions are the [Raise] results of an
    error-and-state monad, and the dictionaries the script mutates live in
    a heap of objects addressed by location. *)

From Stdlib Require Import Ascii String ZArith NArith Lia.
From stdpp Require Import base option list strings pretty gmap.

Local Open Scope Z_scope.
Local Open Scope nat_scope.

(** ** Python text

    A [str] is held as its UTF-8 bytes: a character is one byte below
    128, or a lead byte followed by one to three continuation bytes.
    [chars] cuts a string into its characters and [code_point] numbers a
    character, so that [str.isspace()], [str.strip()] and [str.upper()]
    are the Unicode ones, as CPython 3.11 has them (Unicode 14).  The
    characters the script itself names, the double quote among them, are
    ASCII, where a character is its byte. *)

Module UnicodeData.

Local Open Scope N_scope.

(** The code points for which [str.isspace()] holds. *)
Definition whitespace : list N :=
  [0x9; 0xa; 0xb; 0xc; 0xd; 0x1c; 0x1d; 0x1e; 0x1f; 0x20; 0x85; 0xa0;
   0x1680; 0x2000; 0x2001; 0x2002; 0x2003; 0x2004; 0x2005; 0x2006; 0x2007;
   0x2008; 0x2009; 0x200a; 0x2028; 0x2029; 0x202f; 0x205f; 0x3000].

(** [str.upper()] outside ASCII: every code point above 127 that
    upper-casing changes, with the code points it becomes (one, two or
    three: the full case mapping). *)
Definition upper_table : list (N * list N) :=
  [(0xb5, [0x39c]); (0xdf, [0x53; 0x53]); (0xe0, [0xc0]); (0xe1, [0xc1]);
   (0xe2, [0xc2]); (0xe3, [0xc3]); (0xe4, [0xc4]); (0xe5, [0xc5]);
   (0xe6, [0xc6]); (0xe7, [0xc7]); (0xe8, [0xc8]); (0xe9, [0xc9]);
   (0xea, [0xca]); (0xeb, [0xcb]); (0xec, [0xcc]); (0xed, [0xcd]);
   (0xee, [0xce]); (0xef, [0xcf]); (0xf0, [0xd0]); (0xf1, [0xd1]);
   (0xf2, [0xd2]); (0xf3, [0xd3]); (0xf4, [0xd4]); (0xf5, [0xd5]);
   (0xf6, [0xd6]); (0xf8, [0xd8]); (0xf9, [0xd9]); (0xfa, [0xda]);
   (0xfb, [0xdb]); (0xfc, [0xdc]); (0xfd, [0xdd]); (0xfe, [0xde]);
   (0xff, [0x178]); (0x101, [0x100]); (0x103, [0x102]); (0x105, [0x104]);
   (0x107, [0x106]); (0x109, [0x108]); (0x10b, [0x10a]); (0x10d, [0x10c]);
   (0x10f, [0x10e]); (0x111, [0x110]); (0x113, [0x112]); (0x115, [0x114]);
   (0x117, [0x116]); (0x119, [0x118]); (0x11b, [0x11a]); (0x11d, [0x11c]);
   (0x11f, [0x11e]); (0x121, [0x120]); (0x123, [0x122]); (0x125, [0x124]);
   (0x127, [0x126]); (0x129, [0x128]); (0x12b, [0x12a]); (0x12d, [0x12c]);
   (0x12f, [0x12e]); (0x131, [0x49]); (0x133, [0x132]); (0x135, [0x134]);
   (0x137, [0x136]); (0x13a, [0x139]); (0x13c, [0x13b]); (0x13e, [0x13d]);
   (0x140, [0x13f]); (0x142, [0x141]); (0x144, [0x143]); (0x146, [0x145]);
   (0x148, [0x147]); (0x149, [0x2bc; 0x4e]); (0x14b, [0x14a]);
   (0x14d, [0x14c]); (0x14f, [0x14e]); (0x151, [0x150]); (0x153, [0x152]);
   (0x155, [0x154]); (0x157, [0x156]); (0x159, [0x158]); (0x15b, [0x15a]);
   (0x15d, [0x15c]); (0x15f, [0x15e]); (0x161, [0x160]); (0x163, [0x162]);
   (0x165, [0x164]); (0x167, [0x166]); (0x169, [0x168]); (0x16b, [0x16a]);
   (0x16d, [0x16c]); (0x16f, [0x16e]); (0x171, [0x170]); (0x173, [0x172]);
   (0x175, [0x174]); (0x177, [0x176]); (0x17a, [0x179]); (0x17c, [0x17b]);
   (0x17e, [0x17d]); (0x17f, [0x53]); (0x180, [0x243]); (0x183, [0x182]);
   (0x185, [0x184]); (0x188, [0x187]); (0x18c, [0x18b]); (0x192, [0x191]);
   (0x195, [0x1f6]); (0x199, [0x198]); (0x19a, [0x23d]); (0x19e, [0x220]);
   (0x1a1, [0x1a0]); (0x1a3, [0x1a2]); (0x1a5, [0x1a4]); (0x1a8, [0x1a7]);
   (0x1ad, [0x1ac]); (0x1b0, [0x1af]); (0x1b4, [0x1b3]); (0x1b6, [0x1b5]);
   (0x1b9, [0x1b8]); (0x1bd, [0x1bc]); (0x1bf, [0x1f7]); (0x1c5, [0x1c4]);
   (0x1c6, [0x1c4]); (0x1c8, [0x1c7]); (0x1c9, [0x1c7]); (0x1cb, [0x1ca]);
   (0x1cc, [0x1ca]); (0x1ce, [0x1cd]); (0x1d0, [0x1cf]); (0x1d2, [0x1d1]);
   (0x1d4, [0x1d3]); (0x1d6, [0x1d5]); (0x1d8, [0x1d7]); (0x1da, [0x1d9]);
   (0x1dc, [0x1db]); (0x1dd, [0x18e]); (0x1df, [0x1de]); (0x1e1, [0x1e0]);
   (0x1e3, [0x1e2]); (0x1e5, [0x1e4]); (0x1e7, [0x1e6]); (0x1e9, [0x1e8]);
   (0x1eb, [0x1ea]); (0x1ed, [0x1ec]); (0x1ef, [0x1ee]);
   (0x1f0, [0x4a; 0x30c]); (0x1f2, [0x1f1]); (0x1f3, [0x1f1]);
   (0x1f5, [0x1f4]); (0x1f9, [0x1f8]); (0x1fb, [0x1fa]); (0x1fd, [0x1fc]);
   (0x1ff, [0x1fe]); (0x201, [0x200]); (0x203, [0x202]); (0x205, [0x204]);
   (0x207, [0x206]); (0x209, [0x208]); (0x20b, [0x20a]); (0x20d, [0x20c]);
   (0x20f, [0x20e]); (0x211, [0x210]); (0x213, [0x212]); (0x215, [0x214]);
   (0x217, [0x216]); (0x219, [0x218]); (0x21b, [0x21a]); (0x21d, [0x21c]);
   (0x21f, [0x21e]); (0x223, [0x222]); (0x225, [0x224]); (0x227, [0x226]);
   (0x229, [0x228]); (0x22b, [0x22a]); (0x22d, [0x22c]); (0x22f, [0x22e]);
   (0x231, [0x230]); (0x233, [0x232]); (0x23c, [0x23b]); (0x23f, [0x2c7e]);
   (0x240, [0x2c7f]); (0x242, [0x241]); (0x247, [0x246]); (0x249, [0x248]);
   (0x24b, [0x24a]); (0x24d, [0x24c]); (0x24f, [0x24e]); (0x250, [0x2c6f]);
   (0x251, [0x2c6d]); (0x252, [0x2c70]); (0x253, [0x181]); (0x254, [0x186]);
   (0x256, [0x189]); (0x257, [0x18a]); (0x259, [0x18f]); (0x25b, [0x190]);
   (0x25c, [0xa7ab]); (0x260, [0x193]); (0x261, [0xa7ac]); (0x263, [0x194]);
   (0x265, [0xa78d]); (0x266, [0xa7aa]); (0x268, [0x197]); (0x269, [0x196]);
   (0x26a, [0xa7ae]); (0x26b, [0x2c62]); (0x26c, [0xa7ad]); (0x26f, [0x19c]);
   (0x271, [0x2c6e]); (0x272, [0x19d]); (0x275, [0x19f]); (0x27d, [0x2c64]);
   (0x280, [0x1a6]); (0x282, [0xa7c5]); (0x283, [0x1a9]); (0x287, [0xa7b1]);
   (0x288, [0x1ae]); (0x289, [0x244]); (0x28a, [0x1b1]); (0x28b, [0x1b2]);
   (0x28c, [0x245]); (0x292, [0x1b7]); (0x29d, [0xa7b2]); (0x29e, [0xa7b0]);
   (0x345, [0x399]); (0x371, [0x370]); (0x373, [0x372]); (0x377, [0x376]);
   (0x37b, [0x3fd]); (0x37c, [0x3fe]); (0x37d, [0x3ff]);
   (0x390, [0x399; 0x308; 0x301]); (0x3ac, [0x386]); (0x3ad, [0x388]);
   (0x3ae, [0x389]); (0x3af, [0x38a]); (0x3b0, [0x3a5; 0x308; 0x301]);
   (0x3b1, [0x391]); (0x3b2, [0x392]); (0x3b3, [0x393]); (0x3b4, [0x394]);
   (0x3b5, [0x395]); (0x3b6, [0x396]); (0x3b7, [0x397]); (0x3b8, [0x398]);
   (0x3b9, [0x399]); (0x3ba, [0x39a]); (0x3bb, [0x39b]); (0x3bc, [0x39c]);
   (0x3bd, [0x39d]); (0x3be, [0x39e]); (0x3bf, [0x39f]); (0x3c0, [0x3a0]);
   (0x3c1, [0x3a1]); (0x3c2, [0x3a3]); (0x3c3, [0x3a3]); (0x3c4, [0x3a4]);
   (0x3c5, [0x3a5]); (0x3c6, [0x3a6]); (0x3c7, [0x3a7]); (0x3c8, [0x3a8]);
   (0x3c9, [0x3a9]); (0x3ca, [0x3aa]); (0x3cb, [0x3ab]); (0x3cc, [0x38c]);
   (0x3cd, [0x38e]); (0x3ce, [0x38f]); (0x3d0, [0x392]); (0x3d1, [0x398]);
   (0x3d5, [0x3a6]); (0x3d6, [0x3a0]); (0x3d7, [0x3cf]); (0x3d9, [0x3d8]);
   (0x3db, [0x3da]); (0x3dd, [0x3dc]); (0x3df, [0x3de]); (0x3e1, [0x3e0]);
   (0x3e3, [0x3e2]); (0x3e5, [0x3e4]); (0x3e7, [0x3e6]); (0x3e9, [0x3e8]);
   (0x3eb, [0x3ea]); (0x3ed, [0x3ec]); (0x3ef, [0x3ee]); (0x3f0, [0x39a]);
   (0x3f1, [0x3a1]); (0x3f2, [0x3f9]); (0x3f3, [0x37f]); (0x3f5, [0x395]);
   (0x3f8, [0x3f7]); (0x3fb, [0x3fa]); (0x430, [0x410]); (0x431, [0x411]);
   (0x432, [0x412]); (0x433, [0x413]); (0x434, [0x414]); (0x435, [0x415]);
   (0x436, [0x416]); (0x437, [0x417]); (0x438, [0x418]); (0x439, [0x419]);
   (0x43a, [0x41a]); (0x43b, [0x41b]); (0x43c, [0x41c]); (0x43d, [0x41d]);
   (0x43e, [0x41e]); (0x43f, [0x41f]); (0x440, [0x420]); (0x441, [0x421]);
   (0x442, [0x422]); (0x443, [0x423]); (0x444, [0x424]); (0x445, [0x425]);
   (0x446, [0x426]); (0x447, [0x427]); (0x448, [0x428]); (0x449, [0x429]);
   (0x44a, [0x42a]); (0x44b, [0x42b]); (0x44c, [0x42c]); (0x44d, [0x42d]);
   (0x44e, [0x42e]); (0x44f, [0x42f]); (0x450, [0x400]); (0x451, [0x401]);
   (0x452, [0x402]); (0x453, [0x403]); (0x454, [0x404]); (0x455, [0x405]);
   (0x456, [0x406]); (0x457, [0x407]); (0x458, [0x408]); (0x459, [0x409]);
   (0x45a, [0x40a]); (0x45b, [0x40b]); (0x45c, [0x40c]); (0x45d, [0x40d]);
   (0x45e, [0x40e]); (0x45f, [0x40f]); (0x461, [0x460]); (0x463, [0x462]);
   (0x465, [0x464]); (0x467, [0x466]); (0x469, [0x468]); (0x46b, [0x46a]);
   (0x46d, [0x46c]); (0x46f, [0x46e]); (0x471, [0x470]); (0x473, [0x472]);
   (0x475, [0x474]); (0x477, [0x476]); (0x479, [0x478]); (0x47b, [0x47a]);
   (0x47d, [0x47c]); (0x47f, [0x47e]); (0x481, [0x480]); (0x48b, [0x48a]);
   (0x48d, [0x48c]); (0x48f, [0x48e]); (0x491, [0x490]); (0x493, [0x492]);
   (0x495, [0x494]); (0x497, [0x496]); (0x499, [0x498]); (0x49b, [0x49a]);
   (0x49d, [0x49c]); (0x49f, [0x49e]); (0x4a1, [0x4a0]); (0x4a3, [0x4a2]);
   (0x4a5, [0x4a4]); (0x4a7, [0x4a6]); (0x4a9, [0x4a8]); (0x4ab, [0x4aa]);
   (0x4ad, [0x4ac]); (0x4af, [0x4ae]); (0x4b1, [0x4b0]); (0x4b3, [0x4b2]);
   (0x4b5, [0x4b4]); (0x4b7, [0x4b6]); (0x4b9, [0x4b8]); (0x4bb, [0x4ba]);
   (0x4bd, [0x4bc]); (0x4bf, [0x4be]); (0x4c2, [0x4c1]); (0x4c4, [0x4c3]);
   (0x4c6, [0x4c5]); (0x4c8, [0x4c7]); (0x4ca, [0x4c9]); (0x4cc, [0x4cb]);
   (0x4ce, [0x4cd]); (0x4cf, [0x4c0]); (0x4d1, [0x4d0]); (0x4d3, [0x4d2]);
   (0x4d5, [0x4d4]); (0x4d7, [0x4d6]); (0x4d9, [0x4d8]); (0x4db, [0x4da]);
   (0x4dd, [0x4dc]); (0x4df, [0x4de]); (0x4e1, [0x4e0]); (0x4e3, [0x4e2]);
   (0x4e5, [0x4e4]); (0x4e7, [0x4e6]); (0x4e9, [0x4e8]); (0x4eb, [0x4ea]);
   (0x4ed, [0x4ec]); (0x4ef, [0x4ee]); (0x4f1, [0x4f0]); (0x4f3, [0x4f2]);
   (0x4f5, [0x4f4]); (0x4f7, [0x4f6]); (0x4f9, [0x4f8]); (0x4fb, [0x4fa]);
   (0x4fd, [0x4fc]); (0x4ff, [0x4fe]); (0x501, [0x500]); (0x503, [0x502]);
   (0x505, [0x504]); (0x507, [0x506]); (0x509, [0x508]); (0x50b, [0x50a]);
   (0x50d, [0x50c]); (0x50f, [0x50e]); (0x511, [0x510]); (0x513, [0x512]);
   (0x515, [0x514]); (0x517, [0x516]); (0x519, [0x518]); (0x51b, [0x51a]);
   (0x51d, [0x51c]); (0x51f, [0x51e]); (0x521, [0x520]); (0x523, [0x522]);
   (0x525, [0x524]); (0x527, [0x526]); (0x529, [0x528]); (0x52b, [0x52a]);
   (0x52d, [0x52c]); (0x52f, [0x52e]); (0x561, [0x531]); (0x562, [0x532]);
   (0x563, [0x533]); (0x564, [0x534]); (0x565, [0x535]); (0x566, [0x536]);
   (0x567, [0x537]); (0x568, [0x538]); (0x569, [0x539]); (0x56a, [0x53a]);
   (0x56b, [0x53b]); (0x56c, [0x53c]); (0x56d, [0x53d]); (0x56e, [0x53e]);
   (0x56f, [0x53f]); (0x570, [0x540]); (0x571, [0x541]); (0x572, [0x542]);
   (0x573, [0x543]); (0x574, [0x544]); (0x575, [0x545]); (0x576, [0x546]);
   (0x577, [0x547]); (0x578, [0x548]); (0x579, [0x549]); (0x57a, [0x54a]);
   (0x57b, [0x54b]); (0x57c, [0x54c]); (0x57d, [0x54d]); (0x57e, [0x54e]);
   (0x57f, [0x54f]); (0x580, [0x550]); (0x581, [0x551]); (0x582, [0x552]);
   (0x583, [0x553]); (0x584, [0x554]); (0x585, [0x555]); (0x586, [0x556]);
   (0x587, [0x535; 0x552]); (0x10d0, [0x1c90]); (0x10d1, [0x1c91]);
   (0x10d2, [0x1c92]); (0x10d3, [0x1c93]); (0x10d4, [0x1c94]);
   (0x10d5, [0x1c95]); (0x10d6, [0x1c96]); (0x10d7, [0x1c97]);
   (0x10d8, [0x1c98]); (0x10d9, [0x1c99]); (0x10da, [0x1c9a]);
   (0x10db, [0x1c9b]); (0x10dc, [0x1c9c]); (0x10dd, [0x1c9d]);
   (0x10de, [0x1c9e]); (0x10df, [0x1c9f]); (0x10e0, [0x1ca0]);
   (0x10e1, [0x1ca1]); (0x10e2, [0x1ca2]); (0x10e3, [0x1ca3]);
   (0x10e4, [0x1ca4]); (0x10e5, [0x1ca5]); (0x10e6, [0x1ca6]);
   (0x10e7, [0x1ca7]); (0x10e8, [0x1ca8]); (0x10e9, [0x1ca9]);
   (0x10ea, [0x1caa]); (0x10eb, [0x1cab]); (0x10ec, [0x1cac]);
   (0x10ed, [0x1cad]); (0x10ee, [0x1cae]); (0x10ef, [0x1caf]);
   (0x10f0, [0x1cb0]); (0x10f1, [0x1cb1]); (0x10f2, [0x1cb2]);
   (0x10f3, [0x1cb3]); (0x10f4, [0x1cb4]); (0x10f5, [0x1cb5]);
   (0x10f6, [0x1cb6]); (0x10f7, [0x1cb7]); (0x10f8, [0x1cb8]);
   (0x10f9, [0x1cb9]); (0x10fa, [0x1cba]); (0x10fd, [0x1cbd]);
   (0x10fe, [0x1cbe]); (0x10ff, [0x1cbf]); (0x13f8, [0x13f0]);
   (0x13f9, [0x13f1]); (0x13fa, [0x13f2]); (0x13fb, [0x13f3]);
   (0x13fc, [0x13f4]); (0x13fd, [0x13f5]); (0x1c80, [0x412]);
   (0x1c81, [0x414]); (0x1c82, [0x41e]); (0x1c83, [0x421]); (0x1c84, [0x422]);
   (0x1c85, [0x422]); (0x1c86, [0x42a]); (0x1c87, [0x462]);
   (0x1c88, [0xa64a]); (0x1d79, [0xa77d]); (0x1d7d, [0x2c63]);
   (0x1d8e, [0xa7c6]); (0x1e01, [0x1e00]); (0x1e03, [0x1e02]);
   (0x1e05, [0x1e04]); (0x1e07, [0x1e06]); (0x1e09, [0x1e08]);
   (0x1e0b, [0x1e0a]); (0x1e0d, [0x1e0c]); (0x1e0f, [0x1e0e]);
   (0x1e11, [0x1e10]); (0x1e13, [0x1e12]); (0x1e15, [0x1e14]);
   (0x1e17, [0x1e16]); (0x1e19, [0x1e18]); (0x1e1b, [0x1e1a]);
   (0x1e1d, [0x1e1c]); (0x1e1f, [0x1e1e]); (0x1e21, [0x1e20]);
   (0x1e23, [0x1e22]); (0x1e25, [0x1e24]); (0x1e27, [0x1e26]);
   (0x1e29, [0x1e28]); (0x1e2b, [0x1e2a]); (0x1e2d, [0x1e2c]);
   (0x1e2f, [0x1e2e]); (0x1e31, [0x1e30]); (0x1e33, [0x1e32]);
   (0x1e35, [0x1e34]); (0x1e37, [0x1e36]); (0x1e39, [0x1e38]);
   (0x1e3b, [0x1e3a]); (0x1e3d, [0x1e3c]); (0x1e3f, [0x1e3e]);
   (0x1e41, [0x1e40]); (0x1e43, [0x1e42]); (0x1e45, [0x1e44]);
   (0x1e47, [0x1e46]); (0x1e49, [0x1e48]); (0x1e4b, [0x1e4a]);
   (0x1e4d, [0x1e4c]); (0x1e4f, [0x1e4e]); (0x1e51, [0x1e50]);
   (0x1e53, [0x1e52]); (0x1e55, [0x1e54]); (0x1e57, [0x1e56]);
   (0x1e59, [0x1e58]); (0x1e5b, [0x1e5a]); (0x1e5d, [0x1e5c]);
   (0x1e5f, [0x1e5e]); (0x1e61, [0x1e60]); (0x1e63, [0x1e62]);
   (0x1e65, [0x1e64]); (0x1e67, [0x1e66]); (0x1e69, [0x1e68]);
   (0x1e6b, [0x1e6a]); (0x1e6d, [0x1e6c]); (0x1e6f, [0x1e6e]);
   (0x1e71, [0x1e70]); (0x1e73, [0x1e72]); (0x1e75, [0x1e74]);
   (0x1e77, [0x1e76]); (0x1e79, [0x1e78]); (0x1e7b, [0x1e7a]);
   (0x1e7d, [0x1e7c]); (0x1e7f, [0x1e7e]); (0x1e81, [0x1e80]);
   (0x1e83, [0x1e82]); (0x1e85, [0x1e84]); (0x1e87, [0x1e86]);
   (0x1e89, [0x1e88]); (0x1e8b, [0x1e8a]); (0x1e8d, [0x1e8c]);
   (0x1e8f, [0x1e8e]); (0x1e91, [0x1e90]); (0x1e93, [0x1e92]);
   (0x1e95, [0x1e94]); (0x1e96, [0x48; 0x331]); (0x1e97, [0x54; 0x308]);
   (0x1e98, [0x57; 0x30a]); (0x1e99, [0x59; 0x30a]); (0x1e9a, [0x41; 0x2be]);
   (0x1e9b, [0x1e60]); (0x1ea1, [0x1ea0]); (0x1ea3, [0x1ea2]);
   (0x1ea5, [0x1ea4]); (0x1ea7, [0x1ea6]); (0x1ea9, [0x1ea8]);
   (0x1eab, [0x1eaa]); (0x1ead, [0x1eac]); (0x1eaf, [0x1eae]);
   (0x1eb1, [0x1eb0]); (0x1eb3, [0x1eb2]); (0x1eb5, [0x1eb4]);
   (0x1eb7, [0x1eb6]); (0x1eb9, [0x1eb8]); (0x1ebb, [0x1eba]);
   (0x1ebd, [0x1ebc]); (0x1ebf, [0x1ebe]); (0x1ec1, [0x1ec0]);
   (0x1ec3, [0x1ec2]); (0x1ec5, [0x1ec4]); (0x1ec7, [0x1ec6]);
   (0x1ec9, [0x1ec8]); (0x1ecb, [0x1eca]); (0x1ecd, [0x1ecc]);
   (0x1ecf, [0x1ece]); (0x1ed1, [0x1ed0]); (0x1ed3, [0x1ed2]);
   (0x1ed5, [0x1ed4]); (0x1ed7, [0x1ed6]); (0x1ed9, [0x1ed8]);
   (0x1edb, [0x1eda]); (0x1edd, [0x1edc]); (0x1edf, [0x1ede]);
   (0x1ee1, [0x1ee0]); (0x1ee3, [0x1ee2]); (0x1ee5, [0x1ee4]);
   (0x1ee7, [0x1ee6]); (0x1ee9, [0x1ee8]); (0x1eeb, [0x1eea]);
   (0x1eed, [0x1eec]); (0x1eef, [0x1eee]); (0x1ef1, [0x1ef0]);
   (0x1ef3, [0x1ef2]); (0x1ef5, [0x1ef4]); (0x1ef7, [0x1ef6]);
   (0x1ef9, [0x1ef8]); (0x1efb, [0x1efa]); (0x1efd, [0x1efc]);
   (0x1eff, [0x1efe]); (0x1f00, [0x1f08]); (0x1f01, [0x1f09]);
   (0x1f02, [0x1f0a]); (0x1f03, [0x1f0b]); (0x1f04, [0x1f0c]);
   (0x1f05, [0x1f0d]); (0x1f06, [0x1f0e]); (0x1f07, [0x1f0f]);
   (0x1f10, [0x1f18]); (0x1f11, [0x1f19]); (0x1f12, [0x1f1a]);
   (0x1f13, [0x1f1b]); (0x1f14, [0x1f1c]); (0x1f15, [0x1f1d]);
   (0x1f20, [0x1f28]); (0x1f21, [0x1f29]); (0x1f22, [0x1f2a]);
   (0x1f23, [0x1f2b]); (0x1f24, [0x1f2c]); (0x1f25, [0x1f2d]);
   (0x1f26, [0x1f2e]); (0x1f27, [0x1f2f]); (0x1f30, [0x1f38]);
   (0x1f31, [0x1f39]); (0x1f32, [0x1f3a]); (0x1f33, [0x1f3b]);
   (0x1f34, [0x1f3c]); (0x1f35, [0x1f3d]); (0x1f36, [0x1f3e]);
   (0x1f37, [0x1f3f]); (0x1f40, [0x1f48]); (0x1f41, [0x1f49]);
   (0x1f42, [0x1f4a]); (0x1f43, [0x1f4b]); (0x1f44, [0x1f4c]);
   (0x1f45, [0x1f4d]); (0x1f50, [0x3a5; 0x313]); (0x1f51, [0x1f59]);
   (0x1f52, [0x3a5; 0x313; 0x300]); (0x1f53, [0x1f5b]);
   (0x1f54, [0x3a5; 0x313; 0x301]); (0x1f55, [0x1f5d]);
   (0x1f56, [0x3a5; 0x313; 0x342]); (0x1f57, [0x1f5f]); (0x1f60, [0x1f68]);
   (0x1f61, [0x1f69]); (0x1f62, [0x1f6a]); (0x1f63, [0x1f6b]);
   (0x1f64, [0x1f6c]); (0x1f65, [0x1f6d]); (0x1f66, [0x1f6e]);
   (0x1f67, [0x1f6f]); (0x1f70, [0x1fba]); (0x1f71, [0x1fbb]);
   (0x1f72, [0x1fc8]); (0x1f73, [0x1fc9]); (0x1f74, [0x1fca]);
   (0x1f75, [0x1fcb]); (0x1f76, [0x1fda]); (0x1f77, [0x1fdb]);
   (0x1f78, [0x1ff8]); (0x1f79, [0x1ff9]); (0x1f7a, [0x1fea]);
   (0x1f7b, [0x1feb]); (0x1f7c, [0x1ffa]); (0x1f7d, [0x1ffb]);
   (0x1f80, [0x1f08; 0x399]); (0x1f81, [0x1f09; 0x399]);
   (0x1f82, [0x1f0a; 0x399]); (0x1f83, [0x1f0b; 0x399]);
   (0x1f84, [0x1f0c; 0x399]); (0x1f85, [0x1f0d; 0x399]);
   (0x1f86, [0x1f0e; 0x399]); (0x1f87, [0x1f0f; 0x399]);
   (0x1f88, [0x1f08; 0x399]); (0x1f89, [0x1f09; 0x399]);
   (0x1f8a, [0x1f0a; 0x399]); (0x1f8b, [0x1f0b; 0x399]);
   (0x1f8c, [0x1f0c; 0x399]); (0x1f8d, [0x1f0d; 0x399]);
   (0x1f8e, [0x1f0e; 0x399]); (0x1f8f, [0x1f0f; 0x399]);
   (0x1f90, [0x1f28; 0x399]); (0x1f91, [0x1f29; 0x399]);
   (0x1f92, [0x1f2a; 0x399]); (0x1f93, [0x1f2b; 0x399]);
   (0x1f94, [0x1f2c; 0x399]); (0x1f95, [0x1f2d; 0x399]);
   (0x1f96, [0x1f2e; 0x399]); (0x1f97, [0x1f2f; 0x399]);
   (0x1f98, [0x1f28; 0x399]); (0x1f99, [0x1f29; 0x399]);
   (0x1f9a, [0x1f2a; 0x399]); (0x1f9b, [0x1f2b; 0x399]);
   (0x1f9c, [0x1f2c; 0x399]); (0x1f9d, [0x1f2d; 0x399]);
   (0x1f9e, [0x1f2e; 0x399]); (0x1f9f, [0x1f2f; 0x399]);
   (0x1fa0, [0x1f68; 0x399]); (0x1fa1, [0x1f69; 0x399]);
   (0x1fa2, [0x1f6a; 0x399]); (0x1fa3, [0x1f6b; 0x399]);
   (0x1fa4, [0x1f6c; 0x399]); (0x1fa5, [0x1f6d; 0x399]);
   (0x1fa6, [0x1f6e; 0x399]); (0x1fa7, [0x1f6f; 0x399]);
   (0x1fa8, [0x1f68; 0x399]); (0x1fa9, [0x1f69; 0x399]);
   (0x1faa, [0x1f6a; 0x399]); (0x1fab, [0x1f6b; 0x399]);
   (0x1fac, [0x1f6c; 0x399]); (0x1fad, [0x1f6d; 0x399]);
   (0x1fae, [0x1f6e; 0x399]); (0x1faf, [0x1f6f; 0x399]); (0x1fb0, [0x1fb8]);
   (0x1fb1, [0x1fb9]); (0x1fb2, [0x1fba; 0x399]); (0x1fb3, [0x391; 0x399]);
   (0x1fb4, [0x386; 0x399]); (0x1fb6, [0x391; 0x342]);
   (0x1fb7, [0x391; 0x342; 0x399]); (0x1fbc, [0x391; 0x399]);
   (0x1fbe, [0x399]); (0x1fc2, [0x1fca; 0x399]); (0x1fc3, [0x397; 0x399]);
   (0x1fc4, [0x389; 0x399]); (0x1fc6, [0x397; 0x342]);
   (0x1fc7, [0x397; 0x342; 0x399]); (0x1fcc, [0x397; 0x399]);
   (0x1fd0, [0x1fd8]); (0x1fd1, [0x1fd9]); (0x1fd2, [0x399; 0x308; 0x300]);
   (0x1fd3, [0x399; 0x308; 0x301]); (0x1fd6, [0x399; 0x342]);
   (0x1fd7, [0x399; 0x308; 0x342]); (0x1fe0, [0x1fe8]); (0x1fe1, [0x1fe9]);
   (0x1fe2, [0x3a5; 0x308; 0x300]); (0x1fe3, [0x3a5; 0x308; 0x301]);
   (0x1fe4, [0x3a1; 0x313]); (0x1fe5, [0x1fec]); (0x1fe6, [0x3a5; 0x342]);
   (0x1fe7, [0x3a5; 0x308; 0x342]); (0x1ff2, [0x1ffa; 0x399]);
   (0x1ff3, [0x3a9; 0x399]); (0x1ff4, [0x38f; 0x399]);
   (0x1ff6, [0x3a9; 0x342]); (0x1ff7, [0x3a9; 0x342; 0x399]);
   (0x1ffc, [0x3a9; 0x399]); (0x214e, [0x2132]); (0x2170, [0x2160]);
   (0x2171, [0x2161]); (0x2172, [0x2162]); (0x2173, [0x2163]);
   (0x2174, [0x2164]); (0x2175, [0x2165]); (0x2176, [0x2166]);
   (0x2177, [0x2167]); (0x2178, [0x2168]); (0x2179, [0x2169]);
   (0x217a, [0x216a]); (0x217b, [0x216b]); (0x217c, [0x216c]);
   (0x217d, [0x216d]); (0x217e, [0x216e]); (0x217f, [0x216f]);
   (0x2184, [0x2183]); (0x24d0, [0x24b6]); (0x24d1, [0x24b7]);
   (0x24d2, [0x24b8]); (0x24d3, [0x24b9]); (0x24d4, [0x24ba]);
   (0x24d5, [0x24bb]); (0x24d6, [0x24bc]); (0x24d7, [0x24bd]);
   (0x24d8, [0x24be]); (0x24d9, [0x24bf]); (0x24da, [0x24c0]);
   (0x24db, [0x24c1]); (0x24dc, [0x24c2]); (0x24dd, [0x24c3]);
   (0x24de, [0x24c4]); (0x24df, [0x24c5]); (0x24e0, [0x24c6]);
   (0x24e1, [0x24c7]); (0x24e2, [0x24c8]); (0x24e3, [0x24c9]);
   (0x24e4, [0x24ca]); (0x24e5, [0x24cb]); (0x24e6, [0x24cc]);
   (0x24e7, [0x24cd]); (0x24e8, [0x24ce]); (0x24e9, [0x24cf]);
   (0x2c30, [0x2c00]); (0x2c31, [0x2c01]); (0x2c32, [0x2c02]);
   (0x2c33, [0x2c03]); (0x2c34, [0x2c04]); (0x2c35, [0x2c05]);
   (0x2c36, [0x2c06]); (0x2c37, [0x2c07]); (0x2c38, [0x2c08]);
   (0x2c39, [0x2c09]); (0x2c3a, [0x2c0a]); (0x2c3b, [0x2c0b]);
   (0x2c3c, [0x2c0c]); (0x2c3d, [0x2c0d]); (0x2c3e, [0x2c0e]);
   (0x2c3f, [0x2c0f]); (0x2c40, [0x2c10]); (0x2c41, [0x2c11]);
   (0x2c42, [0x2c12]); (0x2c43, [0x2c13]); (0x2c44, [0x2c14]);
   (0x2c45, [0x2c15]); (0x2c46, [0x2c16]); (0x2c47, [0x2c17]);
   (0x2c48, [0x2c18]); (0x2c49, [0x2c19]); (0x2c4a, [0x2c1a]);
   (0x2c4b, [0x2c1b]); (0x2c4c, [0x2c1c]); (0x2c4d, [0x2c1d]);
   (0x2c4e, [0x2c1e]); (0x2c4f, [0x2c1f]); (0x2c50, [0x2c20]);
   (0x2c51, [0x2c21]); (0x2c52, [0x2c22]); (0x2c53, [0x2c23]);
   (0x2c54, [0x2c24]); (0x2c55, [0x2c25]); (0x2c56, [0x2c26]);
   (0x2c57, [0x2c27]); (0x2c58, [0x2c28]); (0x2c59, [0x2c29]);
   (0x2c5a, [0x2c2a]); (0x2c5b, [0x2c2b]); (0x2c5c, [0x2c2c]);
   (0x2c5d, [0x2c2d]); (0x2c5e, [0x2c2e]); (0x2c5f, [0x2c2f]);
   (0x2c61, [0x2c60]); (0x2c65, [0x23a]); (0x2c66, [0x23e]);
   (0x2c68, [0x2c67]); (0x2c6a, [0x2c69]); (0x2c6c, [0x2c6b]);
   (0x2c73, [0x2c72]); (0x2c76, [0x2c75]); (0x2c81, [0x2c80]);
   (0x2c83, [0x2c82]); (0x2c85, [0x2c84]); (0x2c87, [0x2c86]);
   (0x2c89, [0x2c88]); (0x2c8b, [0x2c8a]); (0x2c8d, [0x2c8c]);
   (0x2c8f, [0x2c8e]); (0x2c91, [0x2c90]); (0x2c93, [0x2c92]);
   (0x2c95, [0x2c94]); (0x2c97, [0x2c96]); (0x2c99, [0x2c98]);
   (0x2c9b, [0x2c9a]); (0x2c9d, [0x2c9c]); (0x2c9f, [0x2c9e]);
   (0x2ca1, [0x2ca0]); (0x2ca3, [0x2ca2]); (0x2ca5, [0x2ca4]);
   (0x2ca7, [0x2ca6]); (0x2ca9, [0x2ca8]); (0x2cab, [0x2caa]);
   (0x2cad, [0x2cac]); (0x2caf, [0x2cae]); (0x2cb1, [0x2cb0]);
   (0x2cb3, [0x2cb2]); (0x2cb5, [0x2cb4]); (0x2cb7, [0x2cb6]);
   (0x2cb9, [0x2cb8]); (0x2cbb, [0x2cba]); (0x2cbd, [0x2cbc]);
   (0x2cbf, [0x2cbe]); (0x2cc1, [0x2cc0]); (0x2cc3, [0x2cc2]);
   (0x2cc5, [0x2cc4]); (0x2cc7, [0x2cc6]); (0x2cc9, [0x2cc8]);
   (0x2ccb, [0x2cca]); (0x2ccd, [0x2ccc]); (0x2ccf, [0x2cce]);
   (0x2cd1, [0x2cd0]); (0x2cd3, [0x2cd2]); (0x2cd5, [0x2cd4]);
   (0x2cd7, [0x2cd6]); (0x2cd9, [0x2cd8]); (0x2cdb, [0x2cda]);
   (0x2cdd, [0x2cdc]); (0x2cdf, [0x2cde]); (0x2ce1, [0x2ce0]);
   (0x2ce3, [0x2ce2]); (0x2cec, [0x2ceb]); (0x2cee, [0x2ced]);
   (0x2cf3, [0x2cf2]); (0x2d00, [0x10a0]); (0x2d01, [0x10a1]);
   (0x2d02, [0x10a2]); (0x2d03, [0x10a3]); (0x2d04, [0x10a4]);
   (0x2d05, [0x10a5]); (0x2d06, [0x10a6]); (0x2d07, [0x10a7]);
   (0x2d08, [0x10a8]); (0x2d09, [0x10a9]); (0x2d0a, [0x10aa]);
   (0x2d0b, [0x10ab]); (0x2d0c, [0x10ac]); (0x2d0d, [0x10ad]);
   (0x2d0e, [0x10ae]); (0x2d0f, [0x10af]); (0x2d10, [0x10b0]);
   (0x2d11, [0x10b1]); (0x2d12, [0x10b2]); (0x2d13, [0x10b3]);
   (0x2d14, [0x10b4]); (0x2d15, [0x10b5]); (0x2d16, [0x10b6]);
   (0x2d17, [0x10b7]); (0x2d18, [0x10b8]); (0x2d19, [0x10b9]);
   (0x2d1a, [0x10ba]); (0x2d1b, [0x10bb]); (0x2d1c, [0x10bc]);
   (0x2d1d, [0x10bd]); (0x2d1e, [0x10be]); (0x2d1f, [0x10bf]);
   (0x2d20, [0x10c0]); (0x2d21, [0x10c1]); (0x2d22, [0x10c2]);
   (0x2d23, [0x10c3]); (0x2d24, [0x10c4]); (0x2d25, [0x10c5]);
   (0x2d27, [0x10c7]); (0x2d2d, [0x10cd]); (0xa641, [0xa640]);
   (0xa643, [0xa642]); (0xa645, [0xa644]); (0xa647, [0xa646]);
   (0xa649, [0xa648]); (0xa64b, [0xa64a]); (0xa64d, [0xa64c]);
   (0xa64f, [0xa64e]); (0xa651, [0xa650]); (0xa653, [0xa652]);
   (0xa655, [0xa654]); (0xa657, [0xa656]); (0xa659, [0xa658]);
   (0xa65b, [0xa65a]); (0xa65d, [0xa65c]); (0xa65f, [0xa65e]);
   (0xa661, [0xa660]); (0xa663, [0xa662]); (0xa665, [0xa664]);
   (0xa667, [0xa666]); (0xa669, [0xa668]); (0xa66b, [0xa66a]);
   (0xa66d, [0xa66c]); (0xa681, [0xa680]); (0xa683, [0xa682]);
   (0xa685, [0xa684]); (0xa687, [0xa686]); (0xa689, [0xa688]);
   (0xa68b, [0xa68a]); (0xa68d, [0xa68c]); (0xa68f, [0xa68e]);
   (0xa691, [0xa690]); (0xa693, [0xa692]); (0xa695, [0xa694]);
   (0xa697, [0xa696]); (0xa699, [0xa698]); (0xa69b, [0xa69a]);
   (0xa723, [0xa722]); (0xa725, [0xa724]); (0xa727, [0xa726]);
   (0xa729, [0xa728]); (0xa72b, [0xa72a]); (0xa72d, [0xa72c]);
   (0xa72f, [0xa72e]); (0xa733, [0xa732]); (0xa735, [0xa734]);
   (0xa737, [0xa736]); (0xa739, [0xa738]); (0xa73b, [0xa73a]);
   (0xa73d, [0xa73c]); (0xa73f, [0xa73e]); (0xa741, [0xa740]);
   (0xa743, [0xa742]); (0xa745, [0xa744]); (0xa747, [0xa746]);
   (0xa749, [0xa748]); (0xa74b, [0xa74a]); (0xa74d, [0xa74c]);
   (0xa74f, [0xa74e]); (0xa751, [0xa750]); (0xa753, [0xa752]);
   (0xa755, [0xa754]); (0xa757, [0xa756]); (0xa759, [0xa758]);
   (0xa75b, [0xa75a]); (0xa75d, [0xa75c]); (0xa75f, [0xa75e]);
   (0xa761, [0xa760]); (0xa763, [0xa762]); (0xa765, [0xa764]);
   (0xa767, [0xa766]); (0xa769, [0xa768]); (0xa76b, [0xa76a]);
   (0xa76d, [0xa76c]); (0xa76f, [0xa76e]); (0xa77a, [0xa779]);
   (0xa77c, [0xa77b]); (0xa77f, [0xa77e]); (0xa781, [0xa780]);
   (0xa783, [0xa782]); (0xa785, [0xa784]); (0xa787, [0xa786]);
   (0xa78c, [0xa78b]); (0xa791, [0xa790]); (0xa793, [0xa792]);
   (0xa794, [0xa7c4]); (0xa797, [0xa796]); (0xa799, [0xa798]);
   (0xa79b, [0xa79a]); (0xa79d, [0xa79c]); (0xa79f, [0xa79e]);
   (0xa7a1, [0xa7a0]); (0xa7a3, [0xa7a2]); (0xa7a5, [0xa7a4]);
   (0xa7a7, [0xa7a6]); (0xa7a9, [0xa7a8]); (0xa7b5, [0xa7b4]);
   (0xa7b7, [0xa7b6]); (0xa7b9, [0xa7b8]); (0xa7bb, [0xa7ba]);
   (0xa7bd, [0xa7bc]); (0xa7bf, [0xa7be]); (0xa7c1, [0xa7c0]);
   (0xa7c3, [0xa7c2]); (0xa7c8, [0xa7c7]); (0xa7ca, [0xa7c9]);
   (0xa7d1, [0xa7d0]); (0xa7d7, [0xa7d6]); (0xa7d9, [0xa7d8]);
   (0xa7f6, [0xa7f5]); (0xab53, [0xa7b3]); (0xab70, [0x13a0]);
   (0xab71, [0x13a1]); (0xab72, [0x13a2]); (0xab73, [0x13a3]);
   (0xab74, [0x13a4]); (0xab75, [0x13a5]); (0xab76, [0x13a6]);
   (0xab77, [0x13a7]); (0xab78, [0x13a8]); (0xab79, [0x13a9]);
   (0xab7a, [0x13aa]); (0xab7b, [0x13ab]); (0xab7c, [0x13ac]);
   (0xab7d, [0x13ad]); (0xab7e, [0x13ae]); (0xab7f, [0x13af]);
   (0xab80, [0x13b0]); (0xab81, [0x13b1]); (0xab82, [0x13b2]);
   (0xab83, [0x13b3]); (0xab84, [0x13b4]); (0xab85, [0x13b5]);
   (0xab86, [0x13b6]); (0xab87, [0x13b7]); (0xab88, [0x13b8]);
   (0xab89, [0x13b9]); (0xab8a, [0x13ba]); (0xab8b, [0x13bb]);
   (0xab8c, [0x13bc]); (0xab8d, [0x13bd]); (0xab8e, [0x13be]);
   (0xab8f, [0x13bf]); (0xab90, [0x13c0]); (0xab91, [0x13c1]);
   (0xab92, [0x13c2]); (0xab93, [0x13c3]); (0xab94, [0x13c4]);
   (0xab95, [0x13c5]); (0xab96, [0x13c6]); (0xab97, [0x13c7]);
   (0xab98, [0x13c8]); (0xab99, [0x13c9]); (0xab9a, [0x13ca]);
   (0xab9b, [0x13cb]); (0xab9c, [0x13cc]); (0xab9d, [0x13cd]);
   (0xab9e, [0x13ce]); (0xab9f, [0x13cf]); (0xaba0, [0x13d0]);
   (0xaba1, [0x13d1]); (0xaba2, [0x13d2]); (0xaba3, [0x13d3]);
   (0xaba4, [0x13d4]); (0xaba5, [0x13d5]); (0xaba6, [0x13d6]);
   (0xaba7, [0x13d7]); (0xaba8, [0x13d8]); (0xaba9, [0x13d9]);
   (0xabaa, [0x13da]); (0xabab, [0x13db]); (0xabac, [0x13dc]);
   (0xabad, [0x13dd]); (0xabae, [0x13de]); (0xabaf, [0x13df]);
   (0xabb0, [0x13e0]); (0xabb1, [0x13e1]); (0xabb2, [0x13e2]);
   (0xabb3, [0x13e3]); (0xabb4, [0x13e4]); (0xabb5, [0x13e5]);
   (0xabb6, [0x13e6]); (0xabb7, [0x13e7]); (0xabb8, [0x13e8]);
   (0xabb9, [0x13e9]); (0xabba, [0x13ea]); (0xabbb, [0x13eb]);
   (0xabbc, [0x13ec]); (0xabbd, [0x13ed]); (0xabbe, [0x13ee]);
   (0xabbf, [0x13ef]); (0xfb00, [0x46; 0x46]); (0xfb01, [0x46; 0x49]);
   (0xfb02, [0x46; 0x4c]); (0xfb03, [0x46; 0x46; 0x49]);
   (0xfb04, [0x46; 0x46; 0x4c]); (0xfb05, [0x53; 0x54]);
   (0xfb06, [0x53; 0x54]); (0xfb13, [0x544; 0x546]); (0xfb14, [0x544; 0x535]);
   (0xfb15, [0x544; 0x53b]); (0xfb16, [0x54e; 0x546]);
   (0xfb17, [0x544; 0x53d]); (0xff41, [0xff21]); (0xff42, [0xff22]);
   (0xff43, [0xff23]); (0xff44, [0xff24]); (0xff45, [0xff25]);
   (0xff46, [0xff26]); (0xff47, [0xff27]); (0xff48, [0xff28]);
   (0xff49, [0xff29]); (0xff4a, [0xff2a]); (0xff4b, [0xff2b]);
   (0xff4c, [0xff2c]); (0xff4d, [0xff2d]); (0xff4e, [0xff2e]);
   (0xff4f, [0xff2f]); (0xff50, [0xff30]); (0xff51, [0xff31]);
   (0xff52, [0xff32]); (0xff53, [0xff33]); (0xff54, [0xff34]);
   (0xff55, [0xff35]); (0xff56, [0xff36]); (0xff57, [0xff37]);
   (0xff58, [0xff38]); (0xff59, [0xff39]); (0xff5a, [0xff3a]);
   (0x10428, [0x10400]); (0x10429, [0x10401]); (0x1042a, [0x10402]);
   (0x1042b, [0x10403]); (0x1042c, [0x10404]); (0x1042d, [0x10405]);
   (0x1042e, [0x10406]); (0x1042f, [0x10407]); (0x10430, [0x10408]);
   (0x10431, [0x10409]); (0x10432, [0x1040a]); (0x10433, [0x1040b]);
   (0x10434, [0x1040c]); (0x10435, [0x1040d]); (0x10436, [0x1040e]);
   (0x10437, [0x1040f]); (0x10438, [0x10410]); (0x10439, [0x10411]);
   (0x1043a, [0x10412]); (0x1043b, [0x10413]); (0x1043c, [0x10414]);
   (0x1043d, [0x10415]); (0x1043e, [0x10416]); (0x1043f, [0x10417]);
   (0x10440, [0x10418]); (0x10441, [0x10419]); (0x10442, [0x1041a]);
   (0x10443, [0x1041b]); (0x10444, [0x1041c]); (0x10445, [0x1041d]);
   (0x10446, [0x1041e]); (0x10447, [0x1041f]); (0x10448, [0x10420]);
   (0x10449, [0x10421]); (0x1044a, [0x10422]); (0x1044b, [0x10423]);
   (0x1044c, [0x10424]); (0x1044d, [0x10425]); (0x1044e, [0x10426]);
   (0x1044f, [0x10427]); (0x104d8, [0x104b0]); (0x104d9, [0x104b1]);
   (0x104da, [0x104b2]); (0x104db, [0x104b3]); (0x104dc, [0x104b4]);
   (0x104dd, [0x104b5]); (0x104de, [0x104b6]); (0x104df, [0x104b7]);
   (0x104e0, [0x104b8]); (0x104e1, [0x104b9]); (0x104e2, [0x104ba]);
   (0x104e3, [0x104bb]); (0x104e4, [0x104bc]); (0x104e5, [0x104bd]);
   (0x104e6, [0x104be]); (0x104e7, [0x104bf]); (0x104e8, [0x104c0]);
   (0x104e9, [0x104c1]); (0x104ea, [0x104c2]); (0x104eb, [0x104c3]);
   (0x104ec, [0x104c4]); (0x104ed, [0x104c5]); (0x104ee, [0x104c6]);
   (0x104ef, [0x104c7]); (0x104f0, [0x104c8]); (0x104f1, [0x104c9]);
   (0x104f2, [0x104ca]); (0x104f3, [0x104cb]); (0x104f4, [0x104cc]);
   (0x104f5, [0x104cd]); (0x104f6, [0x104ce]); (0x104f7, [0x104cf]);
   (0x104f8, [0x104d0]); (0x104f9, [0x104d1]); (0x104fa, [0x104d2]);
   (0x104fb, [0x104d3]); (0x10597, [0x10570]); (0x10598, [0x10571]);
   (0x10599, [0x10572]); (0x1059a, [0x10573]); (0x1059b, [0x10574]);
   (0x1059c, [0x10575]); (0x1059d, [0x10576]); (0x1059e, [0x10577]);
   (0x1059f, [0x10578]); (0x105a0, [0x10579]); (0x105a1, [0x1057a]);
   (0x105a3, [0x1057c]); (0x105a4, [0x1057d]); (0x105a5, [0x1057e]);
   (0x105a6, [0x1057f]); (0x105a7, [0x10580]); (0x105a8, [0x10581]);
   (0x105a9, [0x10582]); (0x105aa, [0x10583]); (0x105ab, [0x10584]);
   (0x105ac, [0x10585]); (0x105ad, [0x10586]); (0x105ae, [0x10587]);
   (0x105af, [0x10588]); (0x105b0, [0x10589]); (0x105b1, [0x1058a]);
   (0x105b3, [0x1058c]); (0x105b4, [0x1058d]); (0x105b5, [0x1058e]);
   (0x105b6, [0x1058f]); (0x105b7, [0x10590]); (0x105b8, [0x10591]);
   (0x105b9, [0x10592]); (0x105bb, [0x10594]); (0x105bc, [0x10595]);
   (0x10cc0, [0x10c80]); (0x10cc1, [0x10c81]); (0x10cc2, [0x10c82]);
   (0x10cc3, [0x10c83]); (0x10cc4, [0x10c84]); (0x10cc5, [0x10c85]);
   (0x10cc6, [0x10c86]); (0x10cc7, [0x10c87]); (0x10cc8, [0x10c88]);
   (0x10cc9, [0x10c89]); (0x10cca, [0x10c8a]); (0x10ccb, [0x10c8b]);
   (0x10ccc, [0x10c8c]); (0x10ccd, [0x10c8d]); (0x10cce, [0x10c8e]);
   (0x10ccf, [0x10c8f]); (0x10cd0, [0x10c90]); (0x10cd1, [0x10c91]);
   (0x10cd2, [0x10c92]); (0x10cd3, [0x10c93]); (0x10cd4, [0x10c94]);
   (0x10cd5, [0x10c95]); (0x10cd6, [0x10c96]); (0x10cd7, [0x10c97]);
   (0x10cd8, [0x10c98]); (0x10cd9, [0x10c99]); (0x10cda, [0x10c9a]);
   (0x10cdb, [0x10c9b]); (0x10cdc, [0x10c9c]); (0x10cdd, [0x10c9d]);
   (0x10cde, [0x10c9e]); (0x10cdf, [0x10c9f]); (0x10ce0, [0x10ca0]);
   (0x10ce1, [0x10ca1]); (0x10ce2, [0x10ca2]); (0x10ce3, [0x10ca3]);
   (0x10ce4, [0x10ca4]); (0x10ce5, [0x10ca5]); (0x10ce6, [0x10ca6]);
   (0x10ce7, [0x10ca7]); (0x10ce8, [0x10ca8]); (0x10ce9, [0x10ca9]);
   (0x10cea, [0x10caa]); (0x10ceb, [0x10cab]); (0x10cec, [0x10cac]);
   (0x10ced, [0x10cad]); (0x10cee, [0x10cae]); (0x10cef, [0x10caf]);
   (0x10cf0, [0x10cb0]); (0x10cf1, [0x10cb1]); (0x10cf2, [0x10cb2]);
   (0x118c0, [0x118a0]); (0x118c1, [0x118a1]); (0x118c2, [0x118a2]);
   (0x118c3, [0x118a3]); (0x118c4, [0x118a4]); (0x118c5, [0x118a5]);
   (0x118c6, [0x118a6]); (0x118c7, [0x118a7]); (0x118c8, [0x118a8]);
   (0x118c9, [0x118a9]); (0x118ca, [0x118aa]); (0x118cb, [0x118ab]);
   (0x118cc, [0x118ac]); (0x118cd, [0x118ad]); (0x118ce, [0x118ae]);
   (0x118cf, [0x118af]); (0x118d0, [0x118b0]); (0x118d1, [0x118b1]);
   (0x118d2, [0x118b2]); (0x118d3, [0x118b3]); (0x118d4, [0x118b4]);
   (0x118d5, [0x118b5]); (0x118d6, [0x118b6]); (0x118d7, [0x118b7]);
   (0x118d8, [0x118b8]); (0x118d9, [0x118b9]); (0x118da, [0x118ba]);
   (0x118db, [0x118bb]); (0x118dc, [0x118bc]); (0x118dd, [0x118bd]);
   (0x118de, [0x118be]); (0x118df, [0x118bf]); (0x16e60, [0x16e40]);
   (0x16e61, [0x16e41]); (0x16e62, [0x16e42]); (0x16e63, [0x16e43]);
   (0x16e64, [0x16e44]); (0x16e65, [0x16e45]); (0x16e66, [0x16e46]);
   (0x16e67, [0x16e47]); (0x16e68, [0x16e48]); (0x16e69, [0x16e49]);
   (0x16e6a, [0x16e4a]); (0x16e6b, [0x16e4b]); (0x16e6c, [0x16e4c]);
   (0x16e6d, [0x16e4d]); (0x16e6e, [0x16e4e]); (0x16e6f, [0x16e4f]);
   (0x16e70, [0x16e50]); (0x16e71, [0x16e51]); (0x16e72, [0x16e52]);
   (0x16e73, [0x16e53]); (0x16e74, [0x16e54]); (0x16e75, [0x16e55]);
   (0x16e76, [0x16e56]); (0x16e77, [0x16e57]); (0x16e78, [0x16e58]);
   (0x16e79, [0x16e59]); (0x16e7a, [0x16e5a]); (0x16e7b, [0x16e5b]);
   (0x16e7c, [0x16e5c]); (0x16e7d, [0x16e5d]); (0x16e7e, [0x16e5e]);
   (0x16e7f, [0x16e5f]); (0x1e922, [0x1e900]); (0x1e923, [0x1e901]);
   (0x1e924, [0x1e902]); (0x1e925, [0x1e903]); (0x1e926, [0x1e904]);
   (0x1e927, [0x1e905]); (0x1e928, [0x1e906]); (0x1e929, [0x1e907]);
   (0x1e92a, [0x1e908]); (0x1e92b, [0x1e909]); (0x1e92c, [0x1e90a]);
   (0x1e92d, [0x1e90b]); (0x1e92e, [0x1e90c]); (0x1e92f, [0x1e90d]);
   (0x1e930, [0x1e90e]); (0x1e931, [0x1e90f]); (0x1e932, [0x1e910]);
   (0x1e933, [0x1e911]); (0x1e934, [0x1e912]); (0x1e935, [0x1e913]);
   (0x1e936, [0x1e914]); (0x1e937, [0x1e915]); (0x1e938, [0x1e916]);
   (0x1e939, [0x1e917]); (0x1e93a, [0x1e918]); (0x1e93b, [0x1e919]);
   (0x1e93c, [0x1e91a]); (0x1e93d, [0x1e91b]); (0x1e93e, [0x1e91c]);
   (0x1e93f, [0x1e91d]); (0x1e940, [0x1e91e]); (0x1e941, [0x1e91f]);
   (0x1e942, [0x1e920]); (0x1e943, [0x1e921])].

End UnicodeData.

Module Text.

Definition code (c : ascii) : nat := nat_of_ascii c.

(** The string of the given bytes. *)
Definition bytes (l : list N) : string :=
  foldr (λ n s, String (ascii_of_N n) s) EmptyString l.

(** *** Characters *)

(** A continuation byte, [10xxxxxx]. *)
Definition continuation (b : ascii) : bool :=
  (128 <=? code b) && (code b <? 192).

(** The string starts in the middle of a character. *)
Definition starts_inside (c : string) : bool :=
  match c with
  | String b _ => continuation b
  | EmptyString => false
  end.

(** The characters of a string, in order: a character starts at every
    byte that is no continuation byte. *)
Fixpoint chars (s : string) : list string :=
  match s with
  | EmptyString => []
  | String b s' =>
      match chars s' with
      | c :: cs =>
          if starts_inside c then String b c :: cs
          else String b EmptyString :: c :: cs
      | [] => [String b EmptyString]
      end
  end.

(** The string of a list of characters. *)
Fixpoint join (cs : list string) : string :=
  match cs with
  | [] => EmptyString
  | c :: cs' => c +:+ join cs'
  end.

(** The value of a continuation byte. *)
Definition low6 (b : ascii) : option N :=
  if continuation b then Some (N_of_ascii b - 128)%N else None.

(** The code point of a character, by the length of its encoding. *)
Definition code_point (c : string) : option N :=
  match c with
  | String a EmptyString =>
      let n := N_of_ascii a in
      if (n <? 0x80)%N then Some n else None
  | String a (String b EmptyString) =>
      let n := N_of_ascii a in
      x ← low6 b;
      if ((0xC2 <=? n) && (n <? 0xE0))%N
      then Some ((n - 0xC0) * 64 + x)%N else None
  | String a (String b (String c EmptyString)) =>
      let n := N_of_ascii a in
      x ← low6 b; y ← low6 c;
      let p := ((n - 0xE0) * 4096 + x * 64 + y)%N in
      if ((0xE0 <=? n) && (n <? 0xF0) && (0x800 <=? p))%N
      then Some p else None
  | String a (String b (String c (String d EmptyString))) =>
      let n := N_of_ascii a in
      x ← low6 b; y ← low6 c; z ← low6 d;
      let p := ((n - 0xF0) * 262144 + x * 4096 + y * 64 + z)%N in
      if ((0xF0 <=? n) && (n <? 0xF8) && (0x10000 <=? p) && (p <? 0x110000))%N
      then Some p else None
  | _ => None
  end.

(** The character with a given code point. *)
Definition utf8 (p : N) : string :=
  if (p <? 0x80)%N then bytes [p]
  else if (p <? 0x800)%N then
    bytes [0xC0 + p / 64; 0x80 + p mod 64]%N
  else if (p <? 0x10000)%N then
    bytes [0xE0 + p / 4096; 0x80 + (p / 64) mod 64; 0x80 + p mod 64]%N
  else
    bytes [0xF0 + p / 262144; 0x80 + (p / 4096) mod 64;
           0x80 + (p / 64) mod 64; 0x80 + p mod 64]%N.

(** *** [str.strip()] *)

(** [c.isspace()] for one character. *)
Definition isspace (c : string) : bool :=
  match code_point c with
  | Some p => bool_decide (p ∈ UnicodeData.whitespace)
  | None => false
  end.

Fixpoint lstrip_list (p : string → bool) (cs : list string) : list string :=
  match cs with
  | [] => []
  | c :: cs' => if p c then lstrip_list p cs' else cs
  end.

Fixpoint rstrip_list (p : string → bool) (cs : list string) : list string :=
  match cs with
  | [] => []
  | c :: cs' =>
      match rstrip_list p cs' with
      | [] => if p c then [] else [c]
      | r => c :: r
      end
  end.

(** [s.strip()]: the white space characters at both ends go. *)
Definition strip (s : string) : string :=
  join (rstrip_list isspace (lstrip_list isspace (chars s))).

(** *** [str.upper()] *)

Definition islower (c : ascii) : bool :=
  let n := code c in (97 <=? n) && (n <=? 122).

Fixpoint assoc (p : N) (t : list (N * list N)) : option (list N) :=
  match t with
  | [] => None
  | (q, us) :: t' => if (p =? q)%N then Some us else assoc p t'
  end.

(** [c.upper()] for one character: [a]..[z] become [A]..[Z], a
    character of the table becomes what the table says, and every other
    character stays. *)
Definition upper_char (c : string) : string :=
  match c with
  | String a EmptyString =>
      if islower a then String (ascii_of_nat (code a - 32)) EmptyString else c
  | _ =>
      match code_point c ≫= λ p, assoc p UnicodeData.upper_table with
      | Some us => join (utf8 <$> us)
      | None => c
      end
  end.

(** [s.upper()] *)
Definition upper (s : string) : string := join (upper_char <$> chars s).

(** *** Stripping a set of ASCII characters *)

(** [s.lstrip(..)], with the set of characters to drop as a predicate on
    bytes. *)
Fixpoint lstrip_by (p : ascii → bool) (s : string) : string :=
  match s with
  | EmptyString => EmptyString
  | String c s' => if p c then lstrip_by p s' else s
  end.

(** [s.rstrip(..)] *)
Fixpoint rstrip_by (p : ascii → bool) (s : string) : string :=
  match s with
  | EmptyString => EmptyString
  | String c s' =>
      match rstrip_by p s' with
      | EmptyString => if p c then EmptyString else String c EmptyString
      | r => String c r
      end
  end.

(** [s.strip(..)]: both ends. *)
Definition strip_by (p : ascii → bool) (s : string) : string :=
  rstrip_by p (lstrip_by p s).

Fixpoint mem_char (c : ascii) (chars : string) : bool :=
  match chars with
  | EmptyString => false
  | String d chars' => if Ascii.eqb c d then true else mem_char c chars'
  end.

(** [s.strip(chars)], for ASCII [chars]. *)
Definition strip_chars (chars : string) (s : string) : string :=
  strip_by (λ c, mem_char c chars) s.

(** Every byte of [s] satisfies [p]. *)
Fixpoint all_chars (p : ascii → bool) (s : string) : bool :=
  match s with
  | EmptyString => true
  | String c s' => p c && all_chars p s'
  end.

Definition first_char (s : string) : option ascii :=
  match s with EmptyString => None | String c _ => Some c end.

Fixpoint last_char (s : string) : option ascii :=
  match s with
  | EmptyString => None
  | String c EmptyString => Some c
  | String _ s' => last_char s'
  end.

(** [s.encode('latin-1')] succeeds: every character of [s] is at most
    U+00FF, which is when no byte of its UTF-8 form is above [0xC3]. *)
Definition latin1 (s : string) : bool :=
  all_chars (λ b, code b <? 196) s.

(** A string that is one whole character: a first byte and then
    continuation bytes only. *)
Definition whole (c : string) : bool :=
  match c with
  | String _ t => all_chars continuation t
  | EmptyString => false
  end.

(** Truth value of a [str]: non-empty. *)
Definition nonempty (s : string) : bool :=
  match s with EmptyString => false | String _ _ => true end.

(** The double-quote character and the one-character string of it. *)
Definition quote : ascii := ascii_of_nat 34.
Definition is_quote (c : ascii) : bool := Ascii.eqb c quote.
Definition quote_str : string := String quote EmptyString.

(** [s] between two double quotes. *)
Definition quoted (s : string) : string :=
  String quote (s +:+ quote_str).

End Text.

(** ** JSON documents and Python values *)

#[local] Set Warnings "-register-all".

(** A decoded JSON document.  Numbers keep what the script can observe of
    them: an integer its value, a float whether it is zero (its truth
    value) and its literal. *)
Inductive json : Type :=
| JNull
| JBool (b : bool)
| JInt (z : Z)
| JFloat (zero : bool) (lit : string)
| JStr (s : string)
| JArr (items : list json)
| JObj (members : list (string * json)).

(** A Python [dict] with [str] keys: its items in insertion order.  Keys
    are unique in every dictionary built by [dict_set]. *)
Abbreviation pydict := (list (string * json)).


(** [d[k] = v]: an existing key keeps its position, a new key goes last. *)
Fixpoint dict_set (k : string) (v : json) (d : pydict) : pydict :=
  match d with
  | [] => [(k, v)]
  | (k', v') :: d' =>
      if decide (k = k') then (k, v) :: d' else (k', v') :: dict_set k v d'
  end.

(** The dictionary [json.load] builds from the members of a JSON object:
    members are stored left to right, a repeated name overwrites. *)
Definition dict_of_members (ms : list (string * json)) : pydict :=
  foldl (λ d kv, dict_set kv.1 kv.2 d) [] ms.

Definition dict_keys (d : pydict) : list string := d.*1.

(** Locations of heap objects. *)
Abbreviation loc := nat.

(** What a variable of the script holds after [json.load]: a reference to
    a dictionary on the heap, or any other decoded value ([None], a
    number, a string, a list), which the script never mutates. *)
Inductive pyval : Type :=
| VDict (l : loc)
| VConst (j : json).

Definition VNone : pyval := VConst JNull.

(** One record of the input list, [{'ID': .., 'SerialNumber': ..}]. *)
Record asset : Type := Asset { ID : string; SerialNumber : string }.

(** A row as [csv.DictReader] yields it: column name to cell, where a
    row shorter than the header has [None] for the missing cells.  Cells
    beyond the header, which the reader keeps apart under the key [None],
    are never looked at and are left out. *)
Abbreviation row := (gmap string (option string)).

(** ** HTTP *)

Inductive method : Type := POST | PATCH.

Record request : Type := Request {
  meth : method;
  url : string;
  headers : list (string * string);
  body : option json
}.

(** A received response: [json_repr] is what printing [response.json()]
    shows when the body decodes, [http_error_msg] what printing the
    [HTTPError] of [raise_for_status] shows. *)
Record response : Type := Response {
  status_code : Z;
  text : string;
  json_repr : option string;
  http_error_msg : string
}.

(** ** Exceptions *)

Inductive exc_class : Type :=
| Exception
| OSError
| FileNotFoundError
| ValueError
| UnicodeDecodeError
| UnicodeEncodeError
| JSONDecodeError
| CsvError
| AttributeError
| TypeError
| UnboundLocalError
| RequestException
| HTTPError
| ConnectionError
| Timeout.

#[global] Instance exc_class_eq_dec : EqDecision exc_class.
Proof. solve_decision. Defined.

(** The classes an exception of class [c] is an instance of, [c] first. *)
Definition mro (c : exc_class) : list exc_class :=
  match c with
  | Exception => [Exception]
  | OSError => [OSError; Exception]
  | FileNotFoundError => [FileNotFoundError; OSError; Exception]
  | ValueError => [ValueError; Exception]
  | UnicodeDecodeError => [UnicodeDecodeError; ValueError; Exception]
  | UnicodeEncodeError => [UnicodeEncodeError; ValueError; Exception]
  | JSONDecodeError => [JSONDecodeError; ValueError; Exception]
  | CsvError => [CsvError; Exception]
  | AttributeError => [AttributeError; Exception]
  | TypeError => [TypeError; Exception]
  | UnboundLocalError => [UnboundLocalError; Exception]
  | RequestException => [RequestException; OSError; Exception]
  | HTTPError => [HTTPError; RequestException; OSError; Exception]
  | ConnectionError => [ConnectionError; RequestException; OSError; Exception]
  | Timeout => [Timeout; RequestException; OSError; Exception]
  end.

(** A raised exception: its class, what [str(e)] shows and, for the
    [HTTPError] of [raise_for_status], the response it was raised for. *)
Record exn : Type := Exn {
  exn_class : exc_class;
  exn_str : string;
  exn_response : option response
}.

Definition isinstance (e : exn) (c : exc_class) : bool :=
  bool_decide (c ∈ mro (exn_class e)).

Inductive result (A : Type) : Type :=
| Ok (a : A)
| Raise (e : exn).
Arguments Ok {A} a.
Arguments Raise {A} e.

(** ** The outside world *)

(** How a call into [requests] ends when no response arrives: all of
    these are subclasses of [requests.RequestException] other than
    [HTTPError]. *)
Inductive net_failure : Type :=
| NetConnection
| NetTimeout
| NetOther.

Definition net_failure_class (k : net_failure) : exc_class :=
  match k with
  | NetConnection => ConnectionError
  | NetTimeout => Timeout
  | NetOther => RequestException
  end.

Inductive net_outcome : Type :=
| Responded (r : response)
| Failed (k : net_failure) (msg : string).

(** The world answers the [n]-th HTTP call of the run, tells what opening
    and reading the CSV file at a path yields (the open may raise, and
    the reader may raise instead of yielding a next row), and what
    opening and decoding a JSON file yields.  For a call that fails it
    also tells whether the failure comes before the headers of the
    request are written, as it does when the request cannot be prepared
    or, over TLS, when the connection cannot be opened; over plain HTTP
    the headers are written before the connection is opened. *)
Record world : Type := World {
  net : nat → request → net_outcome;
  csv_file : string → result (list (result row));
  json_file : string → result json;
  early_failure : nat → request → bool
}.

(** The five module-level settings, each [os.getenv(..)]: [None] when the
    variable is not set. *)
Record config : Type := Config {
  APP_ID : option string;
  AUTH_URL : option string;
  API_BASE_URL : option string;
  USERNAME : option string;
  PASSWORD : option string
}.

(** ** Traces and the monad of the script *)

Inductive event : Type :=
| EvPrint (line : string)
| EvHttp (req : request) (out : net_outcome)
| EvOpen (path : string)
| EvSleep (secs : nat).

Record state : Type := State {
  trace : list event;
  heap : list pydict
}.

Definition init_state : state := State [] [].

Definition M (A : Type) : Type := state → result A * state.

Definition ret {A} (a : A) : M A := λ st, (Ok a, st).

Definition bind {A B} (m : M A) (f : A → M B) : M B :=
  λ st, match m st with
        | (Ok a, st') => f a st'
        | (Raise e, st') => (Raise e, st')
        end.

Definition raise {A} (e : exn) : M A := λ st, (Raise e, st).

#[global] Instance M_ret : MRet M := @ret.
#[global] Instance M_bind : MBind M := λ A B f m, bind m f.

Definition emit (e : event) : M unit :=
  λ st, (Ok tt, State (trace st ++ [e]) (heap st)).

(** [print(line)]: the line goes to a standard output that takes every
    character (UTF-8, the default where the script is run from a
    console). *)
Definition print (line : string) : M unit := emit (EvPrint line).
Definition sleep (secs : nat) : M unit := emit (EvSleep secs).

(** The first [except] clause whose class the exception is an instance of. *)
Fixpoint find_handler (e : exn) (hs : list (exc_class * (exn → M unit)))
  : option (exn → M unit) :=
  match hs with
  | [] => None
  | (c, h) :: hs' => if isinstance e c then Some h else find_handler e hs'
  end.

(** [try: body  except c1 as e: h1 ... ]  followed by [rest].  A value
    the body produces is the value of the whole (in the script every such
    body ends in [return]); after a handler has run, control falls
    through to [rest]; an exception no clause matches, or one a handler
    raises, propagates. *)
Definition try_except {A} (body : M A)
    (hs : list (exc_class * (exn → M unit))) (rest : M A) : M A :=
  λ st, match body st with
        | (Ok a, st') => (Ok a, st')
        | (Raise e, st') =>
            match find_handler e hs with
            | Some h => bind (h e) (λ _, rest) st'
            | None => (Raise e, st')
            end
        end.

(** [for x in xs: body] *)
Fixpoint for_each {A} (xs : list A) (body : A → M unit) : M unit :=
  match xs with
  | [] => ret tt
  | x :: xs' => body x;; for_each xs' body
  end.

(** [enumerate(xs, start)] *)
Fixpoint enumerate {A} (start : nat) (xs : list A) : list (nat * A) :=
  match xs with
  | [] => []
  | x :: xs' => (start, x) :: enumerate (S start) xs'
  end.

(** *** Heap operations *)

Definition alloc (d : pydict) : M loc :=
  λ st, (Ok (length (heap st)), State (trace st) (heap st ++ [d])).

(** Locations come from [alloc] only, so the lookup finds an object. *)
Definition read_dict (l : loc) : M pydict :=
  λ st, (Ok (default [] (heap st !! l)), st).

Definition write_dict (l : loc) (d : pydict) : M unit :=
  λ st, (Ok tt, State (trace st) (<[l := d]> (heap st))).

(** [json.load]: a top-level object becomes a fresh dictionary. *)
Definition json_load (j : json) : M pyval :=
  match j with
  | JObj ms => l ← alloc (dict_of_members ms); ret (VDict l)
  | _ => ret (VConst j)
  end.

(** [copy.deepcopy(v)]: a dictionary is copied into a fresh object.  The
    values inside a dictionary are held by value (the script never
    mutates one), so copying the items copies them in depth. *)
Definition deepcopy (v : pyval) : M pyval :=
  match v with
  | VDict l => d ← read_dict l; l' ← alloc d; ret (VDict l')
  | VConst j => ret (VConst j)
  end.

(** [v[key] = x] with a [str] key. *)
Definition setitem (v : pyval) (key : string) (x : json) : M unit :=
  match v with
  | VDict l => d ← read_dict l; write_dict l (dict_set key x d)
  | VConst (JArr _) =>
      raise (Exn TypeError "list indices must be integers or slices, not str" None)
  | VConst _ =>
      raise (Exn TypeError "object does not support item assignment" None)
  end.

(** [v.items()] *)
Definition items (v : pyval) : M pydict :=
  match v with
  | VDict l => read_dict l
  | VConst _ => raise (Exn AttributeError "object has no attribute 'items'" None)
  end.

(** Truth value of a decoded value, as [not v] tests it. *)
Definition json_truthy (j : json) : bool :=
  match j with
  | JNull => false
  | JBool b => b
  | JInt z => negb (z =? 0)%Z
  | JFloat zero _ => negb zero
  | JStr s => Text.nonempty s
  | JArr xs => match xs with [] => false | _ => true end
  | JObj ms => match ms with [] => false | _ => true end
  end.

Definition truthy (v : pyval) : M bool :=
  match v with
  | VDict l => d ← read_dict l; ret (match d with [] => false | _ => true end)
  | VConst j => ret (json_truthy j)
  end.

(** The document [requests] sends for [json=v]; [None] sends no body. *)
Definition json_body (v : pyval) : M (option json) :=
  match v with
  | VDict l => d ← read_dict l; ret (Some (JObj d))
  | VConst JNull => ret None
  | VConst j => ret (Some j)
  end.

(** Truth value of an environment setting or of a token: a non-empty
    string. *)
Definition str_truthy (o : option string) : bool :=
  match o with Some s => Text.nonempty s | None => false end.

(** How an f-string shows a value that may be [None]. *)
Definition fmt (o : option string) : string :=
  match o with Some s => s | None => "None" end.

Definition str_json (o : option string) : json :=
  match o with Some s => JStr s | None => JNull end.

(** The status codes [raise_for_status] raises for. *)
Definition http_error (r : response) : bool :=
  ((400 <=? status_code r) && (status_code r <? 600))%Z.

Definition nl : string := String (ascii_of_nat 10) EmptyString.

Definition http_events (t : list event) : list (request * net_outcome) :=
  omap (λ e, match e with EvHttp r o => Some (r, o) | _ => None end) t.

Definition http_log (st : state) : list (request * net_outcome) :=
  http_events (trace st).

(** The header values of a request can be written: [http.client]
    encodes each of them in Latin-1. *)
Definition encodable (req : request) : bool :=
  forallb (λ h, Text.latin1 h.2) (headers req).

Arguments encodable : simpl never.

(** What encoding a header value outside Latin-1 raises. *)
Definition unicode_error : exn :=
  Exn UnicodeEncodeError
    "'latin-1' codec can't encode characters: ordinal not in range(256)" None.

(** ** The script *)

Definition CSV_FILENAME : string := "test1.csv".
Definition DISPOSED_STATUS_JSON : string := "DisposedStatus.json".
Definition COMMENT_JSON : string := "Comment.json".

Definition SENTINEL : string := "NOT FOUND IN ITSM".

Section Script.

Context (w : world) (cfg : config).

(** One call into [requests].  The world's answer to the call is a
    response, or a failure of the call itself, which raises a
    [RequestException]; the exchange is recorded.  A response is had
    only for a request whose headers can be written: encoding a header
    value outside Latin-1 raises [UnicodeEncodeError], which is no
    [RequestException]; nothing has been sent then and no exchange is
    recorded.  A call that fails is a failure whatever its headers are
    when it fails before they are written; a call that would fail
    later raises [UnicodeEncodeError] as well when a header value
    cannot be encoded. *)
Definition send (req : request) : M response :=
  λ st,
    let n := length (http_log st) in
    let out := net w n req in
    let st' := State (trace st ++ [EvHttp req out]) (heap st) in
    match out with
    | Responded r =>
        if encodable req then (Ok r, st') else (Raise unicode_error, st)
    | Failed k msg =>
        if encodable req || early_failure w n req
        then (Raise (Exn (net_failure_class k) msg None), st')
        else (Raise unicode_error, st)
    end.

(** [response.raise_for_status()]: raises for the 4xx and 5xx codes. *)
Definition raise_for_status (r : response) : M unit :=
  if http_error r
  then raise (Exn HTTPError (http_error_msg r) (Some r))
  else mret tt.

(** The local [response] as an [except] clause sees it: bound once the
    call in the [try] body has returned, which is when
    [raise_for_status] raised for it. *)
Definition local_response (e : exn) : M response :=
  match exn_response e with
  | Some r => mret r
  | None =>
      raise (Exn UnboundLocalError
               "cannot access local variable 'response'" None)
  end.

(** [response.json()] as the script prints it.  A body that does not
    decode raises the [JSONDecodeError] of the standard [json] module,
    which is what the clause in [update_asset_status] names. *)
Definition response_json (r : response) : M string :=
  match json_repr r with
  | Some s => mret s
  | None => raise (Exn JSONDecodeError "Expecting value" None)
  end.

Definition auth_request (username password : option string) : request :=
  Request POST (fmt (AUTH_URL cfg)) []
    (Some (JObj [("username", str_json username);
                 ("password", str_json password)])).

Definition get_bearer_token (username password : option string)
  : M (option string) :=
  try_except
    (response ← send (auth_request username password);
     raise_for_status response;;
     let token := Text.strip_chars Text.quote_str (text response) in
     print "[INFO] Authenticated successfully.";;
     mret (Some token))
    [(HTTPError, λ e,
       print ("[ERROR] Authentication failed: " +:+ exn_str e
              +:+ ". Check credentials and API URLs."))]
    (mret None).

(** [open(file_path, newline='')] wrapped in [csv.DictReader]. *)
Definition open_csv (file_path : string) : M (list (result row)) :=
  emit (EvOpen file_path);;
  match csv_file w file_path with
  | Ok rows => mret rows
  | Raise e => raise e
  end.

(** [row.get(key, '')]: the default stands in for an absent key, not
    for a cell that is [None]. *)
Definition row_get (r : row) (key : string) (dflt : string)
  : option string :=
  match r !! key with
  | Some cell => cell
  | None => Some dflt
  end.

(** [cell.strip()] *)
Definition cell_strip (cell : option string) : M string :=
  match cell with
  | Some s => mret (Text.strip s)
  | None =>
      raise (Exn AttributeError
               "'NoneType' object has no attribute 'strip'" None)
  end.

(** The test of the [if] in the reader's loop. *)
Definition keep_row (asset_id serial_number : string) : bool :=
  Text.nonempty asset_id
  && Text.nonempty serial_number
  && negb (bool_decide (Text.upper asset_id = SENTINEL))
  && negb (bool_decide (Text.upper serial_number = SENTINEL)).

(** [for row in reader: ...] with the list built so far. *)
Fixpoint read_rows (reader : list (result row)) (asset_data : list asset)
  : M (list asset) :=
  match reader with
  | [] => mret asset_data
  | Raise e :: _ => raise e
  | Ok r :: reader' =>
      asset_id ← cell_strip (row_get r "ID" "");
      serial_number ← cell_strip (row_get r "Serial Number" "");
      if keep_row asset_id serial_number
      then read_rows reader' (asset_data ++ [Asset asset_id serial_number])
      else read_rows reader' asset_data
  end.

Definition read_ids_from_csv (file_path : string) : M (list asset) :=
  try_except
    (reader ← open_csv file_path;
     read_rows reader [])
    [(FileNotFoundError, λ _,
       print ("[ERROR] CSV file not found at: " +:+ file_path));
     (Exception, λ e,
       print ("[ERROR] An error occurred while reading the CSV file: "
              +:+ exn_str e))]
    (mret []).

Definition read_json_data (file_path : string) : M pyval :=
  try_except
    (emit (EvOpen file_path);;
     match json_file w file_path with
     | Ok j => json_load j
     | Raise e => raise e
     end)
    [(FileNotFoundError, λ _,
       print ("[ERROR] JSON file not found at: " +:+ file_path));
     (JSONDecodeError, λ _,
       print ("[ERROR] Failed to parse JSON from file: " +:+ file_path));
     (Exception, λ e,
       print ("[ERROR] An error occurred while reading the JSON file: "
              +:+ exn_str e))]
    (mret VNone).

Definition asset_url (app_id : option string) (asset_id : string) : string :=
  fmt (API_BASE_URL cfg) +:+ "/" +:+ fmt app_id +:+ "/assets/" +:+ asset_id.

(** One [replace] operation of the patch document. *)
Definition patch_op (kv : string * json) : json :=
  JObj [("op", JStr "replace");
        ("path", JStr ("/" +:+ kv.1));
        ("value", kv.2)].

Definition update_asset_status (app_id : option string) (asset_id : string)
    (token : string) (update_data : pyval) : M bool :=
  let url := asset_url app_id asset_id in
  kvs ← items update_data;
  let patch_document := patch_op <$> kvs in
  let headers := [("Authorization", "Bearer " +:+ token);
                  ("Content-Type", "application/json")] in
  try_except
    (response ← send (Request PATCH url headers (Some (JArr patch_document)));
     raise_for_status response;;
     print ("[INFO] Successfully updated status for asset " +:+ asset_id
            +:+ ".");;
     mret true)
    [(HTTPError, λ e,
       print ("[ERROR] Failed to update asset " +:+ asset_id
              +:+ ". HTTP error: " +:+ exn_str e);;
       try_except
         (response ← local_response e;
          shown ← response_json response;
          print ("Response content: " +:+ shown))
         [(JSONDecodeError, λ _,
            response ← local_response e;
            print ("Response content: " +:+ text response))]
         (mret tt));
     (RequestException, λ e,
       print ("[ERROR] Network error when updating asset " +:+ asset_id
              +:+ ": " +:+ exn_str e))]
    (mret false).

Definition post_asset_feed_entry (app_id : option string)
    (asset_id : string) (token : string) (comment_data : pyval) : M bool :=
  let url := asset_url app_id asset_id +:+ "/feed" in
  let headers := [("Content-Type", "application/json");
                  ("Authorization", "Bearer " +:+ token)] in
  try_except
    (payload ← json_body comment_data;
     response ← send (Request POST url headers payload);
     raise_for_status response;;
     print ("[INFO] Feed entry posted for asset " +:+ asset_id +:+ ".");;
     mret true)
    [(HTTPError, λ e,
       print ("[ERROR] Failed to post feed entry for asset " +:+ asset_id
              +:+ ". HTTP error: " +:+ exn_str e));
     (RequestException, λ e,
       print ("[ERROR] Network error when posting feed entry for "
              +:+ asset_id +:+ ": " +:+ exn_str e))]
    (mret false).

(** The body of the [for] loop of [main], for the [i]-th of [total]
    records. *)
Definition process_asset (token : string)
    (status_update_payload comment_payload : pyval) (total : nat)
    (entry : nat * asset) : M unit :=
  let i := entry.1 in
  let asset_id := ID entry.2 in
  let serial_number := SerialNumber entry.2 in
  print (nl +:+ "[INFO] Processing asset ID " +:+ asset_id +:+ " ("
         +:+ pretty i +:+ "/" +:+ pretty total +:+ ")...");;
  current_payload ← deepcopy status_update_payload;
  setitem current_payload "serialNumber" (JStr serial_number);;
  update_successful ←
    update_asset_status (APP_ID cfg) asset_id token current_payload;
  (if update_successful : bool
   then sleep 1;;
        post_asset_feed_entry (APP_ID cfg) asset_id token comment_payload;;
        mret tt
   else mret tt);;
  if i <? total then sleep 1 else mret tt.

(** The [for] loop of [main]. *)
Definition main_loop (token : string)
    (status_update_payload comment_payload : pyval)
    (assets_to_process : list asset) : M unit :=
  for_each (enumerate 1 assets_to_process)
    (process_asset token status_update_payload comment_payload
       (length assets_to_process)).

Definition env_complete : bool :=
  forallb str_truthy
    [APP_ID cfg; AUTH_URL cfg; API_BASE_URL cfg; USERNAME cfg; PASSWORD cfg].

Definition main : M unit :=
  print "--- Starting Asset Disposer ---";;
  if negb env_complete then
    print "[FATAL] Required environment variables are not set. Please check your .env file."
  else
  token ← get_bearer_token (USERNAME cfg) (PASSWORD cfg);
  match token : option string with
  | None | Some EmptyString =>
      print "[FATAL] Exiting due to authentication failure."
  | Some token =>
  assets_to_process ← read_ids_from_csv CSV_FILENAME;
  match assets_to_process : list asset with
  | [] =>
      print ("[WARNING] No valid asset entries found in '" +:+ CSV_FILENAME
             +:+ "'. Exiting.")
  | _ =>
  print ("[INFO] Found " +:+ pretty (length assets_to_process)
         +:+ " valid asset entries to process.");;
  status_update_payload ← read_json_data DISPOSED_STATUS_JSON;
  comment_payload ← read_json_data COMMENT_JSON;
  status_ok ← truthy status_update_payload;
  comment_ok ← truthy comment_payload;
  if negb (status_ok : bool) || negb (comment_ok : bool) then
    print "[FATAL] Exiting due to missing or invalid JSON data."
  else
  print (nl +:+ "[INFO] Starting Mass Disposing...");;
  main_loop token status_update_payload comment_payload assets_to_process;;
  print (nl +:+ "--- Processing Complete ---")
  end
  end.

End Script.

(** * Vocabulary of the properties

    What the properties below are stated with: outcomes and traces of
    runs, the requests the script builds, the readings of the spec, and
    concrete worlds to run the script in. *)

(** ** Outcomes, states and events *)

(** An HTTP call succeeded: a response arrived and [raise_for_status]
    accepts it. *)
Definition succeeded (out : net_outcome) : bool :=
  match out with
  | Responded r => negb (http_error r)
  | Failed _ _ => false
  end.

(** An HTTP call got a response. *)
Definition responded (out : net_outcome) : bool :=
  match out with
  | Responded _ => true
  | Failed _ _ => false
  end.

(** The [n]-th call ends in a response or in a failure of the call:
    its headers can be written, or it fails before they are. *)
Definition completes (w : world) (n : nat) (req : request) : bool :=
  encodable req || negb (responded (net w n req)) && early_failure w n req.

(** The lines [update_asset_status] prints, by the outcome of its call. *)
Definition update_lines (asset_id : string) (out : net_outcome) : list string :=
  match out with
  | Responded r =>
      if http_error r
      then ["[ERROR] Failed to update asset " +:+ asset_id
            +:+ ". HTTP error: " +:+ http_error_msg r;
            "Response content: " +:+ default (text r) (json_repr r)]
      else ["[INFO] Successfully updated status for asset " +:+ asset_id
            +:+ "."]
  | Failed _ msg =>
      ["[ERROR] Network error when updating asset " +:+ asset_id
       +:+ ": " +:+ msg]
  end.

(** The lines [post_asset_feed_entry] prints, by the outcome of its call. *)
Definition feed_lines (asset_id : string) (out : net_outcome) : list string :=
  match out with
  | Responded r =>
      if http_error r
      then ["[ERROR] Failed to post feed entry for asset " +:+ asset_id
            +:+ ". HTTP error: " +:+ http_error_msg r]
      else ["[INFO] Feed entry posted for asset " +:+ asset_id +:+ "."]
  | Failed _ msg =>
      ["[ERROR] Network error when posting feed entry for " +:+ asset_id
       +:+ ": " +:+ msg]
  end.

(** [st] extended by the events [evs], the heap replaced by [hp]. *)
Definition after (st : state) (evs : list event) (hp : list pydict) : state :=
  State (trace st ++ evs) hp.

(** A request that carries the bearer token. *)
Definition bears_token (req : request) : Prop :=
  "Authorization" ∈ (headers req).*1.

(** What the loop of [main] may do: print, sleep, and send requests that
    carry the bearer token; it opens no file. *)
Definition loop_event (e : event) : Prop :=
  match e with
  | EvOpen _ => False
  | EvHttp req _ => bears_token req
  | EvPrint _ | EvSleep _ => True
  end.

Definition banner : string := "--- Starting Asset Disposer ---".

Definition fatal_env : string :=
  "[FATAL] Required environment variables are not set. Please check your .env file.".

Definition fatal_auth : string := "[FATAL] Exiting due to authentication failure.".

Definition fatal_json : string := "[FATAL] Exiting due to missing or invalid JSON data.".

Section Vocabulary.

Context (w : world) (cfg : config).

(** ** Requests and exchanges of the loop *)

(** The request [update_asset_status] sends for a payload with items [d]. *)
Definition update_request (app_id : option string) (asset_id token : string)
    (d : pydict) : request :=
  Request PATCH (asset_url cfg app_id asset_id)
    [("Authorization", "Bearer " +:+ token);
     ("Content-Type", "application/json")]
    (Some (JArr (patch_op <$> d))).

(** The request [post_asset_feed_entry] sends. *)
Definition feed_request (app_id : option string) (asset_id token : string)
    (payload : option json) : request :=
  Request POST (asset_url cfg app_id asset_id +:+ "/feed")
    [("Content-Type", "application/json");
     ("Authorization", "Bearer " +:+ token)]
    payload.

(** The document [json_body] yields for a value, given the heap. *)
Definition comment_body (v : pyval) (hp : list pydict) : option json :=
  match v with
  | VDict l => Some (JObj (default [] (hp !! l)))
  | VConst JNull => None
  | VConst j => Some j
  end.

Section LoopVocabulary.

Context (token : string) (d : pydict) (cp : pyval).

(** The clone the loop builds for one record. *)
Definition clone_for (a : asset) : pydict :=
  dict_set "serialNumber" (JStr (SerialNumber a)) d.

(** The HTTP exchanges of one iteration, when [n] calls have been
    made before it and [hp] is the heap once the clone exists. *)
Definition asset_log (n : nat) (hp : list pydict) (a : asset)
  : list (request * net_outcome) :=
  let req := update_request (APP_ID cfg) (ID a) token (clone_for a) in
  let out := net w n req in
  let freq :=
    feed_request (APP_ID cfg) (ID a) token (comment_body cp hp) in
  (req, out) :: (if succeeded out then [(freq, net w (S n) freq)] else []).

(** The HTTP exchanges of the whole loop. *)
Fixpoint loop_log (n : nat) (hp : list pydict) (assets : list asset)
  : list (request * net_outcome) :=
  match assets with
  | [] => []
  | a :: rest =>
      let hp' := hp ++ [clone_for a] in
      let seg := asset_log n hp' a in
      seg ++ loop_log (n + length seg) hp' rest
  end.

(** The line that announces the [i]-th of [total] records. *)
Definition processing_line (total i : nat) (a : asset) : string :=
  nl +:+ "[INFO] Processing asset ID " +:+ ID a +:+ " ("
  +:+ pretty i +:+ "/" +:+ pretty total +:+ ")...".

(** Everything one iteration does when its calls complete, for the
    [i]-th of [total] records, with [n] calls made before it and [hp]
    the heap once the clone exists. *)
Definition asset_events (total i n : nat) (hp : list pydict) (a : asset)
  : list event :=
  let req := update_request (APP_ID cfg) (ID a) token (clone_for a) in
  let out := net w n req in
  let freq :=
    feed_request (APP_ID cfg) (ID a) token (comment_body cp hp) in
  let fout := net w (S n) freq in
  EvPrint (processing_line total i a)
  :: EvHttp req out :: (EvPrint <$> update_lines (ID a) out)
  ++ (if succeeded out
      then EvSleep 1 :: EvHttp freq fout
           :: (EvPrint <$> feed_lines (ID a) fout)
      else [])
  ++ (if i <? total then [EvSleep 1] else []).

(** Everything the loop does for the records from the [i]-th on when
    all its calls complete. *)
Fixpoint loop_events (total i n : nat) (hp : list pydict)
    (assets : list asset) : list event :=
  match assets with
  | [] => []
  | a :: rest =>
      let hp' := hp ++ [clone_for a] in
      asset_events total i n hp' a
      ++ loop_events total (S i) (n + length (asset_log n hp' a)) hp' rest
  end.

End LoopVocabulary.





(** ** Loading, and [main] from its later points *)

Definition auth_error_line (r : response) : string :=
  "[ERROR] Authentication failed: " +:+ http_error_msg r
  +:+ ". Check credentials and API URLs.".

(** What [read_json_data] returns and what the heap is afterwards, by
    what opening and decoding the file yields. *)
Definition loaded (f : result json) (hp : list pydict)
  : pyval * list pydict :=
  match f with
  | Ok (JObj ms) => (VDict (length hp), hp ++ [dict_of_members ms])
  | Ok j => (VConst j, hp)
  | Raise _ => (VNone, hp)
  end.

(** The truth value of a value, given the heap. *)
Definition truth_value (v : pyval) (hp : list pydict) : bool :=
  match v with
  | VDict l => match default [] (hp !! l) with [] => false | _ => true end
  | VConst j => json_truthy j
  end.

(** A template file the script rejects: it holds the empty object, or
    opening or decoding it raises (missing file, invalid JSON). *)
Definition rejected_template (f : result json) : Prop :=
  f = Ok (JObj []) ∨ ∃ e, f = Raise e.

(** [main] from the point where the input list is known to be
    non-empty. *)
Definition main_from_templates (token : string)
    (assets_to_process : list asset) : M unit :=
  print ("[INFO] Found " +:+ pretty (length assets_to_process)
         +:+ " valid asset entries to process.");;
  status_update_payload ← read_json_data w DISPOSED_STATUS_JSON;
  comment_payload ← read_json_data w COMMENT_JSON;
  status_ok ← truthy status_update_payload;
  comment_ok ← truthy comment_payload;
  if negb (status_ok : bool) || negb (comment_ok : bool) then
    print fatal_json
  else
  print (nl +:+ "[INFO] Starting Mass Disposing...");;
  main_loop w cfg token status_update_payload comment_payload
    assets_to_process;;
  print (nl +:+ "--- Processing Complete ---").

(** [main] from the point where a token has been obtained. *)
Definition main_from_csv (token : string) : M unit :=
  assets_to_process ← read_ids_from_csv w CSV_FILENAME;
  match assets_to_process : list asset with
  | [] =>
      print ("[WARNING] No valid asset entries found in '" +:+ CSV_FILENAME
             +:+ "'. Exiting.")
  | _ => main_from_templates token assets_to_process
  end.

(** ** Phases of a run *)

(** Events of the authentication phase: no file is opened, and the
    only request is the authentication request. *)
Definition auth_phase (e : event) : Prop :=
  match e with
  | EvOpen _ => False
  | EvHttp req _ => req = auth_request cfg (USERNAME cfg) (PASSWORD cfg)
  | EvPrint _ | EvSleep _ => True
  end.

(** Events of the input phase: no request, and the only file opened is
    the CSV file. *)
Definition csv_phase (e : event) : Prop :=
  match e with
  | EvOpen path => path = CSV_FILENAME
  | EvHttp _ _ => False
  | EvPrint _ | EvSleep _ => True
  end.

(** Events of the template phase: no request, and the only files
    opened are the two JSON templates. *)
Definition json_phase (e : event) : Prop :=
  match e with
  | EvOpen path => path = DISPOSED_STATUS_JSON ∨ path = COMMENT_JSON
  | EvHttp _ _ => False
  | EvPrint _ | EvSleep _ => True
  end.

End Vocabulary.

(** ** Operations of a patch document *)



(** ** Valid rows and input files *)

(** Equality of two strings up to the case of their letters, as the
    script tells it: their upper-case forms are the same. *)
Definition eq_ignore_case (a b : string) : Prop := Text.upper a = Text.upper b.

(** The text of a cell of a row; an absent or empty cell has none. *)
Definition cell_text (r : row) (key : string) : string :=
  match r !! key with
  | Some (Some s) => s
  | _ => EmptyString
  end.

Definition trimmed (r : row) (key : string) : string :=
  Text.strip (cell_text r key).

(** A row the reader is to keep: both trimmed fields are non-empty and
    neither is the sentinel, whatever the case of its letters. *)
Definition valid_row (r : row) : Prop :=
  trimmed r "ID" ≠ EmptyString
  ∧ trimmed r "Serial Number" ≠ EmptyString
  ∧ ¬ eq_ignore_case (trimmed r "ID") "not found in itsm"
  ∧ ¬ eq_ignore_case (trimmed r "Serial Number") "not found in itsm".

#[global] Instance valid_row_dec r : Decision (valid_row r).
Proof. unfold valid_row, eq_ignore_case. apply _. Defined.

Definition record_of (r : row) : asset :=
  Asset (trimmed r "ID") (trimmed r "Serial Number").

(** The records of the valid rows, in order. *)
Definition valid_records (rows : list row) : list asset :=
  record_of <$> filter valid_row rows.

(** The rows a file holds: those its reader yields. *)
Definition file_rows (f : result (list (result row))) : list row :=
  match f with
  | Ok reader =>
      omap (λ it, match it with Ok r => Some r | Raise _ => None end) reader
  | Raise _ => []
  end.

(** The reader returns exactly the records of the valid rows of the file
    at [file_path]. *)
Definition returns_valid_records (w : world) (file_path : string) : Prop :=
  ∀ st,
    (read_ids_from_csv w file_path st).1
    = Ok (valid_records (file_rows (csv_file w file_path))).

(** A row that has text, possibly empty, in both columns the reader
    looks at, or lacks the column altogether. *)
Definition has_text (r : row) : Prop :=
  r !! "ID" ≠ Some None ∧ r !! "Serial Number" ≠ Some None.

#[global] Instance has_text_dec r : Decision (has_text r).
Proof. unfold has_text. apply _. Defined.

(** A world whose CSV reader is [reader]; nothing else is reachable. *)
Definition world_of_reader (reader : list (result row)) : world :=
  World (λ _ _, Failed NetConnection "unreachable")
        (λ _, Ok reader)
        (λ _, Raise (Exn FileNotFoundError "no such file" None))
        (λ _ _, true).

(** The three rows of the spec's example. *)
Definition three_rows : list row :=
  [ {[ "ID" := Some "1"; "Serial Number" := Some "ABC" ]};
    {[ "ID" := Some "2"; "Serial Number" := Some "NOT FOUND IN ITSM" ]};
    {[ "ID" := Some ""; "Serial Number" := Some "XYZ" ]} ].

(** A file with a header of three columns, a full row and a row that
    stops after its ID: [csv.DictReader] fills the missing cells of the
    short row with [None]. *)
Definition short_row_reader : list (result row) :=
  [ Ok {[ "ID" := Some "1"; "Serial Number" := Some "ABC";
          "Asset Tag" := Some "T1" ]};
    Ok {[ "ID" := Some "2"; "Serial Number" := None;
          "Asset Tag" := None ]} ].

(** A file whose first row is read and whose second makes the reader
    raise, here for a field longer than the reader accepts. *)
Definition interrupted_reader : list (result row) :=
  [ Ok {[ "ID" := Some "1"; "Serial Number" := Some "ABC";
          "Asset Tag" := Some "T1" ]};
    Raise (Exn CsvError "field larger than field limit (131072)" None) ].

(** The line the reader prints for an exception it catches. *)
Definition csv_error_line (file_path : string) (e : exn) : string :=
  if isinstance e FileNotFoundError
  then "[ERROR] CSV file not found at: " +:+ file_path
  else "[ERROR] An error occurred while reading the CSV file: " +:+ exn_str e.

(** ** Tokens *)

(** The claim's reading of the stripping: one quote off the front when
    the body starts with one, and one off the back when it ends with
    one. *)
Definition drop_leading_quote (s : string) : string :=
  match s with
  | String c s' => if Text.is_quote c then s' else s
  | EmptyString => EmptyString
  end.

Fixpoint drop_trailing_quote (s : string) : string :=
  match s with
  | EmptyString => EmptyString
  | String c EmptyString =>
      if Text.is_quote c then EmptyString else String c EmptyString
  | String c s' => String c (drop_trailing_quote s')
  end.

Definition strip_one_pair (s : string) : string :=
  drop_trailing_quote (drop_leading_quote s).

Definition test_config : config :=
  Config (Some "app") (Some "https://auth.example/token")
         (Some "https://api.example") (Some "user") (Some "secret").

(** A world whose every HTTP call is answered by [200] with [body]. *)
Definition world_answering (body : string) : world :=
  World (λ _ _, Responded (Response 200 body None EmptyString))
        (λ _, Raise (Exn FileNotFoundError "no such file" None))
        (λ _, Raise (Exn FileNotFoundError "no such file" None))
        (λ _ _, true).

(** A world in which no HTTP call gets through. *)
Definition world_offline : world :=
  World (λ _ _, Failed NetConnection "Connection refused")
        (λ _, Raise (Exn FileNotFoundError "no such file" None))
        (λ _, Raise (Exn FileNotFoundError "no such file" None))
        (λ _ _, true).

(** ** Order of the steps of a run *)

(** In the trace [t], every event with [P] comes before every event
    with [Q]. *)
Definition precedes (P Q : event → Prop) (t : list event) : Prop :=
  ∀ i j a b, t !! i = Some a → t !! j = Some b → P a → Q b → i < j.

Definition is_auth_call (cfg : config) (e : event) : Prop :=
  ∃ out, e = EvHttp (auth_request cfg (USERNAME cfg) (PASSWORD cfg)) out.

Definition is_csv_read (e : event) : Prop := e = EvOpen CSV_FILENAME.

Definition is_template_read (e : event) : Prop :=
  e = EvOpen DISPOSED_STATUS_JSON ∨ e = EvOpen COMMENT_JSON.

(** A call of the loop: an update or a feed request, which are the
    requests that carry the bearer token. *)
Definition is_asset_call (e : event) : Prop :=
  ∃ req out, e = EvHttp req out ∧ bears_token req.

(** The four top-level steps of a run, numbered in the order the script
    takes them. *)
Definition in_step (cfg : config) (n : nat) (e : event) : Prop :=
  match n with
  | 0 => is_auth_call cfg e
  | 1 => is_csv_read e
  | 2 => is_template_read e
  | 3 => is_asset_call e
  | _ => False
  end.

(** The order the claim states: input list, authentication, iteration. *)
Definition reads_then_authenticates (cfg : config) (t : list event) : Prop :=
  precedes is_csv_read (is_auth_call cfg) t
  ∧ precedes (is_auth_call cfg) is_asset_call t.

(** ** Worlds for whole runs *)

Definition demo_status : pydict :=
  [("statusId", JInt 7); ("serialNumber", JNull)].

Definition demo_comment : pydict := [("body", JStr "Disposed")].


(** Two assets; authentication succeeds, the first update is answered by
    500, everything else by 200. *)
Definition demo_world : world :=
  World
    (λ n _,
       match n with
       | 1 => Responded (Response 500 "error" None "500 Server Error")
       | _ => Responded (Response 200 (Text.quoted "tok") None EmptyString)
       end)
    (λ _, Ok [Ok {[ "ID" := Some "1"; "Serial Number" := Some "ABC" ]};
              Ok {[ "ID" := Some "2"; "Serial Number" := Some "XYZ" ]}])
    (λ path,
       if decide (path = COMMENT_JSON) then Ok (JObj demo_comment)
       else Ok (JObj demo_status))
    (λ _ _, true).



(** A world that answers every call by 401. *)
Definition world_denied : world :=
  World (λ _ _, Responded (Response 401 "denied" None "401 Client Error"))
        (λ _, Ok [Ok {[ "ID" := Some "1"; "Serial Number" := Some "ABC" ]}])
        (λ _, Ok (JObj demo_status))
        (λ _ _, true).

(** A world whose status template is the empty object. *)
Definition world_empty_status : world :=
  World (λ _ _, Responded (Response 200 (Text.quoted "tok") None EmptyString))
        (λ _, Ok [Ok {[ "ID" := Some "1"; "Serial Number" := Some "ABC" ]}])
        (λ path,
           if decide (path = COMMENT_JSON) then Ok (JObj demo_comment)
           else Ok (JObj []))
        (λ _ _, true).

(** ** Further vocabulary: lines, records, settings, pacing *)

(** The line [read_json_data] prints for an exception it catches. *)
Definition json_error_line (file_path : string) (e : exn) : string :=
  if isinstance e FileNotFoundError
  then "[ERROR] JSON file not found at: " +:+ file_path
  else if isinstance e JSONDecodeError
  then "[ERROR] Failed to parse JSON from file: " +:+ file_path
  else "[ERROR] An error occurred while reading the JSON file: " +:+ exn_str e.

(** A record as the reader hands it on: both fields are trimmed already,
    non-empty, and their upper-case forms are not the sentinel. *)
Definition clean_record (a : asset) : Prop :=
  Text.strip (ID a) = ID a
  ∧ Text.strip (SerialNumber a) = SerialNumber a
  ∧ ID a ≠ EmptyString
  ∧ SerialNumber a ≠ EmptyString
  ∧ Text.upper (ID a) ≠ SENTINEL
  ∧ Text.upper (SerialNumber a) ≠ SENTINEL.

(** An environment setting that is not set, or set to nothing. *)
Definition unset (o : option string) : Prop :=
  o = None ∨ o = Some EmptyString.



(** What [read_ids_from_csv] returns for the file at a path; the state
    it runs in has no part in it. *)
Definition csv_result (w : world) (file_path : string)
  : result (list asset) :=
  (read_ids_from_csv w file_path init_state).1.

(** Rows that only Unicode tells apart from valid ones: an ID between
    no-break spaces, a serial number that is the sentinel written with
    a dotless i, and an ID that is a lone next-line character. *)
Definition unicode_rows : list row :=
  [ {[ "ID" := Some (Text.utf8 0xA0 +:+ "1" +:+ Text.utf8 0xA0);
       "Serial Number" := Some "ABC" ]};
    {[ "ID" := Some "2";
       "Serial Number"
       := Some ("not found " +:+ Text.utf8 0x131 +:+ "n itsm") ]};
    {[ "ID" := Some (Text.utf8 0x85); "Serial Number" := Some "XYZ" ]} ].


(** A response with a status that is neither a 2xx one nor one
    [raise_for_status] raises for. *)
Definition moved : response := Response 302 "moved" None EmptyString.

(** A world that answers every call by [moved]; the CSV file has one
    valid row and both templates hold an object. *)
Definition world_redirected : world :=
  World (λ _ _, Responded moved)
        (λ _, Ok [Ok {[ "ID" := Some "1"; "Serial Number" := Some "ABC" ]}])
        (λ path,
           if decide (path = COMMENT_JSON) then Ok (JObj demo_comment)
           else Ok (JObj demo_status))
        (λ _ _, true).

(** A world in which authentication succeeds and the reader of the CSV
    file raises at the second row. *)
Definition world_interrupted : world :=
  World (λ _ _, Responded (Response 200 (Text.quoted "tok") None EmptyString))
        (λ _, Ok interrupted_reader)
        (λ path,
           if decide (path = COMMENT_JSON) then Ok (JObj demo_comment)
           else Ok (JObj demo_status))
        (λ _ _, true).



(** The line of a run that found no record to process. *)
Definition no_assets_line : string :=
  "[WARNING] No valid asset entries found in '" +:+ CSV_FILENAME
  +:+ "'. Exiting.".

(** Two rows, both valid, with blanks around the first ID. *)
Definition filled_rows : list row :=
  [ {[ "ID" := Some " 1 "; "Serial Number" := Some "ABC" ]};
    {[ "ID" := Some "2"; "Serial Number" := Some "XYZ" ]} ].


(** A decoded value that is truthy and no object: a non-empty array or
    string, a number other than zero, [true]. *)
Definition truthy_non_object (j : json) : Prop :=
  match j with
  | JObj _ => False
  | _ => json_truthy j = true
  end.

(** A world in which everything works except that the status template
    holds an array. *)
Definition world_array_template : world :=
  World (λ _ _, Responded (Response 200 (Text.quoted "tok") None EmptyString))
        (λ _, Ok (Ok <$> filled_rows))
        (λ path,
           if decide (path = COMMENT_JSON) then Ok (JObj demo_comment)
           else Ok (JArr [JObj demo_status]))
        (λ _ _, true).

(** Two items of a reader that the reader cannot tell apart: both
    raise, or both are rows with the same ID cell and the same Serial
    Number cell. *)
Definition same_fields (x y : result row) : Prop :=
  match x, y with
  | Ok r, Ok r' =>
      r !! "ID" = r' !! "ID" ∧ r !! "Serial Number" = r' !! "Serial Number"
  | Raise _, Raise _ => True
  | _, _ => False
  end.




(** * Properties *)

(** ** Text *)

Module TextFacts.
Import Text.

Lemma append_cons c a b : String c a +:+ b = String c (a +:+ b).
Proof. reflexivity. Qed.

(** What [lstrip] removes is a run of characters of the set, and what
    it leaves does not start with one. *)
Lemma lstrip_by_spec p s :
  ∃ pre, s = pre +:+ lstrip_by p s
         ∧ all_chars p pre = true
         ∧ ∀ c, first_char (lstrip_by p s) = Some c → p c = false.
Proof.
  induction s as [|c s (pre & Hs & Hpre & Hfirst)]; simpl.
  - exists EmptyString. naive_solver.
  - destruct (p c) eqn:Hc.
    + exists (String c pre). simpl. rewrite append_cons, Hc, Hpre, <- Hs. done.
    + exists EmptyString. simpl. naive_solver.
Qed.

Lemma rstrip_by_spec p s :
  ∃ suf, s = rstrip_by p s +:+ suf
         ∧ all_chars p suf = true
         ∧ ∀ c, last_char (rstrip_by p s) = Some c → p c = false.
Proof.
  induction s as [|c s (suf & Hs & Hsuf & Hlast)]; simpl.
  - exists EmptyString. naive_solver.
  - destruct (rstrip_by p s) as [|d r] eqn:Hr.
    + destruct (p c) eqn:Hc.
      * exists (String c suf). simpl. rewrite Hc, Hsuf.
        split; [by rewrite Hs at 1|done].
      * exists suf. rewrite append_cons, <- Hs. simpl. naive_solver.
    + exists suf. rewrite append_cons, <- Hs.
      split; [done|]. split; [done|]. intros c'. simpl in *. destruct r; naive_solver.
Qed.

(** [rstrip] keeps the first character of whatever it leaves. *)
Lemma rstrip_by_first p s c :
  first_char (rstrip_by p s) = Some c → first_char s = Some c.
Proof.
  destruct s as [|d s]; simpl; [done|].
  destruct (rstrip_by p s); [destruct (p d)|]; naive_solver.
Qed.

(** [s.strip(..)] splits [s] into a run of characters of the set, the
    result, and another such run; the result neither starts nor ends
    with a character of the set. *)
Lemma strip_by_spec p s :
  ∃ pre suf,
    s = pre +:+ strip_by p s +:+ suf
    ∧ all_chars p pre = true ∧ all_chars p suf = true
    ∧ (∀ c, first_char (strip_by p s) = Some c → p c = false)
    ∧ (∀ c, last_char (strip_by p s) = Some c → p c = false).
Proof.
  unfold strip_by.
  destruct (lstrip_by_spec p s) as (pre & Hs & Hpre & Hfirst).
  destruct (rstrip_by_spec p (lstrip_by p s)) as (suf & Hr & Hsuf & Hlast).
  exists pre, suf. split; [by rewrite <- Hr|].
  repeat split; try done.
  intros c Hc. eauto using rstrip_by_first.
Qed.

Lemma is_quote_mem c : mem_char c quote_str = is_quote c.
Proof. unfold is_quote. simpl. by destruct (Ascii.eqb c quote). Qed.

Lemma strip_by_ext p q s :
  (∀ c, p c = q c) → strip_by p s = strip_by q s.
Proof.
  intros Hpq. unfold strip_by.
  assert (∀ t, lstrip_by p t = lstrip_by q t) as ->.
  { induction t as [|c t IH]; simpl; [done|]. by rewrite Hpq, IH. }
  generalize (lstrip_by q s). clear s.
  induction s as [|c s IH]; simpl; [done|]. by rewrite Hpq, IH.
Qed.

Lemma strip_chars_quote s : strip_chars quote_str s = strip_by is_quote s.
Proof. apply strip_by_ext, is_quote_mem. Qed.

End TextFacts.

(** ** Characters *)

Module CharFacts.
Import Text.

Lemma join_cons_char b c cs :
  join (String b c :: cs) = String b (join (c :: cs)).
Proof. reflexivity. Qed.

(** Cutting a string into characters loses nothing. *)
Lemma join_chars s : join (chars s) = s.
Proof.
  induction s as [|b s IH]; [done|]. simpl.
  destruct (chars s) as [|c cs]; [by rewrite <- IH|].
  destruct (starts_inside c); by rewrite <- IH.
Qed.

(** Every piece [chars] cuts is one whole character, and none but the
    first starts in the middle of one. *)
Lemma chars_whole s :
  Forall (λ c, whole c = true) (chars s)
  ∧ Forall (λ c, starts_inside c = false) (tail (chars s)).
Proof.
  induction s as [|b s [IHw IHt]]; [by split|]. simpl.
  destruct (chars s) as [|c cs]; [by split; repeat constructor|].
  apply Forall_cons in IHw as [Hc Hcs].
  destruct (starts_inside c) eqn:Hin; simpl.
  - split; [|done]. constructor; [|done].
    destruct c as [|x t]; [done|]. simpl in *. by rewrite Hin, Hc.
  - split; [by repeat constructor|]. by constructor.
Qed.

Lemma chars_cons b s :
  chars (String b s)
  = match chars s with
    | c :: cs =>
        if starts_inside c then String b c :: cs
        else String b EmptyString :: c :: cs
    | [] => [String b EmptyString]
    end.
Proof. reflexivity. Qed.

Lemma chars_after_whole t rest b :
  all_chars continuation t = true →
  (∀ c cs, chars rest = c :: cs → starts_inside c = false) →
  chars (String b (t +:+ rest)) = String b t :: chars rest.
Proof.
  revert b. induction t as [|x t IH]; intros b Ht Hrest.
  - change (EmptyString +:+ rest) with rest. rewrite chars_cons.
    destruct (chars rest) as [|c cs] eqn:E; [done|].
    by rewrite (Hrest c cs eq_refl).
  - simpl in Ht. apply andb_true_iff in Ht as [Hx Ht].
    change (String x t +:+ rest) with (String x (t +:+ rest)).
    rewrite chars_cons, (IH x Ht Hrest). simpl. by rewrite Hx.
Qed.

(** A list of whole characters is what [chars] cuts its string into. *)
Lemma chars_join cs :
  Forall (λ c, whole c = true) cs →
  Forall (λ c, starts_inside c = false) (tail cs) →
  chars (join cs) = cs.
Proof.
  induction cs as [|c cs IH]; intros Hw Ht; [done|].
  apply Forall_cons in Hw as [Hc Hw]. simpl in Ht.
  assert (chars (join cs) = cs) as Hcs.
  { apply IH; [done|]. destruct cs; [done|]. by apply Forall_cons in Ht as [_ ?]. }
  destruct c as [|b t]; [done|].
  change (join (String b t :: cs)) with (String b (t +:+ join cs)).
  rewrite chars_after_whole, Hcs; [done|exact Hc|].
  rewrite Hcs. intros c' cs' ->. by apply Forall_cons in Ht as [? _].
Qed.

Lemma lstrip_list_Forall (P : string → Prop) p cs :
  Forall P cs → Forall P (lstrip_list p cs).
Proof.
  induction 1 as [|c cs Hc Hcs IH]; simpl; [done|].
  destruct (p c); [done|by constructor].
Qed.

Lemma rstrip_list_Forall (P : string → Prop) p cs :
  Forall P cs → Forall P (rstrip_list p cs).
Proof.
  induction 1 as [|c cs Hc Hcs IH]; simpl; [done|].
  destruct (rstrip_list p cs); [destruct (p c); by repeat constructor|].
  by constructor.
Qed.

Lemma Forall_tail {A} (P : A → Prop) l : Forall P l → Forall P (tail l).
Proof. destruct 1; [done|]. done. Qed.

Lemma lstrip_list_tail (P : string → Prop) p cs :
  Forall P (tail cs) → Forall P (tail (lstrip_list p cs)).
Proof.
  induction cs as [|c cs IH]; simpl; [done|]. intros H.
  destruct (p c); [|done]. by apply IH, Forall_tail.
Qed.

Lemma rstrip_list_tail (P : string → Prop) p cs :
  Forall P (tail cs) → Forall P (tail (rstrip_list p cs)).
Proof.
  destruct cs as [|c cs]; simpl; [done|]. intros H.
  pose proof (rstrip_list_Forall P p cs H) as Hr.
  destruct (rstrip_list p cs); [by destruct (p c)|done].
Qed.

(** What [lstrip] leaves does not start with a character of the set. *)
Lemma lstrip_list_head p cs c :
  head (lstrip_list p cs) = Some c → p c = false.
Proof.
  induction cs as [|d cs IH]; simpl; [done|].
  destruct (p d) eqn:Hd; [done|]. by intros [= <-].
Qed.

Lemma lstrip_list_id p cs :
  (∀ c, head cs = Some c → p c = false) → lstrip_list p cs = cs.
Proof.
  destruct cs as [|c cs]; simpl; [done|].
  intros H. by rewrite (H c eq_refl).
Qed.

Lemma rstrip_list_head p cs c :
  head (rstrip_list p cs) = Some c → head cs = Some c.
Proof.
  destruct cs as [|d cs]; simpl; [done|].
  destruct (rstrip_list p cs); [destruct (p d)|]; naive_solver.
Qed.

Lemma rstrip_list_idem p cs :
  rstrip_list p (rstrip_list p cs) = rstrip_list p cs.
Proof.
  induction cs as [|c cs IH]; simpl; [done|].
  destruct (rstrip_list p cs) as [|d r] eqn:Hr.
  - destruct (p c) eqn:Hc; simpl; [done|]. by rewrite Hc.
  - change (rstrip_list p (c :: d :: r))
      with (match rstrip_list p (d :: r) with
            | [] => if p c then [] else [c]
            | r' => c :: r'
            end).
    by rewrite IH.
Qed.

(** [strip] is idempotent. *)
Lemma strip_idem s : strip (strip s) = strip s.
Proof.
  unfold strip.
  set (l := rstrip_list isspace (lstrip_list isspace (chars s))).
  assert (chars (join l) = l) as ->.
  { destruct (chars_whole s) as [Hw Ht].
    apply chars_join.
    - by apply rstrip_list_Forall, lstrip_list_Forall.
    - by apply rstrip_list_tail, lstrip_list_tail. }
  rewrite (lstrip_list_id isspace l).
  - unfold l. by rewrite rstrip_list_idem.
  - intros c Hc. apply rstrip_list_head in Hc.
    by apply lstrip_list_head in Hc.
Qed.

Lemma all_chars_app p a b :
  all_chars p (a +:+ b) = all_chars p a && all_chars p b.
Proof.
  induction a as [|c a IH]; [done|].
  change (String c a +:+ b) with (String c (a +:+ b)). simpl.
  by rewrite IH, andb_assoc.
Qed.

Lemma latin1_app a b : latin1 (a +:+ b) = latin1 a && latin1 b.
Proof. apply all_chars_app. Qed.

End CharFacts.

(** ** Running the monad *)

Lemma http_events_app t1 t2 :
  http_events (t1 ++ t2) = http_events t1 ++ http_events t2.
Proof. apply omap_app. Qed.

Lemma http_events_prints lines : http_events (EvPrint <$> lines) = [].
Proof. by induction lines. Qed.

Lemma after_after st evs1 hp1 evs2 hp2 :
  after (after st evs1 hp1) evs2 hp2 = after st (evs1 ++ evs2) hp2.
Proof. unfold after. simpl. by rewrite <- app_assoc. Qed.

Lemma after_nil st : after st [] (heap st) = st.
Proof. destruct st. unfold after. simpl. by rewrite app_nil_r. Qed.

Lemma heap_lookup_new {A} (hp : list A) (d : A) :
  (hp ++ [d]) !! length hp = Some d.
Proof. by apply list_lookup_middle. Qed.

Lemma heap_insert_new {A} (hp : list A) (d d' : A) :
  <[length hp := d']> (hp ++ [d]) = hp ++ [d'].
Proof.
  rewrite insert_app_r_alt by lia. by rewrite Nat.sub_diag.
Qed.

Lemma Forall_prints_loop lines : Forall loop_event (EvPrint <$> lines).
Proof. induction lines; constructor; done. Qed.

Lemma heap_after st evs hp : heap (after st evs hp) = hp.
Proof. reflexivity. Qed.

(** Stepping through a sequence. *)
Lemma run_bind {A B} (m : M A) (k : A → M B) st a st' :
  m st = (Ok a, st') → (m ≫= k) st = k a st'.
Proof. intros H. unfold mbind, M_bind, bind. by rewrite H. Qed.

Lemma run_bind_raise {A B} (m : M A) (k : A → M B) st e st' :
  m st = (Raise e, st') → (m ≫= k) st = (Raise e, st').
Proof. intros H. unfold mbind, M_bind, bind. by rewrite H. Qed.

Lemma run_print_end line st :
  print line st = (Ok tt, after st [EvPrint line] (heap st)).
Proof. reflexivity. Qed.

Lemma run_print {B} line (k : unit → M B) st :
  (print line ≫= k) st = k tt (after st [EvPrint line] (heap st)).
Proof. reflexivity. Qed.

Ltac unfold_monad :=
  unfold mbind, M_bind, mret, M_ret, bind, ret, raise, print, sleep, emit,
    try_except in *.

Ltac run_simpl :=
  repeat (progress (unfold_monad; simpl));
  unfold after; simpl; rewrite <- ?app_assoc; simpl.

Section Runs.

Context (w : world) (cfg : config).

Lemma update_request_bears app_id asset_id token d :
  bears_token (update_request cfg app_id asset_id token d).
Proof. unfold bears_token. simpl. repeat constructor. Qed.

Lemma feed_request_bears app_id asset_id token payload :
  bears_token (feed_request cfg app_id asset_id token payload).
Proof. unfold bears_token. simpl. repeat constructor. Qed.

(** The requests of the loop can be written exactly when the token can
    be encoded; the authentication request always can. *)
Lemma encodable_update app_id asset_id token d :
  encodable (update_request cfg app_id asset_id token d) = Text.latin1 token.
Proof.
  unfold encodable. cbn [forallb headers update_request snd].
  rewrite CharFacts.latin1_app.
  change (Text.latin1 "Bearer ") with true.
  change (Text.latin1 "application/json") with true.
  by rewrite andb_true_r.
Qed.

Lemma encodable_feed app_id asset_id token payload :
  encodable (feed_request cfg app_id asset_id token payload)
  = Text.latin1 token.
Proof.
  unfold encodable. cbn [forallb headers feed_request snd].
  rewrite CharFacts.latin1_app.
  change (Text.latin1 "Bearer ") with true.
  change (Text.latin1 "application/json") with true.
  by rewrite andb_true_r.
Qed.

Lemma encodable_auth u p : encodable (auth_request cfg u p) = true.
Proof. reflexivity. Qed.

(** One call of [update_asset_status]: when the call completes, the
    exchange, the lines for its outcome, and the outcome as result;
    otherwise the encoding error, with nothing sent or printed. *)
Lemma update_asset_status_run app_id asset_id token l d st :
  heap st !! l = Some d →
  let req := update_request cfg app_id asset_id token d in
  let out := net w (length (http_log st)) req in
  update_asset_status w cfg app_id asset_id token (VDict l) st
  = if completes w (length (http_log st)) req
    then (Ok (succeeded out),
          after st (EvHttp req out :: (EvPrint <$> update_lines asset_id out))
            (heap st))
    else (Raise unicode_error, st).
Proof.
  intros Hl req out.
  unfold update_asset_status, items, read_dict, send, raise_for_status,
    local_response, response_json.
  unfold_monad. rewrite Hl. simpl.
  fold (update_request cfg app_id asset_id token d). fold req. fold out.
  unfold completes. fold out.
  destruct out as [r|k msg]; simpl.
  - rewrite orb_false_r. destruct (encodable req); [|reflexivity].
    destruct (http_error r) eqn:Herr; simpl.
    + destruct (json_repr r) as [shown|]; by run_simpl.
    + by run_simpl.
  - destruct (encodable req || early_failure w _ req); [|reflexivity].
    destruct k; by run_simpl.
Qed.

Lemma json_body_run v st :
  json_body v st = (Ok (comment_body v (heap st)), st).
Proof. destruct v as [l|[]]; reflexivity. Qed.

Lemma post_asset_feed_entry_run app_id asset_id token v st :
  let req := feed_request cfg app_id asset_id token (comment_body v (heap st)) in
  let out := net w (length (http_log st)) req in
  post_asset_feed_entry w cfg app_id asset_id token v st
  = if completes w (length (http_log st)) req
    then (Ok (succeeded out),
          after st (EvHttp req out :: (EvPrint <$> feed_lines asset_id out))
            (heap st))
    else (Raise unicode_error, st).
Proof.
  intros req out.
  unfold post_asset_feed_entry, send, raise_for_status.
  unfold_monad. rewrite json_body_run. simpl.
  fold (feed_request cfg app_id asset_id token (comment_body v (heap st))).
  fold req. fold out. unfold completes. fold out.
  destruct out as [r|k msg]; simpl.
  - rewrite orb_false_r. destruct (encodable req); [|reflexivity].
    destruct (http_error r) eqn:Herr; simpl;
      by run_simpl.
  - destruct (encodable req || early_failure w _ req); [|reflexivity].
    destruct k; by run_simpl.
Qed.

Section Loop.

Context (token : string) (lt : loc) (d : pydict) (cp : pyval).

(** *** What the events of the loop are *)

Lemma http_events_asset_events total i n hp a :
  http_events (asset_events w cfg token d cp total i n hp a)
  = asset_log w cfg token d cp n hp a.
Proof.
  unfold asset_events, asset_log. cbn [http_events omap list_omap].
  fold (http_events). rewrite http_events_app, http_events_prints.
  rewrite http_events_app.
  destruct (succeeded _); cbn [http_events omap list_omap app];
    fold http_events;
    rewrite ?http_events_app, ?http_events_prints;
    by destruct (i <? total).
Qed.

Lemma http_events_loop_events total assets :
  ∀ i n hp,
    http_events (loop_events w cfg token d cp total i n hp assets)
    = loop_log w cfg token d cp n hp assets.
Proof.
  induction assets as [|a rest IH]; intros i n hp; [done|].
  cbn [loop_events loop_log].
  by rewrite http_events_app, http_events_asset_events, IH.
Qed.

Lemma asset_events_loop_event total i n hp a :
  Forall loop_event (asset_events w cfg token d cp total i n hp a).
Proof.
  unfold asset_events.
  constructor; [done|]. constructor; [apply update_request_bears|].
  apply Forall_app. split; [apply Forall_prints_loop|].
  apply Forall_app. split.
  - destruct (succeeded _); [|done].
    constructor; [done|]. constructor; [apply feed_request_bears|].
    apply Forall_prints_loop.
  - destruct (i <? total); repeat constructor.
Qed.

Lemma loop_events_loop_event total assets :
  ∀ i n hp,
    Forall loop_event (loop_events w cfg token d cp total i n hp assets).
Proof.
  induction assets as [|a rest IH]; intros i n hp; [done|].
  cbn [loop_events]. apply Forall_app.
  split; [apply asset_events_loop_event|apply IH].
Qed.

(** *** One iteration *)

Lemma process_asset_run total i a st :
  heap st !! lt = Some d →
  let hp' := heap st ++ [clone_for d a] in
  let n := length (http_log st) in
  let req := update_request cfg (APP_ID cfg) (ID a) token (clone_for d a) in
  process_asset w cfg token (VDict lt) cp total (i, a) st
  = if completes w n req
    then (Ok tt, after st (asset_events w cfg token d cp total i n hp' a) hp')
    else (Raise unicode_error,
          after st [EvPrint (processing_line total i a)] hp').
Proof.
  intros Hl hp' n req.
  unfold process_asset, deepcopy, setitem, read_dict, alloc, write_dict.
  unfold_monad. simpl. rewrite Hl. simpl.
  rewrite heap_lookup_new. simpl. rewrite heap_insert_new.
  fold (clone_for d a). fold hp'.
  fold (processing_line total i a).
  set (st1 := State _ hp').
  rewrite (update_asset_status_run (APP_ID cfg) (ID a) token
             (length (heap st)) (clone_for d a) st1)
    by apply heap_lookup_new.
  assert (http_log st1 = http_log st) as Hlog.
  { unfold http_log, st1. cbn [trace].
    rewrite http_events_app. simpl. by rewrite app_nil_r. }
  rewrite Hlog. fold n. fold req.
  set (out := net w n req).
  destruct (completes w n req) eqn:Hdone; [|done].
  unfold asset_events. fold req. fold out.
  destruct (succeeded out) eqn:Hout.
  - assert (Text.latin1 token = true) as Htok.
    { unfold completes in Hdone. fold out in Hdone.
      destruct out as [r|]; [|done].
      cbn [responded negb andb] in Hdone.
      rewrite orb_false_r in Hdone.
      by rewrite <- (encodable_update (APP_ID cfg) (ID a) token (clone_for d a)). }
    cbn [sleep]. unfold_monad. cbn [fst snd heap trace].
    set (st2 := State _ _).
    rewrite (post_asset_feed_entry_run (APP_ID cfg) (ID a) token cp st2).
    assert (length (http_log st2) = S n) as ->.
    { unfold http_log, st2, after, st1. cbn [trace].
      rewrite !http_events_app. simpl.
      rewrite http_events_prints, !length_app. simpl. unfold n, http_log. lia. }
    assert (heap st2 = hp') as -> by done.
    set (freq := feed_request cfg _ _ _ _).
    unfold completes. rewrite (encodable_feed _ _ _ _ : encodable freq = _).
    rewrite Htok. cbn [orb].
    unfold st2, st1, after. cbn [fst snd heap trace].
    destruct (i <? total); simpl; f_equal; f_equal;
      rewrite <- ?app_assoc; simpl; rewrite <- ?app_assoc; simpl;
      rewrite ?app_nil_r; done.
  - unfold_monad. unfold st1, after. cbn [fst snd heap trace].
    destruct (i <? total); simpl; f_equal; f_equal;
      rewrite <- ?app_assoc; simpl; rewrite <- ?app_assoc; simpl;
      rewrite ?app_nil_r; done.
Qed.

(** *** The loop *)

(** The loop either runs through all the records, or stops at the
    first record whose update cannot be written; that happens with a
    token outside Latin-1 only. *)
Lemma for_each_run total assets :
  ∀ i st,
    heap st !! lt = Some d →
    for_each (enumerate i assets)
      (process_asset w cfg token (VDict lt) cp total) st
    = (Ok tt,
       after st
         (loop_events w cfg token d cp total i (length (http_log st))
            (heap st) assets)
         (heap st ++ (clone_for d <$> assets)))
    ∨ ∃ j a,
        assets !! j = Some a
        ∧ Text.latin1 token = false
        ∧ for_each (enumerate i assets)
            (process_asset w cfg token (VDict lt) cp total) st
          = (Raise unicode_error,
             after st
               (loop_events w cfg token d cp total i (length (http_log st))
                  (heap st) (take j assets)
                ++ [EvPrint (processing_line total (i + j) a)])
               (heap st ++ (clone_for d <$> take (S j) assets))).
Proof.
  induction assets as [|a rest IH]; intros i st Hl.
  - left. simpl. by rewrite app_nil_r, after_nil.
  - cbn [enumerate for_each]. unfold_monad.
    rewrite (process_asset_run total i a st Hl).
    set (req := update_request cfg (APP_ID cfg) (ID a) token (clone_for d a)).
    destruct (completes w (length (http_log st)) req) eqn:Hdone.
    + set (st1 := after st _ _).
      assert (heap st1 !! lt = Some d) as Hl1.
      { cbn [st1 after heap]. rewrite lookup_app_l; [done|].
        by eapply lookup_lt_Some. }
      assert (length (http_log st1)
              = length (http_log st)
                + length (asset_log w cfg token d cp (length (http_log st))
                            (heap st ++ [clone_for d a]) a)) as Hn.
      { unfold http_log, st1, after. cbn [trace].
        by rewrite http_events_app, length_app, http_events_asset_events. }
      fold (@for_each (nat * asset)).
      destruct (IH (S i) st1 Hl1) as [Hall|(j & a' & Hj & Htok & Hstop)].
      * left. rewrite Hall, Hn. unfold st1. rewrite after_after.
        cbn [heap after loop_events fmap list_fmap].
        by rewrite <- app_assoc.
      * right. exists (S j), a'. split; [done|]. split; [done|].
        rewrite Hstop, Hn. unfold st1. rewrite after_after.
        cbn [heap after loop_events take fmap list_fmap].
        rewrite <- !app_assoc. cbn [app].
        by rewrite Nat.add_succ_r.
    + right. exists 0, a. split; [done|]. split.
      * unfold completes in Hdone. apply orb_false_iff in Hdone as [Henc _].
        by rewrite <- (encodable_update (APP_ID cfg) (ID a) token (clone_for d a)).
      * by rewrite Nat.add_0_r.
Qed.


(** Every run of the loop: what it has done when it ends serves the
    first [m] records, and it has cloned the template for the first
    [k]. *)
Lemma main_loop_run_any assets st :
  heap st !! lt = Some d →
  ∃ res evs k m,
    main_loop w cfg token (VDict lt) cp assets st
    = (res, after st evs (heap st ++ (clone_for d <$> take k assets)))
    ∧ http_events evs
      = loop_log w cfg token d cp (length (http_log st)) (heap st)
          (take m assets)
    ∧ Forall loop_event evs
    ∧ m ≤ k ≤ length assets
    ∧ (res = Ok tt → m = length assets)
    ∧ (Text.latin1 token = true → res = Ok tt)
    ∧ (∀ e, res = Raise e → e = unicode_error ∧ Text.latin1 token = false).
Proof.
  intros Hl.
  destruct (for_each_run (length assets) assets 1 st Hl)
    as [Hall|(j & a & Hj & Hno & Hstop)].
  - eexists (Ok tt), _, (length assets), (length assets).
    rewrite firstn_all. split; [exact Hall|].
    split; [apply http_events_loop_events|].
    split; [apply loop_events_loop_event|].
    split; [lia|]. split; [done|]. split; [done|]. by intros e [=].
  - pose proof (lookup_lt_Some _ _ _ Hj) as Hlt.
    eexists (Raise unicode_error), _, (S j), j.
    split; [exact Hstop|]. split.
    { rewrite http_events_app, http_events_loop_events. simpl.
      by rewrite app_nil_r. }
    split.
    { apply Forall_app. split; [apply loop_events_loop_event|].
      by repeat constructor. }
    split; [lia|]. split; [done|]. split; [congruence|].
    by intros e [= <-].
Qed.




End Loop.

(** *** Authentication *)

Lemma get_bearer_token_success u p st r :
  net w (length (http_log st)) (auth_request cfg u p) = Responded r →
  http_error r = false →
  get_bearer_token w cfg u p st
  = (Ok (Some (Text.strip_chars Text.quote_str (text r))),
     after st [EvHttp (auth_request cfg u p) (Responded r);
               EvPrint "[INFO] Authenticated successfully."] (heap st)).
Proof.
  intros Hnet Herr.
  unfold get_bearer_token, send, raise_for_status. unfold_monad.
  rewrite Hnet. simpl. rewrite Herr. by run_simpl.
Qed.

Lemma get_bearer_token_http_error u p st r :
  net w (length (http_log st)) (auth_request cfg u p) = Responded r →
  http_error r = true →
  get_bearer_token w cfg u p st
  = (Ok None,
     after st [EvHttp (auth_request cfg u p) (Responded r);
               EvPrint (auth_error_line r)] (heap st)).
Proof.
  intros Hnet Herr.
  unfold get_bearer_token, send, raise_for_status. unfold_monad.
  rewrite Hnet. simpl. rewrite Herr. by run_simpl.
Qed.

(** A failure of the call itself is no [HTTPError]: no clause of
    [get_bearer_token] catches it. *)
Lemma get_bearer_token_net_failure u p st k msg :
  net w (length (http_log st)) (auth_request cfg u p) = Failed k msg →
  get_bearer_token w cfg u p st
  = (Raise (Exn (net_failure_class k) msg None),
     after st [EvHttp (auth_request cfg u p) (Failed k msg)] (heap st)).
Proof.
  intros Hnet.
  unfold get_bearer_token, send. unfold_monad.
  rewrite Hnet. by destruct k.
Qed.

(** *** The input reader *)

Lemma read_rows_pure reader :
  ∀ acc st, ∃ r, read_rows reader acc st = (r, st).
Proof.
  induction reader as [|[row|e] reader IH]; intros acc st; simpl.
  - by eexists.
  - unfold cell_strip, row_get. unfold_monad.
    repeat case_match; simplify_eq; try (by eexists); apply IH.
  - by eexists.
Qed.

Lemma isinstance_Exception e : isinstance e Exception = true.
Proof. destruct e as [[] ? ?]; reflexivity. Qed.

(** [read_ids_from_csv] always returns a list; besides opening the
    file it only prints, and it leaves the heap alone. *)
Lemma read_ids_from_csv_run file_path st :
  ∃ assets lines,
    read_ids_from_csv w file_path st
    = (Ok assets,
       after st (EvOpen file_path :: (EvPrint <$> lines)) (heap st)).
Proof.
  unfold read_ids_from_csv, open_csv. unfold_monad. simpl.
  set (st1 := State _ _).
  assert (∀ e : exn, ∃ lines,
            match find_handler e
                    [(FileNotFoundError, λ _ : exn,
                       print ("[ERROR] CSV file not found at: " +:+ file_path));
                     (Exception, λ e0 : exn,
                       print ("[ERROR] An error occurred while reading the CSV file: "
                              +:+ exn_str e0))]
            with
            | Some h => bind (h e) (λ _, ret []) st1
            | None => (Raise e, st1)
            end
            = (Ok ([] : list asset),
               after st (EvOpen file_path :: (EvPrint <$> lines)) (heap st)))
    as Hcatch.
  { intros e. simpl. destruct (isinstance e FileNotFoundError).
    - run_simpl. by eexists [_].
    - rewrite isinstance_Exception. run_simpl. by eexists [_]. }
  unfold_monad.
  destruct (csv_file w file_path) as [reader|e].
  - destruct (read_rows_pure reader [] st1) as [r Hr]. rewrite Hr.
    destruct r as [assets|e].
    + by exists assets, [].
    + destruct (Hcatch e) as [lines Hl]. exists [], lines. apply Hl.
  - destruct (Hcatch e) as [lines Hl]. exists [], lines. apply Hl.
Qed.

(** *** The payload loader *)

Lemma read_json_data_run file_path st :
  ∃ lines,
    read_json_data w file_path st
    = (Ok (loaded (json_file w file_path) (heap st)).1,
       after st (EvOpen file_path :: (EvPrint <$> lines))
         (loaded (json_file w file_path) (heap st)).2).
Proof.
  unfold read_json_data, json_load, alloc. unfold_monad. simpl.
  destruct (json_file w file_path) as [j|e]; simpl.
  - exists []. by destruct j.
  - destruct (isinstance e FileNotFoundError); [run_simpl; by eexists [_]|].
    destruct (isinstance e JSONDecodeError); [run_simpl; by eexists [_]|].
    rewrite isinstance_Exception. run_simpl. by eexists [_].
Qed.

Lemma truthy_run v st : truthy v st = (Ok (truth_value v (heap st)), st).
Proof. by destruct v. Qed.

End Runs.

(** ** Dictionaries *)



Lemma dict_keys_set k v d :
  dict_keys (dict_set k v d)
  = if decide (k ∈ dict_keys d) then dict_keys d else dict_keys d ++ [k].
Proof.
  unfold dict_keys. induction d as [|[k' v'] d IH]; csimpl; [done|].
  destruct (decide (k = k')) as [->|Hne]; csimpl.
  - rewrite decide_True; [done|]. constructor.
  - rewrite IH. destruct (decide (k ∈ d.*1)) as [Hin|Hnin].
    + rewrite decide_True; [done|]. by constructor.
    + rewrite decide_False; [done|]. by intros [?|?]%elem_of_cons.
Qed.

(** Storing under a key keeps the keys distinct. *)
Lemma dict_set_NoDup k v d : NoDup (dict_keys d) → NoDup (dict_keys (dict_set k v d)).
Proof.
  intros Hd. rewrite dict_keys_set. case_decide; [done|].
  apply NoDup_app. split; [done|]. split; [|apply NoDup_singleton].
  intros x Hx ->%list_elem_of_singleton. done.
Qed.

Lemma dict_of_members_NoDup ms : NoDup (dict_keys (dict_of_members ms)).
Proof.
  unfold dict_of_members.
  assert (∀ d, NoDup (dict_keys d) →
               NoDup (dict_keys (foldl (λ d kv, dict_set kv.1 kv.2 d) d ms))) as H.
  { induction ms as [|[k v] ms IH]; intros d Hd; simpl; [done|].
    apply IH. by apply dict_set_NoDup. }
  apply H. constructor.
Qed.

(** The payloads the loop sends have distinct keys: they are clones of a
    dictionary that [json.load] built. *)
Lemma clone_for_NoDup ms a :
  NoDup (dict_keys (clone_for (dict_of_members ms) a)).
Proof. apply dict_set_NoDup, dict_of_members_NoDup. Qed.

(** ** The per-asset workflow *)




(** ** The patch document *)





(** ** The input reader *)

Lemma nonempty_true s : Text.nonempty s = true ↔ s ≠ EmptyString.
Proof. by destruct s. Qed.

Lemma sentinel_ignore_case s :
  Text.upper s = SENTINEL ↔ eq_ignore_case s "not found in itsm".
Proof.
  unfold eq_ignore_case.
  by change (Text.upper "not found in itsm") with SENTINEL.
Qed.

(** The test in the reader's loop is the validity of the row. *)
Lemma keep_row_valid r :
  keep_row (trimmed r "ID") (trimmed r "Serial Number") = true ↔ valid_row r.
Proof.
  unfold keep_row, valid_row.
  rewrite !andb_true_iff, !negb_true_iff, !bool_decide_eq_false.
  rewrite !nonempty_true, !sentinel_ignore_case. tauto.
Qed.

Lemma read_rows_clean rows :
  Forall has_text rows →
  ∀ acc st,
    read_rows (Ok <$> rows) acc st = (Ok (acc ++ valid_records rows), st).
Proof.
  induction 1 as [|r rows [Hid Hsn] _ IH]; intros acc st; csimpl.
  - by rewrite app_nil_r.
  - unfold cell_strip, row_get. unfold_monad.
    assert (∀ key, r !! key ≠ Some None →
              match r !! key with Some cell => cell | None => Some EmptyString end
              = Some (cell_text r key)) as Hcell.
    { intros key Hkey. unfold cell_text. by destruct (r !! key) as [[|]|]. }
    rewrite (Hcell _ Hid). simpl. rewrite (Hcell _ Hsn). simpl.
    fold (trimmed r "ID"). fold (trimmed r "Serial Number").
    unfold valid_records. rewrite filter_cons.
    destruct (keep_row _ _) eqn:Hkeep.
    + apply keep_row_valid in Hkeep. rewrite decide_True by done.
      rewrite IH. csimpl. by rewrite <- app_assoc.
    + rewrite decide_False; [apply IH|].
      intros Hv%keep_row_valid. congruence.
Qed.

Lemma file_rows_clean rows : file_rows (Ok (Ok <$> rows)) = rows.
Proof. simpl. induction rows; csimpl; by f_equal. Qed.

(** C2 fails on a file with a row shorter than its header.  The file
    has a header of three columns, the valid row [1,ABC,T1] and the row
    [2].  [csv.DictReader] fills the missing cells of the short row with
    [None], and the default of [row.get] stands in for an absent key
    only: stripping the [None] cell raises [AttributeError], the clause
    for [Exception] answers with the empty list, and the record of the
    first row, which is what the claim says the reader returns, is
    lost. *)
Theorem read_ids_from_csv_short_row_loses_valid_rows :
  valid_records (file_rows (Ok short_row_reader)) = [Asset "1" "ABC"]
  ∧ read_ids_from_csv (world_of_reader short_row_reader) CSV_FILENAME
      init_state
    = (Ok [],
       State [EvOpen CSV_FILENAME;
              EvPrint ("[ERROR] An error occurred while reading the CSV file: "
                       +:+ "'NoneType' object has no attribute 'strip'")]
         []).
Proof. split; by vm_compute. Qed.

(** A reader that raises at some row makes the loop raise. *)
Lemma read_rows_raises reader e :
  Raise e ∈ reader →
  ∀ acc st, ∃ e', read_rows reader acc st = (Raise e', st).
Proof.
  induction reader as [|[r|e0] reader IH]; intros Hin acc st.
  - by apply elem_of_nil in Hin.
  - apply elem_of_cons in Hin as [?|Hin]; [done|].
    simpl. unfold cell_strip, row_get. unfold_monad.
    repeat case_match; simplify_eq; try (by eexists); by apply IH.
  - by eexists.
Qed.

(** What catching does, whatever the [try] body raised. *)
Lemma read_ids_from_csv_catch w file_path st :
  ∃ assets lines,
    read_ids_from_csv w file_path st
    = (Ok assets, after st (EvOpen file_path :: (EvPrint <$> lines)) (heap st))
    ∧ ∀ body,
        body = match csv_file w file_path with
               | Ok reader =>
                   (read_rows reader [] (after st [EvOpen file_path] (heap st))).1
               | Raise e => Raise e
               end →
        match body with
        | Ok found => assets = found ∧ lines = []
        | Raise e => assets = [] ∧ lines = [csv_error_line file_path e]
        end.
Proof.
  unfold read_ids_from_csv, open_csv. unfold_monad. simpl.
  fold (after st [EvOpen file_path] (heap st)).
  set (st1 := after st [EvOpen file_path] (heap st)).
  assert (∀ e : exn,
            match find_handler e
                    [(FileNotFoundError, λ _ : exn,
                       print ("[ERROR] CSV file not found at: " +:+ file_path));
                     (Exception, λ e0 : exn,
                       print ("[ERROR] An error occurred while reading the CSV file: "
                              +:+ exn_str e0))]
            with
            | Some h => bind (h e) (λ _, ret []) st1
            | None => (Raise e, st1)
            end
            = (Ok ([] : list asset),
               after st (EvOpen file_path :: (EvPrint <$> [csv_error_line file_path e]))
                 (heap st)))
    as Hcatch.
  { intros e. simpl. unfold csv_error_line.
    destruct (isinstance e FileNotFoundError).
    - by run_simpl.
    - rewrite isinstance_Exception. by run_simpl. }
  unfold_monad.
  destruct (csv_file w file_path) as [reader|e].
  - destruct (read_rows_pure reader [] st1) as [r Hr]. rewrite Hr.
    destruct r as [found|e].
    + exists found, []. split; [done|]. by intros ? ->.
    + eexists [], _. split; [apply Hcatch|]. by intros ? ->.
  - eexists [], _. split; [apply Hcatch|]. by intros ? ->.
Qed.

(** C8: for every file path and every state of the world,
    [read_ids_from_csv] returns a list and raises nothing; apart from
    opening the file it only prints.  When opening the file raises (the
    file is missing, or any other error), or when the reader raises at
    some row (the file cannot be parsed), the list is empty and one error
    line has been printed: the file-not-found line for a
    [FileNotFoundError], the general line otherwise. *)
Theorem read_ids_from_csv_never_raises
    (w : world) (file_path : string) (st : state) :
  ∃ assets lines,
    read_ids_from_csv w file_path st
    = (Ok assets, after st (EvOpen file_path :: (EvPrint <$> lines)) (heap st))
    ∧ (∀ e, csv_file w file_path = Raise e →
            assets = [] ∧ lines = [csv_error_line file_path e])
    ∧ (∀ reader e, csv_file w file_path = Ok reader → Raise e ∈ reader →
            assets = [] ∧ ∃ e', lines = [csv_error_line file_path e']).
Proof.
  destruct (read_ids_from_csv_catch w file_path st)
    as (assets & lines & Hrun & Hbody).
  exists assets, lines. split; [done|]. split.
  - intros e He. specialize (Hbody _ eq_refl). by rewrite He in Hbody.
  - intros reader e Hfile Hin. specialize (Hbody _ eq_refl).
    rewrite Hfile in Hbody.
    destruct (read_rows_raises reader e Hin []
                (after st [EvOpen file_path] (heap st))) as [e' He'].
    rewrite He' in Hbody. destruct Hbody as [-> ->]. eauto.
Qed.

(** ** The authenticator *)

(** C3 as stated fails: on a body with two quotes on each side of [tok]
    the token is [tok], both pairs gone, where removing one pair would
    leave [tok] between quotes. *)
Lemma get_bearer_token_one_pair_counterexample :
  (get_bearer_token (world_answering (Text.quoted (Text.quoted "tok")))
     test_config (Some "user") (Some "secret") init_state).1
  = Ok (Some "tok")
  ∧ strip_one_pair (Text.quoted (Text.quoted "tok")) = Text.quoted "tok"
  ∧ (get_bearer_token (world_answering (Text.quoted (Text.quoted "tok")))
       test_config (Some "user") (Some "secret") init_state).1
    ≠ Ok (Some (strip_one_pair (Text.quoted (Text.quoted "tok")))).
Proof.
  split; [by vm_compute|]. split; [by vm_compute|].
  vm_compute. discriminate.
Qed.

(** C3, amended: when the authentication call is answered by a response
    that [raise_for_status] accepts, [get_bearer_token] returns the body
    with every leading and every trailing quote removed: the body is a
    run of quotes, the token, and another run of quotes, and the token
    neither starts nor ends with a quote. *)
Theorem get_bearer_token_strips_all_quotes
    (w : world) (cfg : config) (username password : option string)
    (st : state) (r : response) :
  net w (length (http_log st)) (auth_request cfg username password)
  = Responded r →
  http_error r = false →
  ∃ token pre suf st',
    get_bearer_token w cfg username password st = (Ok (Some token), st')
    ∧ text r = pre +:+ token +:+ suf
    ∧ Text.all_chars Text.is_quote pre = true
    ∧ Text.all_chars Text.is_quote suf = true
    ∧ (∀ c, Text.first_char token = Some c → Text.is_quote c = false)
    ∧ (∀ c, Text.last_char token = Some c → Text.is_quote c = false).
Proof.
  intros Hnet Herr.
  rewrite (get_bearer_token_success w cfg username password st r Hnet Herr).
  rewrite TextFacts.strip_chars_quote.
  destruct (TextFacts.strip_by_spec Text.is_quote (text r))
    as (pre & suf & Hsplit & Hpre & Hsuf & Hfirst & Hlast).
  by eexists _, pre, suf, _.
Qed.

(** C3, amended, on a body of two quotes on each side of [tok]. *)
Lemma get_bearer_token_strips_all_quotes_witness :
  ∃ token pre suf st',
    get_bearer_token (world_answering (Text.quoted (Text.quoted "tok")))
      test_config (Some "user") (Some "secret") init_state
    = (Ok (Some token), st')
    ∧ Text.quoted (Text.quoted "tok") = pre +:+ token +:+ suf
    ∧ Text.all_chars Text.is_quote pre = true
    ∧ Text.all_chars Text.is_quote suf = true
    ∧ (∀ c, Text.first_char token = Some c → Text.is_quote c = false)
    ∧ (∀ c, Text.last_char token = Some c → Text.is_quote c = false).
Proof.
  apply (get_bearer_token_strips_all_quotes
           (world_answering (Text.quoted (Text.quoted "tok"))) test_config
           (Some "user") (Some "secret") init_state
           (Response 200 (Text.quoted (Text.quoted "tok")) None EmptyString)).
  - reflexivity.
  - reflexivity.
Defined.

(** C4 fails on a network error: when the connection is refused,
    [get_bearer_token] returns no failure signal; the [ConnectionError]
    leaves it, and leaves [main], as an exception. *)
Lemma get_bearer_token_connection_error_escapes :
  (get_bearer_token world_offline test_config (Some "user") (Some "secret")
     init_state).1
  = Raise (Exn ConnectionError "Connection refused" None)
  ∧ (main world_offline test_config init_state).1
    = Raise (Exn ConnectionError "Connection refused" None).
Proof. split; reflexivity. Qed.

(** ** The whole run *)

Section MainRuns.

Context (w : world) (cfg : config).

Lemma main_unfold :
  main w cfg
  = (print banner;;
     if negb (env_complete cfg) then print fatal_env
     else
       token ← get_bearer_token w cfg (USERNAME cfg) (PASSWORD cfg);
       match token : option string with
       | None | Some EmptyString => print fatal_auth
       | Some token => main_from_csv w cfg token
       end).
Proof. reflexivity. Qed.

Lemma Forall_prints_json lines : Forall json_phase (EvPrint <$> lines).
Proof. induction lines; constructor; done. Qed.

Lemma Forall_prints_csv lines : Forall csv_phase (EvPrint <$> lines).
Proof. induction lines; constructor; done. Qed.

(** With a status payload that is no dictionary the loop stops at its
    first record: storing the serial number raises. *)
Lemma main_loop_const token j cp assets st :
  ∃ r lines,
    main_loop w cfg token (VConst j) cp assets st
    = (r, after st (EvPrint <$> lines) (heap st)).
Proof.
  unfold main_loop. destruct assets as [|a rest]; simpl.
  - exists (Ok tt), []. by rewrite after_nil.
  - unfold process_asset, deepcopy, setitem. unfold_monad. simpl.
    destruct j; by eexists _, [_].
Qed.

Lemma loaded_extends f hp : ∃ new, (loaded f hp).2 = hp ++ new.
Proof.
  destruct f as [[]|]; simpl; try (exists []; by rewrite app_nil_r).
  by eexists [_].
Qed.

Lemma loaded_lookup f hp l :
  (loaded f hp).1 = VDict l → ∃ d, (loaded f hp).2 !! l = Some d.
Proof.
  destruct f as [[]|]; simpl; try done.
  intros [= <-]. eexists. apply heap_lookup_new.
Qed.

(** The run from the templates on: the templates are opened, then the
    loop runs; and when either template is rejected the run stops with
    the fatal line before the loop. *)
Lemma main_from_templates_run token assets st :
  ∃ r t_json t_loop hp,
    main_from_templates w cfg token assets st
    = (r, after st (t_json ++ t_loop) hp)
    ∧ Forall json_phase t_json
    ∧ Forall loop_event t_loop
    ∧ (rejected_template (json_file w DISPOSED_STATUS_JSON)
       ∨ rejected_template (json_file w COMMENT_JSON) →
       r = Ok tt ∧ t_loop = [EvPrint fatal_json]).
Proof.
  unfold main_from_templates. rewrite run_print.
  destruct (read_json_data_run w DISPOSED_STATUS_JSON
              (after st [EvPrint ("[INFO] Found " +:+ pretty (length assets)
                                  +:+ " valid asset entries to process.")]
                 (heap st))) as [lines1 H1].
  rewrite heap_after in H1.
  set (f1 := json_file w DISPOSED_STATUS_JSON) in *.
  set (sp := (loaded f1 (heap st)).1) in *.
  set (hp1 := (loaded f1 (heap st)).2) in *.
  rewrite (run_bind _ _ _ _ _ H1), after_after. clear H1.
  match goal with
  | |- context [after st ?evs hp1] =>
      destruct (read_json_data_run w COMMENT_JSON (after st evs hp1))
        as [lines2 H2]
  end.
  rewrite heap_after in H2.
  set (f2 := json_file w COMMENT_JSON) in *.
  set (cp := (loaded f2 hp1).1) in *.
  set (hp2 := (loaded f2 hp1).2) in *.
  rewrite (run_bind _ _ _ _ _ H2), after_after. clear H2.
  rewrite (run_bind _ _ _ _ _ (truthy_run _ _)), heap_after.
  rewrite (run_bind _ _ _ _ _ (truthy_run _ _)), heap_after.
  set (t_json := [EvPrint ("[INFO] Found " +:+ pretty (length assets)
                           +:+ " valid asset entries to process.")]
                 ++ EvOpen DISPOSED_STATUS_JSON :: (EvPrint <$> lines1)
                 ++ EvOpen COMMENT_JSON :: (EvPrint <$> lines2)).
  assert (Forall json_phase t_json) as Hjson.
  { unfold t_json. constructor; [done|]. constructor; [by left|].
    apply Forall_app. split; [apply Forall_prints_json|].
    constructor; [by right|]. apply Forall_prints_json. }
  match goal with
  | |- context [after st ?evs hp2] =>
      replace evs with t_json by (unfold t_json; by rewrite <- !app_assoc)
  end.
  destruct (loaded_extends f2 hp1) as [new Hnew]. fold hp2 in Hnew.
  assert (∀ l d, hp1 !! l = Some d → hp2 !! l = Some d) as Hkeep.
  { intros l d Hl. rewrite Hnew. by apply lookup_app_l_Some. }
  assert (rejected_template f1 ∨ rejected_template f2 →
          truth_value sp hp2 && truth_value cp hp2 = false) as Hempty.
  { intros [[Hf|[e Hf]]|[Hf|[e Hf]]].
    - apply andb_false_intro1. unfold sp. rewrite Hf. simpl.
      rewrite (Hkeep (length (heap st)) []); [done|].
      unfold hp1. rewrite Hf. apply heap_lookup_new.
    - apply andb_false_intro1. unfold sp. by rewrite Hf.
    - apply andb_false_intro2. unfold cp, hp2. rewrite Hf. simpl.
      by rewrite heap_lookup_new.
    - apply andb_false_intro2. unfold cp. by rewrite Hf. }
  destruct (truth_value sp hp2) eqn:Hsp;
    [destruct (truth_value cp hp2) eqn:Hcp|]; cbn [negb orb].
  - (* both templates are usable: the loop runs *)
    rewrite run_print, after_after, heap_after.
    set (evs0 := t_json ++ [EvPrint (nl +:+ "[INFO] Starting Mass Disposing...")]).
    assert (∃ r t_loop hp,
              main_loop w cfg token sp cp assets (after st evs0 hp2)
              = (r, after (after st evs0 hp2) t_loop hp)
              ∧ Forall loop_event t_loop) as (r & t_loop & hp & Hloop & Hev).
    { destruct sp as [l|j] eqn:Esp.
      - destruct (loaded_lookup f1 (heap st) l Esp) as [d Hd].
        destruct (main_loop_run_any w cfg token l d cp assets
                    (after st evs0 hp2))
          as (res & evs & k & m & Hrun & _ & Hev & _).
        { rewrite heap_after. by apply Hkeep. }
        by eexists res, evs, _.
      - destruct (main_loop_const token j cp assets (after st evs0 hp2))
          as (r & lines & Hrun).
        eexists r, (EvPrint <$> lines), _. split; [done|].
        apply Forall_prints_loop. }
    destruct r as [[]|e].
    + rewrite (run_bind _ _ _ _ _ Hloop), run_print_end, !after_after.
      eexists (Ok tt), t_json, (_ :: t_loop ++ [_]), hp.
      split; [|split; [done|split]].
      * unfold evs0. by rewrite <- !app_assoc.
      * constructor; [done|]. apply Forall_app. split; [done|].
        by constructor.
      * by intros ?%Hempty.
    + rewrite (run_bind_raise _ _ _ _ _ Hloop), !after_after.
      eexists (Raise e), t_json, (_ :: t_loop), hp.
      split; [|split; [done|split]].
      * unfold evs0. by rewrite <- !app_assoc.
      * by constructor.
      * by intros ?%Hempty.
  - rewrite run_print_end, after_after, heap_after.
    exists (Ok tt), t_json, [EvPrint fatal_json], hp2.
    split; [done|]. split; [done|]. split; [|done].
    by constructor.
  - rewrite run_print_end, after_after, heap_after.
    exists (Ok tt), t_json, [EvPrint fatal_json], hp2.
    split; [done|]. split; [done|]. split; [|done].
    by constructor.
Qed.

(** The run from the input list on. *)
Lemma main_from_csv_run token st :
  ∃ r t_csv t_json t_loop hp,
    main_from_csv w cfg token st
    = (r, after st (t_csv ++ t_json ++ t_loop) hp)
    ∧ Forall csv_phase t_csv
    ∧ Forall json_phase t_json
    ∧ Forall loop_event t_loop
    ∧ (rejected_template (json_file w DISPOSED_STATUS_JSON)
       ∨ rejected_template (json_file w COMMENT_JSON) →
       (t_json = [] ∧ t_loop = [])
       ∨ (r = Ok tt ∧ t_loop = [EvPrint fatal_json])).
Proof.
  unfold main_from_csv.
  destruct (read_ids_from_csv_run w CSV_FILENAME st)
    as (assets & lines & Hcsv).
  rewrite (run_bind _ _ _ _ _ Hcsv). clear Hcsv.
  destruct assets as [|a rest].
  - rewrite run_print_end, after_after, heap_after.
    eexists (Ok tt), (_ :: (EvPrint <$> lines) ++ [_]), [], [], _.
    split; [by rewrite !app_nil_r|].
    split; [|split; [done|split; [done|by left]]].
    constructor; [done|]. apply Forall_app.
    split; [apply Forall_prints_csv|by constructor].
  - destruct (main_from_templates_run token (a :: rest)
                (after st (EvOpen CSV_FILENAME :: (EvPrint <$> lines)) (heap st)))
      as (r & t_json & t_loop & hp & Hrun & Hjson & Hloop & Hempty).
    rewrite Hrun, after_after.
    exists r, (EvOpen CSV_FILENAME :: (EvPrint <$> lines)), t_json, t_loop, hp.
    split; [done|].
    split; [constructor; [done|apply Forall_prints_csv]|].
    split; [done|]. split; [done|]. intros Hf. right. by apply Hempty.
Qed.

(** The shape of every run of [main]: an authentication phase, the
    input phase, the template phase and the loop, in this order, each
    possibly cut short. *)
Lemma main_run :
  ∃ r t_auth t_csv t_json t_loop hp,
    main w cfg init_state
    = (r, State (t_auth ++ t_csv ++ t_json ++ t_loop) hp)
    ∧ Forall (auth_phase cfg) t_auth
    ∧ Forall csv_phase t_csv
    ∧ Forall json_phase t_json
    ∧ Forall loop_event t_loop
    ∧ (rejected_template (json_file w DISPOSED_STATUS_JSON)
       ∨ rejected_template (json_file w COMMENT_JSON) →
       (t_json = [] ∧ t_loop = [])
       ∨ (r = Ok tt ∧ t_loop = [EvPrint fatal_json])).
Proof.
  rewrite main_unfold, run_print.
  set (st0 := after init_state [EvPrint banner] (heap init_state)).
  destruct (env_complete cfg); cbn [negb].
  2:{ rewrite run_print_end.
      exists (Ok tt), [EvPrint banner; EvPrint fatal_env], [], [], [], [].
      split; [done|]. split; [by repeat constructor|].
      split; [done|]. split; [done|]. split; [done|]. by left. }
  set (req := auth_request cfg (USERNAME cfg) (PASSWORD cfg)).
  destruct (net w (length (http_log st0)) req) as [resp|k msg] eqn:Hnet.
  - destruct (http_error resp) eqn:Herr.
    + rewrite (run_bind _ _ _ _ _
                 (get_bearer_token_http_error w cfg _ _ st0 resp Hnet Herr)).
      rewrite run_print_end.
      eexists (Ok tt), [EvPrint banner; EvHttp req _; EvPrint _; EvPrint fatal_auth],
        [], [], [], _.
      split; [done|]. split; [by repeat constructor|].
      split; [done|]. split; [done|]. split; [done|]. by left.
    + rewrite (run_bind _ _ _ _ _
                 (get_bearer_token_success w cfg _ _ st0 resp Hnet Herr)).
      destruct (Text.strip_chars Text.quote_str (text resp)) as [|c token].
      * rewrite run_print_end.
        eexists (Ok tt),
          [EvPrint banner; EvHttp req _; EvPrint _; EvPrint fatal_auth],
          [], [], [], _.
        split; [done|]. split; [by repeat constructor|].
        split; [done|]. split; [done|]. split; [done|]. by left.
      * match goal with
        | |- context [main_from_csv w cfg ?tok ?s] =>
            destruct (main_from_csv_run tok s)
              as (r & t_csv & t_json & t_loop & hp
                  & Hrun & Hcsv & Hjson & Hloop & Hempty);
            rewrite Hrun
        end.
        eexists r, [EvPrint banner; EvHttp req _; EvPrint _],
          t_csv, t_json, t_loop, hp.
        split; [done|]. split; [by repeat constructor|]. done.
  - rewrite (run_bind_raise _ _ _ _ _
               (get_bearer_token_net_failure w cfg _ _ st0 k msg Hnet)).
    eexists _, [EvPrint banner; EvHttp req _], [], [], [], _.
    split; [done|]. split; [by repeat constructor|].
    split; [done|]. split; [done|]. split; [done|]. by left.
Qed.

(** *** From step to step *)

(** A run of the template phase makes no call. *)
Lemma json_phase_quiet t : Forall json_phase t → http_events t = [].
Proof.
  induction 1 as [|e t He _ IH]; [done|].
  destruct e; simpl in *; done.
Qed.

(** What the reader returns does not depend on the state it runs in. *)
Lemma read_rows_independent reader :
  ∀ acc st st', (read_rows reader acc st).1 = (read_rows reader acc st').1.
Proof.
  induction reader as [|[r|e] reader IH]; intros acc st st'; simpl; [done| |done].
  unfold cell_strip, row_get. unfold_monad.
  repeat case_match; simplify_eq; try done; try congruence; apply IH.
Qed.

Lemma csv_result_eq file_path st :
  (read_ids_from_csv w file_path st).1 = csv_result w file_path.
Proof.
  unfold csv_result.
  destruct (read_ids_from_csv_catch w file_path st)
    as (a1 & l1 & Hrun1 & Hb1).
  destruct (read_ids_from_csv_catch w file_path init_state)
    as (a2 & l2 & Hrun2 & Hb2).
  specialize (Hb1 _ eq_refl). specialize (Hb2 _ eq_refl).
  rewrite Hrun1, Hrun2. simpl.
  destruct (csv_file w file_path) as [reader|e].
  - rewrite (read_rows_independent reader [] _
               (after init_state [EvOpen file_path] (heap init_state)))
      in Hb1.
    destruct (read_rows reader [] _).1;
      destruct Hb1 as [-> _], Hb2 as [-> _]; done.
  - by destruct Hb1 as [-> _], Hb2 as [-> _].
Qed.

(** After a successful authentication [main] goes on to the input list. *)
Lemma main_reaches_csv r ch token :
  env_complete cfg = true →
  net w 0 (auth_request cfg (USERNAME cfg) (PASSWORD cfg)) = Responded r →
  http_error r = false →
  Text.strip_chars Text.quote_str (text r) = String ch token →
  main w cfg init_state
  = main_from_csv w cfg (String ch token)
      (State [EvPrint banner;
              EvHttp (auth_request cfg (USERNAME cfg) (PASSWORD cfg))
                (Responded r);
              EvPrint "[INFO] Authenticated successfully."] []).
Proof.
  intros Henv Hnet Herr Htok.
  rewrite main_unfold, run_print, Henv. cbn [negb].
  set (st0 := after init_state [EvPrint banner] (heap init_state)).
  change 0 with (length (http_log st0)) in Hnet.
  rewrite (run_bind _ _ _ _ _
             (get_bearer_token_success w cfg _ _ st0 r Hnet Herr)).
  by rewrite Htok.
Qed.

(** With a non-empty input list [main] goes on to the templates, having
    opened the CSV file and printed nothing about it. *)
Lemma main_from_csv_reaches_templates token st a rest :
  (read_ids_from_csv w CSV_FILENAME st).1 = Ok (a :: rest) →
  main_from_csv w cfg token st
  = main_from_templates w cfg token (a :: rest)
      (after st [EvOpen CSV_FILENAME] (heap st)).
Proof.
  intros Hread.
  destruct (read_ids_from_csv_catch w CSV_FILENAME st)
    as (assets & lines & Hrun & Hbody).
  rewrite Hrun in Hread. injection Hread as ->.
  specialize (Hbody _ eq_refl).
  assert (lines = []) as ->.
  { destruct (match csv_file w CSV_FILENAME with Ok _ => _ | Raise _ => _ end);
      by destruct Hbody. }
  unfold main_from_csv. by rewrite (run_bind _ _ _ _ _ Hrun).
Qed.

(** With an empty input list [main] prints the warning and returns. *)
Lemma main_from_csv_no_assets token st :
  (read_ids_from_csv w CSV_FILENAME st).1 = Ok [] →
  ∃ lines,
    main_from_csv w cfg token st
    = (Ok tt,
       after st
         (EvOpen CSV_FILENAME :: (EvPrint <$> lines)
          ++ [EvPrint ("[WARNING] No valid asset entries found in '"
                       +:+ CSV_FILENAME +:+ "'. Exiting.")])
         (heap st)).
Proof.
  intros Hread.
  destruct (read_ids_from_csv_catch w CSV_FILENAME st)
    as (assets & lines & Hrun & _).
  rewrite Hrun in Hread. injection Hread as ->.
  exists lines. unfold main_from_csv.
  rewrite (run_bind _ _ _ _ _ Hrun), run_print_end, after_after, heap_after.
  done.
Qed.

(** A template file that decodes is loaded without a line being
    printed. *)
Lemma read_json_data_ok file_path st j :
  json_file w file_path = Ok j →
  read_json_data w file_path st
  = (Ok (loaded (Ok j) (heap st)).1,
     after st [EvOpen file_path] (loaded (Ok j) (heap st)).2).
Proof.
  intros Hfile.
  unfold read_json_data, json_load, alloc. unfold_monad. simpl.
  rewrite Hfile. by destruct j.
Qed.

(** With two templates that decode and are both truthy, [main] goes on
    to the loop. *)
Lemma main_from_templates_reaches_loop token assets st j1 j2 :
  json_file w DISPOSED_STATUS_JSON = Ok j1 →
  json_file w COMMENT_JSON = Ok j2 →
  truth_value (loaded (Ok j1) (heap st)).1
    (loaded (Ok j2) (loaded (Ok j1) (heap st)).2).2 = true →
  truth_value (loaded (Ok j2) (loaded (Ok j1) (heap st)).2).1
    (loaded (Ok j2) (loaded (Ok j1) (heap st)).2).2 = true →
  main_from_templates w cfg token assets st
  = (main_loop w cfg token (loaded (Ok j1) (heap st)).1
       (loaded (Ok j2) (loaded (Ok j1) (heap st)).2).1 assets;;
     print (nl +:+ "--- Processing Complete ---"))
      (after st
         [EvPrint ("[INFO] Found " +:+ pretty (length assets)
                   +:+ " valid asset entries to process.");
          EvOpen DISPOSED_STATUS_JSON; EvOpen COMMENT_JSON;
          EvPrint (nl +:+ "[INFO] Starting Mass Disposing...")]
         (loaded (Ok j2) (loaded (Ok j1) (heap st)).2).2).
Proof.
  intros H1 H2 Ht1 Ht2.
  unfold main_from_templates. rewrite run_print.
  rewrite (run_bind _ _ _ _ _ (read_json_data_ok _ _ j1 H1)).
  rewrite heap_after, after_after.
  rewrite (run_bind _ _ _ _ _ (read_json_data_ok _ _ j2 H2)).
  rewrite heap_after, after_after.
  rewrite (run_bind _ _ _ _ _ (truthy_run _ _)), heap_after.
  rewrite (run_bind _ _ _ _ _ (truthy_run _ _)), heap_after.
  rewrite Ht1, Ht2. cbn [negb orb].
  rewrite run_print, after_after, heap_after. done.
Qed.

End MainRuns.

(** ** Order of the steps *)

Lemma auth_request_bare cfg u p : ¬ bears_token (auth_request cfg u p).
Proof. unfold bears_token. simpl. apply not_elem_of_nil. Qed.

Ltac step_cases :=
  unfold is_auth_call, is_csv_read, is_template_read, is_asset_call;
  intros Hphase Hstep;
  repeat match goal with
         | H : ∃ _, _ |- _ => destruct H
         | H : _ ∧ _ |- _ => destruct H
         | H : _ ∨ _ |- _ => destruct H
         end;
  simplify_eq; try done;
  try (exfalso; eapply auth_request_bare; eassumption).

Lemma auth_phase_step cfg e n : auth_phase cfg e → in_step cfg n e → n = 0.
Proof. destruct n as [|[|[|[|n]]]], e; simpl; step_cases. Qed.

Lemma csv_phase_step cfg e n : csv_phase e → in_step cfg n e → n = 1.
Proof. destruct n as [|[|[|[|n]]]], e; simpl; step_cases. Qed.

Lemma json_phase_step cfg e n : json_phase e → in_step cfg n e → n = 2.
Proof. destruct n as [|[|[|[|n]]]], e; simpl; step_cases. Qed.

Lemma loop_event_step cfg e n : loop_event e → in_step cfg n e → n = 3.
Proof. destruct n as [|[|[|[|n]]]], e; simpl; step_cases. Qed.

(** Four consecutive segments, the events of the [k]-th belonging to
    the [k]-th step only, make a trace in which the steps come in
    order. *)
Lemma segments_in_order cfg t0 t1 t2 t3 :
  Forall (auth_phase cfg) t0 → Forall csv_phase t1 →
  Forall json_phase t2 → Forall loop_event t3 →
  ∀ m n, m < n →
    precedes (in_step cfg m) (in_step cfg n) (t0 ++ t1 ++ t2 ++ t3).
Proof.
  intros H0 H1 H2 H3.
  set (lab := λ i : nat,
         if decide (i < length t0) then 0
         else if decide (i < length t0 + length t1) then 1
         else if decide (i < length t0 + length t1 + length t2) then 2
         else 3).
  assert (∀ i e k, (t0 ++ t1 ++ t2 ++ t3) !! i = Some e →
                   in_step cfg k e → lab i = k) as Hlab.
  { intros i e k Hi Hk. unfold lab.
    rewrite Forall_forall in H0, H1, H2, H3.
    apply lookup_app_Some in Hi as [Hi|[Hge Hi]].
    { rewrite decide_True by (by eapply lookup_lt_Some).
      symmetry. eapply auth_phase_step; [|done].
      apply H0. by eapply list_elem_of_lookup_2. }
    rewrite decide_False by lia.
    apply lookup_app_Some in Hi as [Hi|[Hge1 Hi]].
    { apply lookup_lt_Some in Hi as Hlt.
      rewrite decide_True by lia.
      symmetry. eapply csv_phase_step; [|done].
      apply H1. by eapply list_elem_of_lookup_2. }
    rewrite decide_False by lia.
    apply lookup_app_Some in Hi as [Hi|[Hge2 Hi]].
    { apply lookup_lt_Some in Hi as Hlt.
      rewrite decide_True by lia.
      symmetry. eapply json_phase_step; [|done].
      apply H2. by eapply list_elem_of_lookup_2. }
    rewrite decide_False by lia.
    symmetry. eapply loop_event_step; [|done].
    apply H3. by eapply list_elem_of_lookup_2. }
  intros m n Hmn i j a b Hi Hj Ha Hb.
  pose proof (Hlab i a m Hi Ha) as Hli.
  pose proof (Hlab j b n Hj Hb) as Hlj.
  destruct (decide (i < j)) as [|Hge]; [done|]. exfalso.
  unfold lab in Hli, Hlj. repeat case_decide; lia.
Qed.

(** C9, amended: in every run the script takes its top-level steps in
    the order: authenticate, read the input list, load the two
    templates, iterate over the records.  Every event of an earlier step
    comes before every event of a later one. *)
Theorem main_step_order (w : world) (cfg : config) (m n : nat) :
  m < n →
  precedes (in_step cfg m) (in_step cfg n) (trace (main w cfg init_state).2).
Proof.
  intros Hmn.
  destruct (main_run w cfg)
    as (r & t0 & t1 & t2 & t3 & hp & Hrun & H0 & H1 & H2 & H3 & _).
  rewrite Hrun. simpl. by apply segments_in_order.
Qed.

(** ** Fatal exits *)

(** C7, amended: if authentication fails, the answer to the
    authentication call yielding no token (its status is a 4xx or 5xx
    one, for which [raise_for_status] raises, or nothing is left of its
    body once the quotes are stripped), then [main] returns after the
    fatal line and the only HTTP call of the whole run is the
    authentication call itself: no update and no comment call is
    made. *)
Theorem main_auth_failure_no_asset_calls
    (w : world) (cfg : config) (r : response) :
  net w 0 (auth_request cfg (USERNAME cfg) (PASSWORD cfg)) = Responded r →
  http_error r = true
  ∨ Text.strip_chars Text.quote_str (text r) = EmptyString →
  ∃ st',
    main w cfg init_state = (Ok tt, st')
    ∧ http_log st'
      = (if env_complete cfg
         then [(auth_request cfg (USERNAME cfg) (PASSWORD cfg), Responded r)]
         else [])
    ∧ Forall (λ e, ¬ is_asset_call e) (trace st')
    ∧ last (trace st')
      = Some (EvPrint (if env_complete cfg then fatal_auth else fatal_env)).
Proof.
  intros Hnet Hfail.
  rewrite main_unfold, run_print.
  set (st0 := after init_state [EvPrint banner] (heap init_state)).
  destruct (env_complete cfg); cbn [negb].
  2:{ rewrite run_print_end. eexists. split; [done|]. split; [done|].
      split; [|done]. repeat constructor; by intros (? & ? & ? & _). }
  change 0 with (length (http_log st0)) in Hnet.
  assert (∀ line,
            Forall (λ e, ¬ is_asset_call e)
              [EvPrint banner;
               EvHttp (auth_request cfg (USERNAME cfg) (PASSWORD cfg))
                 (Responded r);
               EvPrint line; EvPrint fatal_auth]) as Hquiet.
  { intros line. repeat constructor; try by intros (? & ? & ? & _).
    intros (req & out & [= <- _] & Hb). by apply auth_request_bare in Hb. }
  destruct (http_error r) eqn:Herr.
  - rewrite (run_bind _ _ _ _ _
               (get_bearer_token_http_error w cfg _ _ st0 r Hnet Herr)).
    rewrite run_print_end. eexists. split; [done|]. split; [done|].
    split; [apply Hquiet|done].
  - destruct Hfail as [|Hempty]; [done|].
    rewrite (run_bind _ _ _ _ _
               (get_bearer_token_success w cfg _ _ st0 r Hnet Herr)).
    rewrite Hempty, run_print_end. eexists. split; [done|]. split; [done|].
    split; [apply Hquiet|done].
Qed.

(** C7 as stated fails: an answer that is no 2xx one need not be a
    failure.  [raise_for_status] raises for the 4xx and 5xx codes only,
    so the body of a 302 answer is taken as the token, and the run goes
    on to send an update and a feed request for the record of the input
    file. *)
Lemma main_non_2xx_counterexample :
  net world_redirected 0
    (auth_request test_config (USERNAME test_config) (PASSWORD test_config))
  = Responded moved
  ∧ ¬ (200 ≤ status_code moved < 300)%Z
  ∧ (http_log (main world_redirected test_config init_state).2).*1
    = [auth_request test_config (USERNAME test_config) (PASSWORD test_config);
       update_request test_config (Some "app") "1" "moved"
         (clone_for demo_status (Asset "1" "ABC"));
       feed_request test_config (Some "app") "1" "moved"
         (Some (JObj demo_comment))]
  ∧ ¬ Forall (λ e, ¬ is_asset_call e)
        (trace (main world_redirected test_config init_state).2).
Proof.
  split; [reflexivity|]. split; [simpl; lia|]. split; [by vm_compute|].
  intros Hnone.
  assert (trace (main world_redirected test_config init_state).2 !! 9
          = Some (EvHttp
                    (update_request test_config (Some "app") "1" "moved"
                       (clone_for demo_status (Asset "1" "ABC")))
                    (Responded moved))) as Hk by (by vm_compute).
  apply list_elem_of_lookup_2 in Hk. rewrite Forall_forall in Hnone.
  apply (Hnone _ Hk). eexists _, _. split; [done|].
  apply update_request_bears.
Qed.

(** C10: if either template file holds the empty object, [main] treats
    it as it treats a missing or invalid file.  In a run that gets to
    the templates (the settings are complete, authentication yields a
    token, the reader returns a record) [main] prints the fatal line
    about missing or invalid JSON data as its last action and returns;
    the authentication call is the only HTTP call of the run, so no
    update and no comment request is sent. *)
Theorem main_empty_template_is_fatal
    (w : world) (cfg : config) (r : response) (ch : ascii) (token : string)
    (a : asset) (rest : list asset) :
  env_complete cfg = true →
  net w 0 (auth_request cfg (USERNAME cfg) (PASSWORD cfg)) = Responded r →
  http_error r = false →
  Text.strip_chars Text.quote_str (text r) = String ch token →
  csv_result w CSV_FILENAME = Ok (a :: rest) →
  rejected_template (json_file w DISPOSED_STATUS_JSON)
  ∨ rejected_template (json_file w COMMENT_JSON) →
  ∃ st',
    main w cfg init_state = (Ok tt, st')
    ∧ last (trace st') = Some (EvPrint fatal_json)
    ∧ http_log st'
      = [(auth_request cfg (USERNAME cfg) (PASSWORD cfg), Responded r)]
    ∧ Forall (λ e, ¬ is_asset_call e) (trace st').
Proof.
  intros Henv Hnet Herr Htok Hcsv Hrej.
  rewrite (main_reaches_csv w cfg r ch token Henv Hnet Herr Htok).
  set (st1 := State _ []).
  rewrite (main_from_csv_reaches_templates w cfg (String ch token) st1 a rest)
    by (by rewrite csv_result_eq).
  destruct (main_from_templates_run w cfg (String ch token) (a :: rest)
              (after st1 [EvOpen CSV_FILENAME] (heap st1)))
    as (res & t_json & t_loop & hp & Hrun & Hjson & _ & Hcut).
  destruct (Hcut Hrej) as [-> ->]. rewrite Hrun.
  eexists. split; [done|]. unfold http_log, after, st1. cbn [trace].
  split; [|split].
  - by rewrite !app_assoc, last_snoc.
  - rewrite !http_events_app, (json_phase_quiet _ Hjson). done.
  - rewrite !Forall_app. repeat split.
    + repeat constructor; try by intros (? & ? & ? & _).
      intros (req & out & [= <- _] & Hb). by apply auth_request_bare in Hb.
    + repeat constructor. by intros (? & ? & ? & _).
    + eapply Forall_impl; [exact Hjson|]. intros e He Hc.
      by pose proof (json_phase_step cfg e 3 He Hc).
    + repeat constructor. by intros (? & ? & ? & _).
Qed.

(** ** Concrete runs *)




(** C7 when the authentication call is answered by 401. *)
Lemma main_auth_failure_no_asset_calls_witness :
  ∃ st',
    main world_denied test_config init_state = (Ok tt, st')
    ∧ http_log st'
      = (if env_complete test_config
         then [(auth_request test_config (USERNAME test_config)
                  (PASSWORD test_config),
                Responded (Response 401 "denied" None "401 Client Error"))]
         else [])
    ∧ Forall (λ e, ¬ is_asset_call e) (trace st')
    ∧ last (trace st')
      = Some (EvPrint (if env_complete test_config
                       then fatal_auth else fatal_env)).
Proof.
  apply (main_auth_failure_no_asset_calls world_denied test_config
           (Response 401 "denied" None "401 Client Error")).
  - reflexivity.
  - left. reflexivity.
Defined.

(** C9 as stated fails: in the run of the demo world the authentication
    call is the second event and the CSV file is opened two events
    later, so the input list is not read before authenticating. *)
Lemma main_reads_after_authenticating_counterexample :
  (∃ out,
     trace (main demo_world test_config init_state).2 !! 1
     = Some (EvHttp (auth_request test_config (USERNAME test_config)
                       (PASSWORD test_config)) out))
  ∧ trace (main demo_world test_config init_state).2 !! 3
    = Some (EvOpen CSV_FILENAME)
  ∧ ¬ reads_then_authenticates test_config
        (trace (main demo_world test_config init_state).2).
Proof.
  assert (∃ out,
            trace (main demo_world test_config init_state).2 !! 1
            = Some (EvHttp (auth_request test_config (USERNAME test_config)
                              (PASSWORD test_config)) out)) as Hauth.
  { eexists. vm_compute. reflexivity. }
  assert (trace (main demo_world test_config init_state).2 !! 3
          = Some (EvOpen CSV_FILENAME)) as Hcsv.
  { vm_compute. reflexivity. }
  split; [exact Hauth|]. split; [exact Hcsv|].
  intros [Hord _]. destruct Hauth as [out Hauth].
  specialize (Hord 3 1 _ _ Hcsv Hauth eq_refl (ex_intro _ out eq_refl)).
  lia.
Qed.

(** C9, amended, on the demo run: the authentication call comes before
    the CSV file is opened. *)
Lemma main_step_order_witness :
  precedes (in_step test_config 0) (in_step test_config 1)
    (trace (main demo_world test_config init_state).2).
Proof.
  apply (main_step_order demo_world test_config 0 1). lia.
Defined.

(** C10 when the status template is the empty object. *)
Lemma main_empty_template_is_fatal_witness :
  ∃ st',
    main world_empty_status test_config init_state = (Ok tt, st')
    ∧ last (trace st') = Some (EvPrint fatal_json)
    ∧ http_log st'
      = [(auth_request test_config (USERNAME test_config)
            (PASSWORD test_config),
          Responded (Response 200 (Text.quoted "tok") None EmptyString))]
    ∧ Forall (λ e, ¬ is_asset_call e) (trace st').
Proof.
  apply (main_empty_template_is_fatal world_empty_status test_config
           (Response 200 (Text.quoted "tok") None EmptyString)
           (ascii_of_nat 116) "ok" (Asset "1" "ABC") []).
  - reflexivity.
  - reflexivity.
  - reflexivity.
  - reflexivity.
  - vm_compute. reflexivity.
  - left. left. reflexivity.
Defined.

(** * Further properties of the script *)

(** ** The payload loader *)

(** X1: [read_json_data] never raises.  It opens the file and returns a
    value; the objects already on the heap stay as they are.  When
    opening or decoding raises it returns [None] and has printed one
    line, which tells a missing file, malformed JSON and any other error
    apart; when the file decodes it prints nothing, and an object at the
    top becomes one new dictionary, whose keys are distinct. *)
Theorem read_json_data_never_raises
    (w : world) (file_path : string) (st : state) :
  ∃ v lines new,
    read_json_data w file_path st
    = (Ok v, after st (EvOpen file_path :: (EvPrint <$> lines))
               (heap st ++ new))
    ∧ (∀ e, json_file w file_path = Raise e →
            v = VNone ∧ lines = [json_error_line file_path e] ∧ new = [])
    ∧ (∀ j, json_file w file_path = Ok j →
            lines = []
            ∧ match j with
              | JObj ms =>
                  v = VDict (length (heap st))
                  ∧ new = [dict_of_members ms]
                  ∧ NoDup (dict_keys (dict_of_members ms))
              | _ => v = VConst j ∧ new = []
              end).
Proof.
  unfold read_json_data, json_load, alloc. unfold_monad. simpl.
  destruct (json_file w file_path) as [j|e] eqn:Hfile; simpl.
  - exists (loaded (Ok j) (heap st)).1, [],
      (match j with JObj ms => [dict_of_members ms] | _ => [] end).
    split; [|split].
    + destruct j; simpl; rewrite ?app_nil_r; done.
    + by intros e [=].
    + intros j' [= <-]. split; [done|].
      destruct j; try done. repeat split. apply dict_of_members_NoDup.
  - exists VNone, [json_error_line file_path e], [].
    split; [|split].
    + unfold json_error_line, after. rewrite app_nil_r.
      destruct (isinstance e FileNotFoundError); [by run_simpl|].
      destruct (isinstance e JSONDecodeError); [by run_simpl|].
      rewrite isinstance_Exception. by run_simpl.
    + by intros e' [= <-].
    + by intros j [=].
Qed.

(** ** The input reader, on every file *)

Lemma valid_records_clean rows : Forall clean_record (valid_records rows).
Proof.
  unfold valid_records. apply Forall_fmap, Forall_forall.
  intros r [Hv _]%list_elem_of_filter.
  destruct Hv as (Hid & Hsn & Hsid & Hssn).
  rewrite <- sentinel_ignore_case in Hsid, Hssn.
  unfold clean_record, record_of, trimmed in *. simpl.
  rewrite !CharFacts.strip_idem. done.
Qed.

(** The loop of the reader either raises, or hands on what it had
    together with the records of the valid rows it went through. *)
Lemma read_rows_result reader :
  ∀ acc st,
    (∃ e, read_rows reader acc st = (Raise e, st))
    ∨ read_rows reader acc st
      = (Ok (acc ++ valid_records (file_rows (Ok reader))), st).
Proof.
  induction reader as [|[r|e] reader IH]; intros acc st.
  - right. simpl. by rewrite app_nil_r.
  - destruct (decide (has_text r)) as [Hr|Hr].
    + assert (read_rows (Ok r :: reader) acc st
              = read_rows reader
                  (if decide (valid_row r) then acc ++ [record_of r] else acc)
                  st) as ->.
      { destruct Hr as [Hid Hsn].
        simpl. unfold cell_strip, row_get. unfold_monad.
        assert (∀ key, r !! key ≠ Some None →
                  match r !! key with
                  | Some cell => cell
                  | None => Some EmptyString
                  end = Some (cell_text r key)) as Hcell.
        { intros key Hkey. unfold cell_text. by destruct (r !! key) as [[|]|]. }
        rewrite (Hcell _ Hid). simpl. rewrite (Hcell _ Hsn). simpl.
        fold (trimmed r "ID"). fold (trimmed r "Serial Number").
        fold (record_of r).
        destruct (keep_row _ _) eqn:Hkeep.
        - apply keep_row_valid in Hkeep. by rewrite decide_True.
        - rewrite decide_False; [done|].
          intros Hv%keep_row_valid. congruence. }
      destruct (IH (if decide (valid_row r) then acc ++ [record_of r] else acc)
                  st) as [Hraise|Hok]; [by left|right].
      rewrite Hok. f_equal. f_equal.
      unfold valid_records. simpl. rewrite filter_cons.
      destruct (decide (valid_row r)); csimpl; by rewrite <- ?app_assoc.
    + left. simpl. unfold cell_strip, row_get. unfold_monad.
      unfold has_text in Hr.
      destruct (r !! "ID") as [[id|]|] eqn:Hid; simpl; try (by eexists);
        destruct (r !! "Serial Number") as [[sn|]|] eqn:Hsn; simpl;
        try (by eexists); exfalso; apply Hr; by split.
  - left. by eexists.
Qed.

(** What [read_ids_from_csv] returns, on every file: all the records of
    the valid rows, or nothing. *)
Lemma read_ids_from_csv_result w file_path st :
  (read_ids_from_csv w file_path st).1
  = Ok (valid_records (file_rows (csv_file w file_path)))
  ∨ (read_ids_from_csv w file_path st).1 = Ok [].
Proof.
  destruct (read_ids_from_csv_catch w file_path st)
    as (assets & lines & Hrun & Hbody).
  specialize (Hbody _ eq_refl). rewrite Hrun. simpl.
  destruct (csv_file w file_path) as [reader|e]; [|right; by destruct Hbody as [-> _]].
  destruct (read_rows_result reader []
              (after st [EvOpen file_path] (heap st))) as [[e He]|Hok].
  - rewrite He in Hbody. right. by destruct Hbody as [-> _].
  - rewrite Hok in Hbody. left. by destruct Hbody as [-> _].
Qed.

(** X2: the reader is all or nothing.  On every input file
    [read_ids_from_csv] returns either the records of all the valid rows
    of the file, in file order, or the empty list; it never returns a
    part of them.  A row is valid when its trimmed ID and trimmed serial
    number are not empty and their upper-case forms are not the
    sentinel, trimming and upper-casing being those of Python's [str]. *)
Theorem read_ids_from_csv_all_or_nothing
    (w : world) (file_path : string) (st : state) :
  (read_ids_from_csv w file_path st).1
  = Ok (valid_records (file_rows (csv_file w file_path)))
  ∨ (read_ids_from_csv w file_path st).1 = Ok [].
Proof. apply read_ids_from_csv_result. Qed.

(** X3: on every input file, every record [read_ids_from_csv] returns is
    clean: its ID and its serial number are trimmed ([str.strip()]
    changes nothing in them: no white space character of Unicode is left
    at either end), are not empty, and their upper-case forms
    ([str.upper()]) are not the sentinel. *)
Theorem read_ids_from_csv_records_clean
    (w : world) (file_path : string) (st : state) :
  ∃ assets,
    (read_ids_from_csv w file_path st).1 = Ok assets
    ∧ Forall clean_record assets.
Proof.
  destruct (read_ids_from_csv_result w file_path st) as [H|H];
    rewrite H; eexists; (split; [done|]).
  - apply valid_records_clean.
  - constructor.
Qed.

(** X16: for every input file that opens, whose reader yields its rows
    without raising and whose rows all have text (possibly empty) in the
    ID and Serial Number columns or lack the column, [read_ids_from_csv]
    returns exactly the records built from the rows whose trimmed ID and
    trimmed Serial Number are both non-empty and neither is the sentinel
    up to case, in file order. *)
Theorem read_ids_from_csv_valid_records
    (w : world) (file_path : string) (rows : list row) :
  csv_file w file_path = Ok (Ok <$> rows) →
  Forall has_text rows →
  returns_valid_records w file_path.
Proof.
  intros Hfile Hrows st.
  unfold read_ids_from_csv, open_csv. unfold_monad. simpl.
  rewrite Hfile, file_rows_clean. by rewrite read_rows_clean.
Qed.

(** X16 on the three-row input of the spec: the reader returns exactly
    the record of the first row. *)
Lemma three_rows_one_record :
  (read_ids_from_csv (world_of_reader (Ok <$> three_rows)) CSV_FILENAME
     init_state).1
  = Ok [Asset "1" "ABC"].
Proof.
  refine (eq_trans
            (read_ids_from_csv_valid_records
               (world_of_reader (Ok <$> three_rows)) CSV_FILENAME three_rows
               _ _ init_state) _).
  - reflexivity.
  - repeat constructor; vm_compute; discriminate.
  - vm_compute. reflexivity.
Defined.

(** The reader on [unicode_rows]: the no-break spaces around the first
    ID are trimmed, the second row is dropped as the sentinel and the
    third as empty. *)
Lemma read_ids_from_csv_unicode_rows :
  (read_ids_from_csv (world_of_reader (Ok <$> unicode_rows)) CSV_FILENAME
     init_state).1
  = Ok [Asset "1" "ABC"].
Proof. by vm_compute. Qed.

(** ** The three calls, by outcome *)


(** X4: [get_bearer_token] makes one HTTP call and no second one, and
    tells failure by the status alone: when a response arrives it
    returns [None] exactly for a status from 400 to 599, and for every
    other status, a 1xx or 3xx one as well, it returns the stripped body
    as the token. *)
Theorem get_bearer_token_by_status
    (w : world) (cfg : config) (username password : option string)
    (st : state) (r : response) :
  net w (length (http_log st)) (auth_request cfg username password)
  = Responded r →
  ∃ result line,
    get_bearer_token w cfg username password st
    = (Ok result,
       after st [EvHttp (auth_request cfg username password) (Responded r);
                 EvPrint line] (heap st))
    ∧ (result = None ↔ (400 ≤ status_code r < 600)%Z)
    ∧ (¬ (400 ≤ status_code r < 600)%Z →
       result = Some (Text.strip_chars Text.quote_str (text r))).
Proof.
  intros Hnet.
  assert (http_error r = true ↔ (400 ≤ status_code r < 600)%Z) as Hiff.
  { unfold http_error. rewrite andb_true_iff, Z.leb_le, Z.ltb_lt. done. }
  destruct (http_error r) eqn:Herr.
  - rewrite (get_bearer_token_http_error w cfg _ _ st r Hnet Herr).
    eexists None, _. split; [done|]. split.
    + split; [intros _; by apply Hiff|done].
    + intros Hno. exfalso. apply Hno. by apply Hiff.
  - rewrite (get_bearer_token_success w cfg _ _ st r Hnet Herr).
    eexists (Some _), _. split; [done|]. split; [|done].
    split; [done|]. intros Hin%Hiff. done.
Qed.

(** X4 on an answer of status 302 with a body: the body is the token. *)
Lemma get_bearer_token_by_status_witness :
  ∃ result line,
    get_bearer_token
      (World (λ _ _, Responded (Response 302 "moved" None EmptyString))
             (λ _, Ok []) (λ _, Ok JNull)
             (λ _ _, true))
      test_config (Some "user") (Some "secret") init_state
    = (Ok result,
       after init_state
         [EvHttp (auth_request test_config (Some "user") (Some "secret"))
            (Responded (Response 302 "moved" None EmptyString));
          EvPrint line] (heap init_state))
    ∧ (result = None ↔ (400 ≤ 302 < 600)%Z)
    ∧ (¬ (400 ≤ 302 < 600)%Z →
       result = Some (Text.strip_chars Text.quote_str "moved")).
Proof.
  apply (get_bearer_token_by_status
           (World (λ _ _, Responded (Response 302 "moved" None EmptyString))
                  (λ _, Ok []) (λ _, Ok JNull)
                  (λ _ _, true))
           test_config (Some "user") (Some "secret") init_state
           (Response 302 "moved" None EmptyString)).
  reflexivity.
Defined.





(** ** The loop: pacing, the comment payload, the token *)





Section Pacing.

Context (w : world) (cfg : config).
Context (token : string) (d : pydict) (cp : pyval).



End Pacing.



Section Reuse.

Context (w : world) (cfg : config).
Context (token : string) (d : pydict) (lc : loc) (c : pydict).


End Reuse.



(** With a status payload that is no dictionary, storing the serial
    number of the first record raises [TypeError], right after the line
    announcing the record and before any request is sent. *)
Lemma main_loop_non_dict
    (w : world) (cfg : config) (token : string) (j : json) (cp : pyval)
    (a : asset) (rest : list asset) (st : state) :
  ∃ e line,
    main_loop w cfg token (VConst j) cp (a :: rest) st
    = (Raise e, after st [EvPrint line] (heap st))
    ∧ exn_class e = TypeError.
Proof.
  unfold main_loop. simpl.
  unfold process_asset, deepcopy, setitem. unfold_monad. simpl.
  destruct j; by eexists _, _.
Qed.

Lemma dict_set_nonempty k v d : dict_set k v d ≠ [].
Proof. destruct d as [|[k' v'] d]; simpl; [done|]. by case_decide. Qed.

Lemma dict_of_members_nonempty kv ms : dict_of_members (kv :: ms) ≠ [].
Proof.
  unfold dict_of_members. simpl.
  assert (∀ d, d ≠ [] → foldl (λ d kv, dict_set kv.1 kv.2 d) d ms ≠ []) as H.
  { induction ms as [|x ms IH]; intros d Hd; simpl; [done|].
    apply IH, dict_set_nonempty. }
  apply H. done.
Qed.

Lemma read_ids_from_csv_clean w file_path rows st :
  csv_file w file_path = Ok (Ok <$> rows) →
  Forall has_text rows →
  (read_ids_from_csv w file_path st).1 = Ok (valid_records rows).
Proof.
  intros Hfile Hrows.
  unfold read_ids_from_csv, open_csv. unfold_monad. simpl.
  rewrite Hfile. by rewrite read_rows_clean.
Qed.

Lemma env_incomplete cfg :
  unset (APP_ID cfg) ∨ unset (AUTH_URL cfg) ∨ unset (API_BASE_URL cfg)
  ∨ unset (USERNAME cfg) ∨ unset (PASSWORD cfg) →
  env_complete cfg = false.
Proof.
  assert (∀ o, unset o → str_truthy o = false) as Hun.
  { by intros o [-> | ->]. }
  unfold env_complete. simpl.
  intros [H|[H|[H|[H|H]]]]; apply Hun in H; rewrite H;
    rewrite ?andb_false_r; done.
Qed.

(** X10: when one of the five settings [APP_ID], [AUTH_URL],
    [API_BASE_URL], [ACCOUNT], [PASSWORD] is not set or is empty, [main]
    prints its banner and the fatal line and returns: it makes no HTTP
    call and opens no file. *)
Theorem main_missing_setting (w : world) (cfg : config) :
  unset (APP_ID cfg) ∨ unset (AUTH_URL cfg) ∨ unset (API_BASE_URL cfg)
  ∨ unset (USERNAME cfg) ∨ unset (PASSWORD cfg) →
  main w cfg init_state
  = (Ok tt, State [EvPrint banner; EvPrint fatal_env] []).
Proof.
  intros Hun. rewrite main_unfold, run_print.
  by rewrite (env_incomplete cfg Hun).
Qed.

(** X10 with an empty password. *)
Lemma main_missing_setting_witness :
  main demo_world
    (Config (Some "app") (Some "https://auth.example/token")
       (Some "https://api.example") (Some "user") (Some EmptyString))
    init_state
  = (Ok tt, State [EvPrint banner; EvPrint fatal_env] []).
Proof.
  apply (main_missing_setting demo_world
           (Config (Some "app") (Some "https://auth.example/token")
              (Some "https://api.example") (Some "user") (Some EmptyString))).
  right. right. right. right. right. reflexivity.
Defined.

(** X11: when authentication succeeds and the reader returns no record
    (the file is missing or unreadable, reading it raises at some row,
    or every row is filtered out), [main] opens the CSV file, prints the
    warning and returns: it opens neither template and makes no call
    besides the authentication call. *)
Theorem main_no_valid_rows
    (w : world) (cfg : config) (r : response) (ch : ascii) (token : string) :
  env_complete cfg = true →
  net w 0 (auth_request cfg (USERNAME cfg) (PASSWORD cfg)) = Responded r →
  http_error r = false →
  Text.strip_chars Text.quote_str (text r) = String ch token →
  csv_result w CSV_FILENAME = Ok [] →
  ∃ lines,
    main w cfg init_state
    = (Ok tt,
       State ([EvPrint banner;
               EvHttp (auth_request cfg (USERNAME cfg) (PASSWORD cfg))
                 (Responded r);
               EvPrint "[INFO] Authenticated successfully.";
               EvOpen CSV_FILENAME]
              ++ (EvPrint <$> lines) ++ [EvPrint no_assets_line]) []).
Proof.
  intros Henv Hnet Herr Htok Hrows.
  rewrite (main_reaches_csv w cfg r ch token Henv Hnet Herr Htok).
  set (st := State _ []).
  destruct (main_from_csv_no_assets w cfg (String ch token) st)
    as [lines Hrun]; [by rewrite csv_result_eq|].
  exists lines. rewrite Hrun. done.
Qed.

(** X11 on a file whose first row is valid and at whose second row the
    reader raises. *)
Lemma main_no_valid_rows_witness :
  ∃ lines,
    main world_interrupted test_config init_state
    = (Ok tt,
       State ([EvPrint banner;
               EvHttp (auth_request test_config (USERNAME test_config)
                         (PASSWORD test_config))
                 (Responded
                    (Response 200 (Text.quoted "tok") None EmptyString));
               EvPrint "[INFO] Authenticated successfully.";
               EvOpen CSV_FILENAME]
              ++ (EvPrint <$> lines) ++ [EvPrint no_assets_line]) []).
Proof.
  apply (main_no_valid_rows world_interrupted test_config
           (Response 200 (Text.quoted "tok") None EmptyString)
           (ascii_of_nat 116) "ok").
  - reflexivity.
  - reflexivity.
  - reflexivity.
  - reflexivity.
  - vm_compute. reflexivity.
Defined.



(** X9: a status template that decodes to something truthy that is no
    object (a non-empty JSON array or string, a number, [true]) passes
    the check of [main] and then makes the run fail at its first record:
    storing the serial number raises [TypeError], nothing catches it,
    and no update or feed request has been sent; the authentication call
    is the only HTTP call of the run. *)
Theorem main_crashes_on_non_object_template
    (w : world) (cfg : config) (r : response) (ch : ascii) (token : string)
    (rows : list row) (a : asset) (rest : list asset)
    (j : json) (c : string * json) (cs : list (string * json)) :
  env_complete cfg = true →
  net w 0 (auth_request cfg (USERNAME cfg) (PASSWORD cfg)) = Responded r →
  http_error r = false →
  Text.strip_chars Text.quote_str (text r) = String ch token →
  csv_file w CSV_FILENAME = Ok (Ok <$> rows) →
  Forall has_text rows →
  valid_records rows = a :: rest →
  json_file w DISPOSED_STATUS_JSON = Ok j →
  truthy_non_object j →
  json_file w COMMENT_JSON = Ok (JObj (c :: cs)) →
  ∃ e st',
    main w cfg init_state = (Raise e, st')
    ∧ exn_class e = TypeError
    ∧ http_log st'
      = [(auth_request cfg (USERNAME cfg) (PASSWORD cfg), Responded r)].
Proof.
  intros Henv Hnet Herr Htok Hcsv Hrows Hvalid Hst Hj Hcm.
  rewrite (main_reaches_csv w cfg r ch token Henv Hnet Herr Htok).
  set (st1 := State _ []).
  rewrite (main_from_csv_reaches_templates w cfg (String ch token) st1 a rest)
    by (by rewrite (read_ids_from_csv_clean w _ rows st1 Hcsv Hrows), Hvalid).
  assert (loaded (Ok j) (heap (after st1 [EvOpen CSV_FILENAME] (heap st1)))
          = (VConst j, [])) as Hload.
  { by destruct j. }
  rewrite (main_from_templates_reaches_loop w cfg (String ch token) (a :: rest)
             _ _ _ Hst Hcm); rewrite ?Hload; cycle 1.
  { simpl. by destruct j. }
  { simpl. destruct (dict_of_members (c :: cs)) eqn:E; [|done].
    by apply dict_of_members_nonempty in E. }
  rewrite after_after. cbn [fst snd].
  set (st2 := after _ _ _).
  destruct (main_loop_non_dict w cfg (String ch token) j
              (loaded (Ok (JObj (c :: cs))) []).1 a rest st2)
    as (e & line & Hrun & He).
  rewrite (run_bind_raise _ _ _ _ _ Hrun).
  by eexists e, _.
Qed.

(** X9 when the status template holds an array. *)
Lemma main_crashes_on_non_object_template_witness :
  ∃ e st',
    main world_array_template test_config init_state = (Raise e, st')
    ∧ exn_class e = TypeError
    ∧ http_log st'
      = [(auth_request test_config (USERNAME test_config)
            (PASSWORD test_config),
          Responded (Response 200 (Text.quoted "tok") None EmptyString))].
Proof.
  apply (main_crashes_on_non_object_template world_array_template test_config
           (Response 200 (Text.quoted "tok") None EmptyString)
           (ascii_of_nat 116) "ok" filled_rows
           (Asset "1" "ABC") [Asset "2" "XYZ"]
           (JArr [JObj demo_status]) ("body", JStr "Disposed") []).
  - reflexivity.
  - reflexivity.
  - reflexivity.
  - reflexivity.
  - reflexivity.
  - repeat constructor; vm_compute; discriminate.
  - vm_compute. reflexivity.
  - reflexivity.
  - reflexivity.
  - reflexivity.
Defined.

Section Returns.

Context (w : world) (cfg : config).



End Returns.



(** ** What the reader looks at *)

Lemma read_rows_same_fields reader1 reader2 :
  Forall2 same_fields reader1 reader2 →
  ∀ acc st,
    (∃ e1 e2, read_rows reader1 acc st = (Raise e1, st)
              ∧ read_rows reader2 acc st = (Raise e2, st))
    ∨ (∃ found, read_rows reader1 acc st = (Ok found, st)
                ∧ read_rows reader2 acc st = (Ok found, st)).
Proof.
  induction 1 as [|x y reader1 reader2 Hxy _ IH]; intros acc st.
  - right. by eexists.
  - destruct x as [r|e], y as [r'|e']; simpl in Hxy; try done.
    + destruct Hxy as [Hid Hsn].
      simpl. unfold cell_strip, row_get. unfold_monad.
      rewrite <- Hid, <- Hsn.
      repeat case_match; simplify_eq;
        try (left; by eexists _, _); apply IH.
    + left. by eexists _, _.
Qed.

(** X14: the reader looks at the ID and the Serial Number of a row and
    at nothing else.  Two files that open and whose rows agree on these
    two cells, row by row, give the same result, whatever their other
    columns (the Asset Tag among them) hold. *)
Theorem read_ids_from_csv_other_columns_ignored
    (w1 w2 : world) (file_path : string)
    (reader1 reader2 : list (result row)) (st : state) :
  csv_file w1 file_path = Ok reader1 →
  csv_file w2 file_path = Ok reader2 →
  Forall2 same_fields reader1 reader2 →
  (read_ids_from_csv w1 file_path st).1
  = (read_ids_from_csv w2 file_path st).1.
Proof.
  intros H1 H2 Hsame.
  destruct (read_ids_from_csv_catch w1 file_path st)
    as (a1 & l1 & Hrun1 & Hb1).
  destruct (read_ids_from_csv_catch w2 file_path st)
    as (a2 & l2 & Hrun2 & Hb2).
  specialize (Hb1 _ eq_refl). specialize (Hb2 _ eq_refl).
  rewrite H1 in Hb1. rewrite H2 in Hb2. rewrite Hrun1, Hrun2. simpl.
  destruct (read_rows_same_fields reader1 reader2 Hsame []
              (after st [EvOpen file_path] (heap st)))
    as [(e1 & e2 & He1 & He2)|(found & Hf1 & Hf2)].
  - rewrite He1 in Hb1. rewrite He2 in Hb2.
    destruct Hb1 as [-> _], Hb2 as [-> _]. done.
  - rewrite Hf1 in Hb1. rewrite Hf2 in Hb2.
    destruct Hb1 as [-> _], Hb2 as [-> _]. done.
Qed.

(** X14 on a row with and without an Asset Tag. *)
Lemma read_ids_from_csv_other_columns_ignored_witness :
  (read_ids_from_csv
     (world_of_reader
        [Ok {[ "ID" := Some "1"; "Serial Number" := Some "ABC";
               "Asset Tag" := Some "T1" ]}])
     CSV_FILENAME init_state).1
  = (read_ids_from_csv
       (world_of_reader
          [Ok {[ "ID" := Some "1"; "Serial Number" := Some "ABC" ]}])
       CSV_FILENAME init_state).1.
Proof.
  apply (read_ids_from_csv_other_columns_ignored
           (world_of_reader
              [Ok {[ "ID" := Some "1"; "Serial Number" := Some "ABC";
                     "Asset Tag" := Some "T1" ]}])
           (world_of_reader
              [Ok {[ "ID" := Some "1"; "Serial Number" := Some "ABC" ]}])
           CSV_FILENAME
           [Ok {[ "ID" := Some "1"; "Serial Number" := Some "ABC";
                  "Asset Tag" := Some "T1" ]}]
           [Ok {[ "ID" := Some "1"; "Serial Number" := Some "ABC" ]}]
           init_state).
  - reflexivity.
  - reflexivity.
  - repeat constructor; vm_compute; reflexivity.
Defined.

(** ** The order of the operations of an update document *)



